(** * mc2skos: MARC21 Classification records to SKOS

    A shallow embedding of [mc2skos/mc2skos.py]: the graph builder
    [add_record_to_graph], the per-record pipeline [process_record] and the
    driver [main] with its three output formats.

    The RDF store, the Turtle serializer, the JSON-LD transformation and the
    modules [record], [element] and [constants] are collaborators of this
    file.  They appear here at their interface: the store as the log of the
    statements added to it, which like rdflib's takes terms only; the output
    streams by what they accept under either Python; the others as variables
    of the sections below. *)

From Stdlib Require Import String Ascii List Bool Arith Lia.
Import ListNotations.

Local Open Scope string_scope.
Local Open Scope list_scope.

Set Implicit Arguments.

(** ** RDF terms and statements *)

(** Value held by an rdflib [Literal]: a text, or the Python boolean of
    [Literal(True)]. *)
Inductive literal_value : Type :=
| LStr (s : string)
| LBool (b : bool).

(** What the code hands to [graph.add] in a subject, predicate or object
    position.  [PyStr] is a plain Python string that was not wrapped in
    [URIRef(...)]. *)
Inductive node : Type :=
| URIRef (iri : string)
| BNode (id : nat)
| Literal (value : literal_value) (lang : option string) (datatype : option string)
| PyStr (s : string).

Definition triple : Type := (node * node * node)%type.

Definition subj (t : triple) : node := fst (fst t).
Definition pred (t : triple) : node := snd (fst t).
Definition obj (t : triple) : node := snd t.

Definition literal_value_eqb (a b : literal_value) : bool :=
  match a, b with
  | LStr x, LStr y => String.eqb x y
  | LBool x, LBool y => Bool.eqb x y
  | _, _ => false
  end.

Definition option_eqb {A} (eqb : A -> A -> bool) (a b : option A) : bool :=
  match a, b with
  | Some x, Some y => eqb x y
  | None, None => true
  | _, _ => false
  end.

Definition node_eqb (a b : node) : bool :=
  match a, b with
  | URIRef x, URIRef y => String.eqb x y
  | BNode x, BNode y => Nat.eqb x y
  | Literal v l d, Literal v' l' d' =>
      literal_value_eqb v v' && option_eqb String.eqb l l' && option_eqb String.eqb d d'
  | PyStr x, PyStr y => String.eqb x y
  | _, _ => false
  end.

(** The text carried by a node, whatever its kind. *)
Definition node_text (t : node) : option string :=
  match t with
  | URIRef s => Some s
  | PyStr s => Some s
  | Literal (LStr s) _ _ => Some s
  | _ => None
  end.

Definition is_URIRef (t : node) : bool :=
  match t with URIRef _ => true | _ => false end.

(** [isinstance(t, Node)]: an rdflib term, which a plain string is not. *)
Definition is_Node (t : node) : bool :=
  match t with PyStr _ => false | _ => true end.

(** [Namespace(base)[name]] and [Namespace(base).name]. *)
Definition Namespace (base name : string) : node := URIRef (base ++ name)%string.

Module RDF.
Definition ns := "http://www.w3.org/1999/02/22-rdf-syntax-ns#".
Definition type := Namespace ns "type".
Definition first := Namespace ns "first".
Definition rest := Namespace ns "rest".
Definition nil := Namespace ns "nil".
End RDF.

Module SKOS.
Definition ns := "http://www.w3.org/2004/02/skos/core#".
Definition Concept := Namespace ns "Concept".
Definition topConceptOf := Namespace ns "topConceptOf".
Definition inScheme := Namespace ns "inScheme".
Definition notation := Namespace ns "notation".
Definition prefLabel := Namespace ns "prefLabel".
Definition altLabel := Namespace ns "altLabel".
Definition broader := Namespace ns "broader".
Definition definition := Namespace ns "definition".
Definition editorialNote := Namespace ns "editorialNote".
Definition scopeNote := Namespace ns "scopeNote".
Definition historyNote := Namespace ns "historyNote".
End SKOS.

Module DCTERMS.
Definition ns := "http://purl.org/dc/terms/".
Definition created := Namespace ns "created".
Definition modified := Namespace ns "modified".
End DCTERMS.

Module OWL.
Definition ns := "http://www.w3.org/2002/07/owl#".
Definition deprecated := Namespace ns "deprecated".
End OWL.

Module XSD.
Definition ns := "http://www.w3.org/2001/XMLSchema#".
Definition date := (ns ++ "date")%string.
End XSD.

Definition WD : string -> node := Namespace "http://data.ub.uio.no/webdewey-terms#".
Definition MADS : string -> node := Namespace "http://www.loc.gov/mads/rdf/v1#".

(** ** The world the program runs in *)

Inductive level : Type := DEBUG | INFO | WARNING.

Inductive log_arg : Type :=
| ArgInt (n : nat)
| ArgStr (s : string)
| ArgRate.   (* records per second, read from the clock *)

Inductive stream : Type :=
| Stdout
| File (path : string).

(** The interpreter.  The one difference that reaches this file: under
    Python 2 a [str] is a byte string, under Python 3 it is a text. *)
Inductive python : Type := Python2 | Python3.

(** [out.write(text)] with the [str] that [json.dumps] returns.
    [sys.stdout] takes it; a file opened ['wb'] takes bytes, so under
    Python 3 it refuses the text with [TypeError]. *)
Definition takes_text (py : python) (out : stream) : bool :=
  match py, out with
  | Python3, File _ => false
  | _, _ => true
  end.

(** [out.write(data)] with encoded bytes, which is how the Turtle serializer
    writes.  A file opened ['wb'] takes them; [sys.stdout] is a text stream
    under Python 3 and refuses them with [TypeError]. *)
Definition takes_bytes (py : python) (out : stream) : bool :=
  match py, out with
  | Python3, Stdout => false
  | _, _ => true
  end.

(** What the run does to the outside, in order. *)
Inductive event : Type :=
| Log (lvl : level) (fmt : string) (args : list log_arg)
| SetLevel (lvl : level)                       (* console_handler.setLevel *)
| Open (path : string) (mode : string)
| SerializeTurtle (out : stream) (g : list triple)
| FileWrite (out : stream) (text : string).

Inductive exn : Type :=
| InvalidRecordError (msg : string)
| IndexError
| TypeError
| KeyError
| AssertionError
| ValueError (msg : string)
| XMLSyntaxError.

(** [graph]: the statements added to the store, oldest first.
    [bnodes]: how many anonymous nodes [BNode()] has minted.
    [trace]: the events so far. *)
Record world : Type := {
  graph : list triple;
  bnodes : nat;
  trace : list event
}.

Definition empty_world : world := {| graph := []; bnodes := 0; trace := [] |}.

(** ** A state and exception monad

    The state survives an exception: what was logged, added or changed
    before a [raise] stays.  [St S] is the monad over a state [S]; the
    program runs in [M], whose state is the world. *)
Definition St (S A : Type) : Type := S -> (exn + A) * S.

Definition M : Type -> Type := St world.

Definition ret {S A} (a : A) : St S A := fun s => (inr a, s).

Definition bind {S A B} (m : St S A) (k : A -> St S B) : St S B :=
  fun s => match m s with
           | (inr a, s') => k a s'
           | (inl e, s') => (inl e, s')
           end.

Definition raise {S A} (e : exn) : St S A := fun s => (inl e, s).

Definition try_except {S A} (m : St S A) (handler : exn -> St S A) : St S A :=
  fun s => match m s with
           | (inr a, s') => (inr a, s')
           | (inl e, s') => handler e s'
           end.

Declare Scope py_scope.
Delimit Scope py_scope with py.
Notation "x <- m ;; k" := (bind m (fun x => k))
  (at level 100, m at next level, right associativity) : py_scope.
Notation "m ;; k" := (bind m (fun _ => k))
  (at level 100, right associativity) : py_scope.
Local Open Scope py_scope.

(** The three of a statement are rdflib terms. *)
Definition all_Nodes (t : triple) : bool :=
  is_Node (subj t) && is_Node (pred t) && is_Node (obj t).

(** [graph.add(t)]: rdflib asserts that subject, predicate and object are
    terms, and adds nothing otherwise. *)
Definition graph_add (t : triple) : M unit :=
  fun w =>
    if all_Nodes t
    then (inr tt, {| graph := graph w ++ [t]; bnodes := bnodes w; trace := trace w |})
    else (inl AssertionError, w).

(** [BNode()]: a node no earlier call returned. *)
Definition new_BNode : M node :=
  fun w => (inr (BNode (bnodes w)),
            {| graph := graph w; bnodes := S (bnodes w); trace := trace w |}).

Definition emit (e : event) : M unit :=
  fun w => (inr tt, {| graph := graph w; bnodes := bnodes w; trace := trace w ++ [e] |}).

Definition get_graph : M (list triple) := fun w => (inr (graph w), w).

(** [Graph()]: the run starts on an empty store. *)
Definition new_Graph : M unit :=
  fun w => (inr tt, {| graph := []; bnodes := bnodes w; trace := trace w |}).

(** [for x in l: body(x)] *)
Fixpoint for_each {A} (l : list A) (body : A -> M unit) : M unit :=
  match l with
  | [] => ret tt
  | x :: l' => body x ;; for_each l' body
  end.

(** [for x in l: s = body(s, x)], for a loop that carries a variable. *)
Fixpoint for_fold {A S} (l : list A) (s : S) (body : S -> A -> M S) : M S :=
  match l with
  | [] => ret s
  | x :: l' => s' <- body s x ;; for_fold l' s' body
  end.

Definition when (b : bool) (m : M unit) : M unit := if b then m else ret tt.

(** Python truth value of [str | None]. *)
Definition truthy (s : option string) : bool :=
  match s with
  | Some s => negb (String.eqb s "")
  | None => false
  end.

(** ** Run options

    The dictionary [options] that [main] builds from the command line and
    passes on as [**kwargs]. *)
Record Options : Type := {
  base_uri : option string;
  scheme_uri : option string;
  table_scheme_uri : option string;
  include_indexterms : bool;
  include_notes : bool;
  include_components : bool
}.

Module Constants.

(** Modelled from the spec: the values of [Constants], a module whose source
    is not at hand.  The spec gives a record type two values, Classification
    and Table; the code names the second [Constants.TABLE_RECORD]. *)
Inductive record_type : Type := CLASSIFICATION_RECORD | TABLE_RECORD.

Definition eqb (a b : record_type) : bool :=
  match a, b with
  | CLASSIFICATION_RECORD, CLASSIFICATION_RECORD => true
  | TABLE_RECORD, TABLE_RECORD => true
  | _, _ => false
  end.

End Constants.

(** One entry of [record.altLabel], a dictionary read at its key ['term']. *)
Record index_term : Type := { term : string }.

(** ** The graph builder *)

Section GraphBuilder.

(** [datetime] values and their [strftime('%F')]. *)
Variable date : Type.
Variable strftime_F : date -> string.

(** The attributes of a [ClassificationRecord] that this file reads. *)
Record ClassificationRecord : Type := {
  uri : option string;
  scheme_uris : list string;
  is_top_concept : bool;
  created : option date;
  modified : option date;
  notation : option string;
  record_type : Constants.record_type;
  prefLabel : option string;
  lang : option string;
  altLabel : list index_term;
  broader : list string;
  definition : list string;
  editorialNote : list string;
  scopeNote : list string;
  historyNote : list string;
  deprecated : bool;
  components : list string;
  webDeweyExtras : list (string * string)
}.

(** [record.components] after an in-place change of the list. *)
Definition set_components (record : ClassificationRecord) (cs : list string)
  : ClassificationRecord :=
  {| uri := uri record;
     scheme_uris := scheme_uris record;
     is_top_concept := is_top_concept record;
     created := created record;
     modified := modified record;
     notation := notation record;
     record_type := record_type record;
     prefLabel := prefLabel record;
     lang := lang record;
     altLabel := altLabel record;
     broader := broader record;
     definition := definition record;
     editorialNote := editorialNote record;
     scopeNote := scopeNote record;
     historyNote := historyNote record;
     deprecated := deprecated record;
     components := cs;
     webDeweyExtras := webDeweyExtras record |}.

(** [record.get_uri(collection=..., object=...)], defined in the module
    [record]; it returns a plain string. *)
Variable get_uri : ClassificationRecord -> string -> string -> string.

(** [URIRef(v)]; rdflib refuses [None]. *)
Definition new_URIRef (v : option string) : M node :=
  match v with
  | Some s => ret (URIRef s)
  | None => raise TypeError
  end.

(** A call is handed two objects that it can change: the record, and with
    the graph the world.  What it has done to them stays done when it
    raises. *)
Definition call_state : Type := (ClassificationRecord * world)%type.

(** Code that leaves the record alone. *)
Definition on_world {A} (m : M A) : St call_state A :=
  fun s => let (r, w) := m (snd s) in (r, (fst s, w)).

(** The record as it is now. *)
Definition the_record : St call_state ClassificationRecord :=
  fun s => (inr (fst s), s).

(** [record.components.pop(0)] takes the first element out of the record's
    own list. *)
Definition pop_component : St call_state string :=
  fun s =>
    match components (fst s) with
    | [] => (inl IndexError, s)          (* pop from empty list *)
    | component :: remaining =>
        (inr component, (set_components (fst s) remaining, snd s))
    end.

Definition add_record_to_graph (options : Options) : St call_state unit :=
  record <- the_record ;;
  record_uri <- on_world (new_URIRef (uri record)) ;;

  on_world (
    graph_add (record_uri, RDF.type, SKOS.Concept) ;;

    (* Add skos:topConceptOf or skos:inScheme *)
    for_each (scheme_uris record) (fun scheme_uri =>
      if is_top_concept record
      then graph_add (record_uri, SKOS.topConceptOf, URIRef scheme_uri)
      else graph_add (record_uri, SKOS.inScheme, URIRef scheme_uri)) ;;

    match created record with
    | Some d => graph_add (record_uri, DCTERMS.created,
                           Literal (LStr (strftime_F d)) None (Some XSD.date))
    | None => ret tt
    end ;;

    match modified record with
    | Some d => graph_add (record_uri, DCTERMS.modified,
                           Literal (LStr (strftime_F d)) None (Some XSD.date))
    | None => ret tt
    end ;;

    (* Add classification number as skos:notation *)
    match notation record with
    | Some n =>
        when (truthy (notation record))
          (if Constants.eqb (record_type record) Constants.TABLE_RECORD
           then graph_add (record_uri, SKOS.notation, Literal (LStr ("T" ++ n)%string) None None)
           else graph_add (record_uri, SKOS.notation, Literal (LStr n) None None))
    | None => ret tt
    end ;;

    (* Add caption as skos:prefLabel *)
    match prefLabel record with
    | Some l =>
        when (truthy (prefLabel record))
          (graph_add (record_uri, SKOS.prefLabel, Literal (LStr l) (lang record) None))
    | None => ret tt
    end ;;

    (* Add index terms as skos:altLabel *)
    when (include_indexterms options)
      (for_each (altLabel record) (fun label =>
         graph_add (record_uri, SKOS.altLabel, Literal (LStr (term label)) (lang record) None))) ;;

    (* Add skos:broader *)
    for_each (broader record) (fun parent_uri =>
      graph_add (record_uri, SKOS.broader, URIRef parent_uri)) ;;

    (* Add notes *)
    when (include_notes options)
      (for_each (definition record) (fun note =>
         graph_add (record_uri, SKOS.definition, Literal (LStr note) (lang record) None)) ;;
       for_each (editorialNote record) (fun note =>
         graph_add (record_uri, SKOS.editorialNote, Literal (LStr note) (lang record) None)) ;;
       for_each (scopeNote record) (fun note =>
         graph_add (record_uri, SKOS.scopeNote, Literal (LStr note) (lang record) None)) ;;
       for_each (historyNote record) (fun note =>
         graph_add (record_uri, SKOS.historyNote, Literal (LStr note) (lang record) None))) ;;

    (* Deprecated? *)
    when (deprecated record)
      (graph_add (record_uri, OWL.deprecated, Literal (LBool true) None None))) ;;

  (* Add synthesized number components *)
  (if include_components options && negb (Nat.eqb (length (components record)) 0)
   then
     component <- pop_component ;;
     record <- the_record ;;
     on_world (
       let component_uri := URIRef (get_uri record "class" component) in
       b1 <- new_BNode ;;
       graph_add (record_uri, MADS "componentList", b1) ;;
       graph_add (b1, RDF.first, component_uri) ;;

       b1 <- for_fold (components record) b1 (fun b1 component =>
               (* no URIRef(...) here: a plain string goes to the store *)
               let component_uri := PyStr (get_uri record "class" component) in
               b2 <- new_BNode ;;
               graph_add (b1, RDF.rest, b2) ;;
               graph_add (b2, RDF.first, component_uri) ;;
               ret b2) ;;

       graph_add (b1, RDF.rest, RDF.nil))
   else ret tt) ;;

  (* Add webDewey extras *)
  record <- the_record ;;
  on_world (
    for_each (webDeweyExtras record) (fun kv =>
      graph_add (record_uri, WD (fst kv), Literal (LStr (snd kv)) (lang record) None))).

(** [f(..., record, ...)] as a statement, by a caller that does not use the
    record again. *)
Definition call {A} (record : ClassificationRecord) (f : St call_state A) : M A :=
  fun w => let (r, s) := f (record, w) in (r, snd s).

(** *** The statements of one call, section by section

    [s] is the record's subject node and [k] the number of anonymous nodes
    minted before the call. *)

Definition membership_predicate (record : ClassificationRecord) : node :=
  if is_top_concept record then SKOS.topConceptOf else SKOS.inScheme.

Definition scheme_statements (s : node) (record : ClassificationRecord) : list triple :=
  map (fun scheme_uri => (s, membership_predicate record, URIRef scheme_uri))
      (scheme_uris record).

Definition date_statements (s p : node) (d : option date) : list triple :=
  match d with
  | Some d => [(s, p, Literal (LStr (strftime_F d)) None (Some XSD.date))]
  | None => []
  end.

Definition notation_literal (record : ClassificationRecord) (n : string) : node :=
  if Constants.eqb (record_type record) Constants.TABLE_RECORD
  then Literal (LStr ("T" ++ n)%string) None None
  else Literal (LStr n) None None.

Definition notation_statements (s : node) (record : ClassificationRecord) : list triple :=
  match notation record with
  | Some n =>
      if truthy (notation record)
      then [(s, SKOS.notation, notation_literal record n)]
      else []
  | None => []
  end.

Definition prefLabel_statements (s : node) (record : ClassificationRecord) : list triple :=
  match prefLabel record with
  | Some l =>
      if truthy (prefLabel record)
      then [(s, SKOS.prefLabel, Literal (LStr l) (lang record) None)]
      else []
  | None => []
  end.

Definition text_statements (s p : node) (record : ClassificationRecord) (l : list string)
  : list triple :=
  map (fun x => (s, p, Literal (LStr x) (lang record) None)) l.

Definition altLabel_statements (s : node) (record : ClassificationRecord) (options : Options)
  : list triple :=
  if include_indexterms options
  then text_statements s SKOS.altLabel record (map term (altLabel record))
  else [].

Definition broader_statements (s : node) (record : ClassificationRecord) : list triple :=
  map (fun parent_uri => (s, SKOS.broader, URIRef parent_uri)) (broader record).

Definition note_statements (s : node) (record : ClassificationRecord) (options : Options)
  : list triple :=
  if include_notes options
  then text_statements s SKOS.definition record (definition record)
       ++ text_statements s SKOS.editorialNote record (editorialNote record)
       ++ text_statements s SKOS.scopeNote record (scopeNote record)
       ++ text_statements s SKOS.historyNote record (historyNote record)
  else [].

Definition deprecated_statements (s : node) (record : ClassificationRecord) : list triple :=
  if deprecated record then [(s, OWL.deprecated, Literal (LBool true) None None)] else [].

Definition wants_components (record : ClassificationRecord) (options : Options) : bool :=
  include_components options && negb (Nat.eqb (length (components record)) 0).

(** The call comes to a second component, whose identifier the store
    refuses. *)
Definition breaks (record : ClassificationRecord) (options : Options) : bool :=
  wants_components record options && Nat.leb 2 (length (components record)).

(** What the head node [BNode k] is given as its [rdf:rest]: the end of the
    list after a single component, the node minted for the second
    otherwise. *)
Definition head_rest (k : nat) (remaining : list string) : node :=
  match remaining with
  | [] => RDF.nil
  | _ :: _ => BNode (S k)
  end.

(** The statements of the component block: the link to the head node, the
    head's element and the head's [rdf:rest]. *)
Definition component_statements (s : node) (record : ClassificationRecord)
           (options : Options) (k : nat) : list triple :=
  if wants_components record options
  then
    match components record with
    | [] => []
    | c :: cs =>
        let record' := set_components record cs in
        [(s, MADS "componentList", BNode k);
         (BNode k, RDF.first, URIRef (get_uri record' "class" c));
         (BNode k, RDF.rest, head_rest k cs)]
    end
  else [].

Definition extras_statements (s : node) (record : ClassificationRecord) : list triple :=
  map (fun kv => (s, WD (fst kv), Literal (LStr (snd kv)) (lang record) None))
      (webDeweyExtras record).

(** Everything before the component chain. *)
Definition leading_statements (s : node) (record : ClassificationRecord) (options : Options)
  : list triple :=
  [(s, RDF.type, SKOS.Concept)]
  ++ scheme_statements s record
  ++ date_statements s DCTERMS.created (created record)
  ++ date_statements s DCTERMS.modified (modified record)
  ++ notation_statements s record
  ++ prefLabel_statements s record
  ++ altLabel_statements s record options
  ++ broader_statements s record
  ++ note_statements s record options
  ++ deprecated_statements s record.

(** All that a call adds to the store; the vendor extras come after the
    component block and are not reached when that breaks. *)
Definition record_statements (s : node) (record : ClassificationRecord)
           (options : Options) (k : nat) : list triple :=
  leading_statements s record options
  ++ component_statements s record options k
  ++ (if breaks record options then [] else extras_statements s record).

(** How the call ends. *)
Definition call_outcome (record : ClassificationRecord) (options : Options) : exn + unit :=
  if breaks record options then inl AssertionError else inr tt.

(** The record object after the call. *)
Definition record_after (record : ClassificationRecord) (options : Options)
  : ClassificationRecord :=
  if wants_components record options
  then set_components record (tl (components record))
  else record.

(** Anonymous nodes minted by the call: none without a component block, one
    for the head, and one more for a second component. *)
Definition minted (record : ClassificationRecord) (options : Options) : nat :=
  if wants_components record options
  then (if Nat.leb 2 (length (components record)) then 2 else 1)
  else 0.

End GraphBuilder.

(** ** Reading a component chain back

    How a consumer of the graph walks an RDF list: from a node, its one
    [rdf:first] object is the element and its one [rdf:rest] object is the
    next node, until [rdf:nil]. *)
Definition objects (g : list triple) (s p : node) : list node :=
  map obj (filter (fun t => node_eqb (subj t) s && node_eqb (pred t) p) g).

Fixpoint rdf_list (fuel : nat) (g : list triple) (n : node) : option (list (node * node)) :=
  match fuel with
  | 0 => None
  | S fuel' =>
      if node_eqb n RDF.nil then Some []
      else
        match objects g n RDF.first, objects g n RDF.rest with
        | [x], [r] =>
            match rdf_list fuel' g r with
            | Some l => Some ((n, x) :: l)
            | None => None
            end
        | _, _ => None
        end
  end.

(** ** JSON values and the Python operations [main] applies to them *)

#[local] Unset Elimination Schemes.
Inductive json : Type :=
| JNull
| JBool (b : bool)
| JNum (repr : string)
| JStr (s : string)
| JArr (items : list json)
| JObj (members : list (string * json)).
#[local] Set Elimination Schemes.

Fixpoint dict_get (d : list (string * json)) (key : string) : option json :=
  match d with
  | [] => None
  | (k, v) :: d' => if String.eqb k key then Some v else dict_get d' key
  end.

Fixpoint dict_set (d : list (string * json)) (key : string) (v : json)
  : list (string * json) :=
  match d with
  | [] => [(key, v)]
  | (k, v') :: d' =>
      if String.eqb k key then (k, v) :: d' else (k, v') :: dict_set d' key v
  end.

Fixpoint chars (s : string) : list string :=
  match s with
  | EmptyString => []
  | String c s' => String c EmptyString :: chars s'
  end.

Definition is_JStr (key : string) (j : json) : bool :=
  match j with JStr s => String.eqb s key | _ => false end.

Definition lift {A} (r : exn + A) : M A := fun w => (r, w).

(** [key in j] *)
Definition py_contains (key : string) (j : json) : exn + bool :=
  match j with
  | JObj d => inr (match dict_get d key with Some _ => true | None => false end)
  | JArr l => inr (existsb (is_JStr key) l)
  | JStr s => inr (match String.index 0 key s with Some _ => true | None => false end)
  | _ => inl TypeError
  end.

(** [j[key]] for a string key *)
Definition py_getitem (j : json) (key : string) : exn + json :=
  match j with
  | JObj d => match dict_get d key with Some v => inr v | None => inl KeyError end
  | _ => inl TypeError
  end.

(** [j[key] = v] for a string key *)
Definition py_setitem (j : json) (key : string) (v : json) : exn + json :=
  match j with
  | JObj d => inr (JObj (dict_set d key v))
  | _ => inl TypeError
  end.

(** The elements a [for] loop over [j] visits. *)
Definition py_iter (j : json) : exn + list json :=
  match j with
  | JArr l => inr l
  | JObj d => inr (map (fun kv => JStr (fst kv)) d)
  | JStr s => inr (map JStr (chars s))
  | _ => inl TypeError
  end.

Definition jskos_context : string := "https://gbv.github.io/jskos/context.json".

Definition newline : string := String (ascii_of_nat 10) EmptyString.

(** ** Regular expressions of the subject sorters

    The two patterns handed to the Turtle serializer use literals, escaped
    literals and capturing groups of the shape [([...]+)].  [search] is
    Python's [re.search] on this fragment: leftmost match, each group as long
    as possible, giving way one character at a time when the rest fails. *)
Module Re.

Inductive class_item : Type :=
| Range (lo hi : ascii)
| Char (c : ascii)
| EscChar (c : ascii).

Inductive atom : Type :=
| Lit (c : ascii)
| EscLit (c : ascii)
| Group (cls : list class_item).

Definition pattern : Type := list atom.

Definition one (c : ascii) : string := String c EmptyString.

Definition class_item_text (i : class_item) : string :=
  match i with
  | Range lo hi => (one lo ++ "-" ++ one hi)%string
  | Char c => one c
  | EscChar c => ("\" ++ one c)%string
  end.

Definition atom_text (a : atom) : string :=
  match a with
  | Lit c => one c
  | EscLit c => ("\" ++ one c)%string
  | Group cls => ("([" ++ String.concat "" (map class_item_text cls) ++ "]+)")%string
  end.

(** The pattern as it is written in the source. *)
Definition text (p : pattern) : string := String.concat "" (map atom_text p).

Definition in_item (c : ascii) (i : class_item) : bool :=
  match i with
  | Range lo hi =>
      Nat.leb (nat_of_ascii lo) (nat_of_ascii c) && Nat.leb (nat_of_ascii c) (nat_of_ascii hi)
  | Char x => Ascii.eqb c x
  | EscChar x => Ascii.eqb c x
  end.

Definition in_class (cls : list class_item) (c : ascii) : bool :=
  existsb (in_item c) cls.

(** Length of the longest prefix of [s] made of characters of [cls]. *)
Fixpoint span (cls : list class_item) (s : string) : nat :=
  match s with
  | String c s' => if in_class cls c then S (span cls s') else 0
  | EmptyString => 0
  end.

Fixpoint take (k : nat) (s : string) : string :=
  match k, s with
  | S k', String c s' => String c (take k' s')
  | _, _ => EmptyString
  end.

Fixpoint drop (k : nat) (s : string) : string :=
  match k, s with
  | S k', String _ s' => drop k' s'
  | _, _ => s
  end.

(** First success of [f] at [n], [n-1], ..., [1]. *)
Fixpoint longest_first {A} (n : nat) (f : nat -> option A) : option A :=
  match n with
  | 0 => None
  | S m => match f (S m) with
           | Some r => Some r
           | None => longest_first m f
           end
  end.

(** Match [p] at the start of [s]; [groups] holds the groups closed so far,
    latest first. *)
Fixpoint match_here (p : pattern) (s : string) (groups : list string)
  : option (list string) :=
  match p with
  | [] => Some (rev groups)
  | Lit c :: p' | EscLit c :: p' =>
      match s with
      | String x s' => if Ascii.eqb x c then match_here p' s' groups else None
      | EmptyString => None
      end
  | Group cls :: p' =>
      longest_first (span cls s)
        (fun k => match_here p' (drop k s) (take k s :: groups))
  end.

(** [re.search(p, s).groups()], or [None] when [p] occurs nowhere in [s]. *)
Fixpoint search (p : pattern) (s : string) : option (list string) :=
  match match_here p s [] with
  | Some g => Some g
  | None =>
      match s with
      | String _ s' => search p s'
      | EmptyString => None
      end
  end.

End Re.

(** ['/([0-9A-Z\-]+)\-\-([0-9.\-;:]+)/e'] *)
Definition table_pattern : Re.pattern :=
  [ Re.Lit "/";
    Re.Group [Re.Range "0" "9"; Re.Range "A" "Z"; Re.EscChar "-"];
    Re.EscLit "-"; Re.EscLit "-";
    Re.Group [Re.Range "0" "9"; Re.Char "."; Re.EscChar "-"; Re.Char ";"; Re.Char ":"];
    Re.Lit "/"; Re.Lit "e" ]%char.

(** ['/([0-9.\-;:]+)/e'] *)
Definition schedule_pattern : Re.pattern :=
  [ Re.Lit "/";
    Re.Group [Re.Range "0" "9"; Re.Char "."; Re.EscChar "-"; Re.Char ";"; Re.Char ":"];
    Re.Lit "/"; Re.Lit "e" ]%char.

(** [x[i]] on the tuple of groups of a match. *)
Definition group (x : list string) (i : nat) : string := nth i x "".

(** [s.sorters] as [main] sets it: pattern and key function, in order. *)
Definition sorters : list (Re.pattern * (list string -> string)) :=
  [ (table_pattern, fun x => ("T" ++ group x 0 ++ "--" ++ group x 1)%string);  (* table numbers *)
    (schedule_pattern, fun x => ("A" ++ group x 0)%string) ].       (* standard schedule numbers *)

(** The serializer's use of its sorters: a subject is keyed by the first
    sorter whose pattern is found in it, applied to the groups of the match. *)
Fixpoint sort_key_with (l : list (Re.pattern * (list string -> string))) (subject : string)
  : option string :=
  match l with
  | [] => None
  | (p, f) :: l' =>
      match Re.search p subject with
      | Some g => Some (f g)
      | None => sort_key_with l' subject
      end
  end.

Definition sort_key : string -> option string := sort_key_with sorters.

(** ** The per-record pipeline and the driver *)

(** [argparse]'s result. *)
Module Args.
Record t : Type := {
  infile : string;
  outfile : option string;
  verbose : bool;
  outformat : option string;
  base_uri : option string;
  scheme_uri : option string;
  table_scheme_uri : option string;
  indexterms : bool;
  notes : bool;
  components : bool
}.
End Args.

Section Pipeline.

Variable date : Type.
Variable strftime_F : date -> string.
Variable get_uri : ClassificationRecord date -> string -> string -> string.

(** One [mx:record] element of the input document. *)
Variable RawRecord : Type.

(** [Element(rec).text('mx:leader')]: the text of the first leader element,
    [None] when there is none. *)
Variable leader_text : RawRecord -> option string.

(** [ClassificationRecord(rec, kwargs)]: the normalized record, or the
    exception its constructor raises. *)
Variable new_ClassificationRecord :
  RawRecord -> Options -> exn + ClassificationRecord date.

(** [rec.is_public()] *)
Variable is_public : ClassificationRecord date -> bool.

Definition process_record (rec : RawRecord) (kwargs : Options) : M unit :=
  match leader_text rec with
  | None => raise (InvalidRecordError "Record does not have a leader")
  | Some leader =>
      match String.get 6 leader with
      | None => raise IndexError        (* leader[6]: string index out of range *)
      | Some marker =>
          if Ascii.eqb marker "w"       (* w: classification, z: authority *)
          then
            match new_ClassificationRecord rec kwargs with
            | inl e => raise e
            | inr rec =>
                match uri rec with
                | None =>
                    emit (Log DEBUG "Ignoring record because: No known concept scheme detected, and no manual URI template given" [])
                | Some _ =>
                    if is_public rec
                    then call rec (add_record_to_graph strftime_F get_uri kwargs)
                    else ret tt
                end
            end
          else raise (InvalidRecordError "Record is not a Marc21 Classification record")
      end
  end.

(** What [etree.iterparse] delivers for the input file: the record
    elements in document order, and whether the document breaks off in
    malformed XML after them. *)
Record document : Type := {
  records : list RawRecord;
  malformed : bool
}.

Variable iterparse : string -> document.

(** [get_records(in_file)] is a generator.  This is what it does when it is
    first asked for a record, before it reads the file ([n = 0], [t0] from
    the clock)... *)
Definition get_records_start (in_file : string) : M unit :=
  emit (Log INFO "Parsing: %s" [ArgStr in_file]).

(** ...and what it does when it is asked for the next record after one it
    yielded: [record.clear()], then the count [n] of records read so far goes
    up, and every 500th record is reported. *)
Definition get_records_resume (n : nat) : M nat :=
  let n := S n in
  when (Nat.eqb (n mod 500) 0)
    (emit (Log INFO "Read %d records (%.f recs/sec)" [ArgInt n; ArgRate])) ;;
  ret n.

(** The loop [for record in get_records(in_file)] of [main] over the records
    [rs] that [iterparse] still has to deliver; [broken] says that the
    document is malformed after them.  [n] is the count kept by [main],
    [read] the one kept by the generator. *)
Fixpoint records_loop (rs : list RawRecord) (broken : bool) (options : Options)
         (n read : nat) : M unit :=
  match rs with
  | [] => if broken then raise XMLSyntaxError else ret tt
  | record :: rs' =>
      let n := S n in
      try_except (process_record record options)
        (fun e =>
           match e with
           | InvalidRecordError msg =>
               emit (Log DEBUG "Ignoring record %d: %s" [ArgInt n; ArgStr msg])
           | _ => raise e
           end) ;;
      read <- get_records_resume read ;;
      records_loop rs' broken options n read
  end.

(** [json_ld.from_rdf(graph, context)] *)
Variable from_rdf : list triple -> json -> json.

(** The bundled [jskos-context.json], loaded. *)
Variable context : json.

(** [json.dumps(value, sort_keys=..., indent=...)] *)
Variable dumps : json -> bool -> option nat -> string.

(** The interpreter the program runs under. *)
Variable py : python.

(** [out_file.write(text)] *)
Definition stream_write (out : stream) (text : string) : M unit :=
  if takes_text py out then emit (FileWrite out text) else raise TypeError.

(** [s.serialize(out_file)] of the Turtle serializer on the graph, which
    writes to the stream as bytes. *)
Definition serialize_turtle (out : stream) (g : list triple) : M unit :=
  if takes_bytes py out then emit (SerializeTurtle out g) else raise TypeError.

Definition member (x : option string) (l : list string) : bool :=
  match x with
  | Some s => existsb (String.eqb s) l
  | None => false
  end.

Definition is_format (x : option string) (name : string) : bool :=
  option_eqb String.eqb x (Some name).

Definition str_of (x : option string) : string :=
  match x with Some s => s | None => "None" end.

Definition main (args : Args.t) : M unit :=
  (* graph = Graph(); the namespace bindings only name prefixes for the
     serializers *)
  new_Graph ;;
  emit (SetLevel (if Args.verbose args then DEBUG else INFO)) ;;

  let in_file := Args.infile args in
  if negb (member (Args.outformat args) ["turtle"; "jskos"; "ndjson"])
  then raise (ValueError "output format not supported")
  else
    let options :=
      {| base_uri := Args.base_uri args;
         scheme_uri := Args.scheme_uri args;
         table_scheme_uri := Args.table_scheme_uri args;
         include_indexterms := Args.indexterms args;
         include_notes := Args.notes args;
         include_components := Args.components args |} in

    get_records_start in_file ;;
    records_loop (records (iterparse in_file)) (malformed (iterparse in_file)) options 0 0 ;;

    graph <- get_graph ;;
    match graph with
    | [] => emit (Log WARNING "RDF result is empty!" [])
    | _ :: _ =>
        out_file <-
          (match Args.outfile args with
           | Some name =>
               if truthy (Args.outfile args) && negb (String.eqb name "-")
               then emit (Open name "wb") ;; ret (File name)
               else ret Stdout
           | None => ret Stdout
           end) ;;

        (if is_format (Args.outformat args) "turtle"
         then
           (* OrderedTurtleSerializer(graph), with [sorters] *)
           serialize_turtle out_file graph
         else if member (Args.outformat args) ["jskos"; "ndjson"]
         then
           let jskos := from_rdf graph context in
           if is_format (Args.outformat args) "jskos"
           then
             jskos <- lift (py_setitem jskos "@context" (JStr jskos_context)) ;;
             stream_write out_file (dumps jskos true (Some 2))
           else
             has_graph <- lift (py_contains "@graph" jskos) ;;
             entries <-
               (if has_graph : bool
                then v <- lift (py_getitem jskos "@graph") ;; lift (py_iter v)
                else ret [jskos]) ;;
             for_each entries (fun record =>
               record <- lift (py_setitem record "@context" (JStr jskos_context)) ;;
               stream_write out_file (dumps record true None) ;;
               stream_write out_file newline)
         else ret tt) ;;

        match out_file with
        | File _ =>
            emit (Log INFO "Wrote %s: %s"
                    [ArgStr (str_of (Args.outformat args)); ArgStr (str_of (Args.outfile args))])
        | Stdout => ret tt
        end
    end.

End Pipeline.

(** ** A small run, for the examples *)

Module Sample.

(** Dates are kept as their ISO text. *)
Definition date : Type := string.
Definition strftime_F (d : date) : string := d.

(** The template [http://dewey.info/{collection}/{object}/e23/]. *)
Definition get_uri (_ : ClassificationRecord date) (collection object : string) : string :=
  ("http://dewey.info/" ++ collection ++ "/" ++ object ++ "/e23/")%string.

Definition options : Options :=
  {| base_uri := Some "http://dewey.info/{collection}/{object}/e23/";
     scheme_uri := None;
     table_scheme_uri := None;
     include_indexterms := true;
     include_notes := true;
     include_components := true |}.

(** A built number with one component, in two schemes. *)
Definition record : ClassificationRecord date :=
  {| uri := Some "http://dewey.info/class/512.0901/e23/";
     scheme_uris := ["http://dewey.info/scheme/edition/e23/"; "http://dewey.info/scheme/ddc/"];
     is_top_concept := false;
     created := Some "2011-03-04";
     modified := None;
     notation := Some "512.0901";
     record_type := Constants.CLASSIFICATION_RECORD;
     prefLabel := Some "Algebra";
     lang := Some "en";
     altLabel := [{| term := "Algebra--history" |}];
     broader := ["http://dewey.info/class/512/e23/"];
     definition := [];
     editorialNote := [];
     scopeNote := ["Class here history"];
     historyNote := [];
     deprecated := false;
     components := ["512"];
     webDeweyExtras := [("synthesized", "true")] |}.

(** The same number with both its components. *)
Definition built_record : ClassificationRecord date :=
  set_components record ["512"; "0901"].

(** A number that is no longer in use. *)
Definition deprecated_record : ClassificationRecord date :=
  {| uri := Some "http://dewey.info/class/512.09/e23/";
     scheme_uris := ["http://dewey.info/scheme/edition/e23/"];
     is_top_concept := false;
     created := None;
     modified := Some "2012-05-06";
     notation := Some "512.09";
     record_type := Constants.CLASSIFICATION_RECORD;
     prefLabel := None;
     lang := Some "en";
     altLabel := [];
     broader := [];
     definition := [];
     editorialNote := [];
     scopeNote := [];
     historyNote := ["Discontinued"];
     deprecated := true;
     components := [];
     webDeweyExtras := [] |}.

(** A table record. *)
Definition table_record : ClassificationRecord date :=
  {| uri := Some "http://dewey.info/class/1--0901/e23/";
     scheme_uris := ["http://dewey.info/scheme/edition/e23/table/1/"];
     is_top_concept := true;
     created := None;
     modified := None;
     notation := Some "1--0901";
     record_type := Constants.TABLE_RECORD;
     prefLabel := None;
     lang := Some "en";
     altLabel := [];
     broader := [];
     definition := [];
     editorialNote := [];
     scopeNote := [];
     historyNote := [];
     deprecated := false;
     components := [];
     webDeweyExtras := [] |}.

(** The same record, in a scheme no rule recognizes. *)
Definition unidentified_record : ClassificationRecord date :=
  set_components
    {| uri := None;
       scheme_uris := scheme_uris record;
       is_top_concept := false;
       created := created record;
       modified := None;
       notation := notation record;
       record_type := Constants.CLASSIFICATION_RECORD;
       prefLabel := prefLabel record;
       lang := lang record;
       altLabel := altLabel record;
       broader := broader record;
       definition := [];
       editorialNote := [];
       scopeNote := scopeNote record;
       historyNote := [];
       deprecated := false;
       components := [];
       webDeweyExtras := webDeweyExtras record |}
    (components record).

(** A raw record: its leader text, and what normalization makes of it. *)
Record raw : Type := {
  leader : option string;
  normalized : exn + ClassificationRecord date
}.

Definition leader_text (r : raw) : option string := leader r.

Definition new_ClassificationRecord (r : raw) (_ : Options)
  : exn + ClassificationRecord date := normalized r.

Definition is_public (_ : ClassificationRecord date) : bool := true.

Definition classification : raw :=
  {| leader := Some "00000nw  a2200000n  4500"; normalized := inr record |}.

Definition authority : raw :=
  {| leader := Some "00000nz  a2200000n  4500"; normalized := inr record |}.

Definition no_leader : raw :=
  {| leader := None; normalized := inr record |}.

Definition short_leader : raw :=
  {| leader := Some "00000"; normalized := inr record |}.

Definition unidentified : raw :=
  {| leader := Some "00000nw  a2200000n  4500"; normalized := inr unidentified_record |}.

(** The input documents, by file name. *)
Definition iterparse (name : string) : document raw :=
  if String.eqb name "mixed.xml"
  then {| records := [authority; no_leader; classification]; malformed := false |}
  else if String.eqb name "rejected.xml"
  then {| records := [authority; no_leader; unidentified]; malformed := false |}
  else if String.eqb name "short.xml"
  then {| records := [short_leader; classification]; malformed := false |}
  else {| records := []; malformed := false |}.

(** A transformation that gives one node object per statement. *)
Definition from_rdf (g : list triple) (ctx : json) : json :=
  JObj [("@context", ctx);
        ("@graph",
         JArr (map (fun t => JObj [("uri", JStr match node_text (subj t) with
                                                | Some s => s
                                                | None => "_:b"
                                                end)]) g))].

Definition context : json := JObj [("uri", JStr "@id")].

(** A printer that lists the member names of an object. *)
Definition dumps (j : json) (_ : bool) (_ : option nat) : string :=
  match j with
  | JObj d => ("{" ++ String.concat "," (map fst d) ++ "}")%string
  | _ => "?"
  end.

(** The runs are under Python 3. *)
Definition py : python := Python3.

(** Arguments that send the output to the standard output. *)
Definition stdout_args (file : string) (format : string) : Args.t :=
  {| Args.infile := file;
     Args.outfile := Some "-";
     Args.verbose := false;
     Args.outformat := Some format;
     Args.base_uri := Some "http://dewey.info/{collection}/{object}/e23/";
     Args.scheme_uri := None;
     Args.table_scheme_uri := None;
     Args.indexterms := true;
     Args.notes := true;
     Args.components := true |}.

(** Arguments that name an output file. *)
Definition args (file : string) (format : string) : Args.t :=
  {| Args.infile := file;
     Args.outfile := Some "out.ndjson";
     Args.verbose := false;
     Args.outformat := Some format;
     Args.base_uri := Some "http://dewey.info/{collection}/{object}/e23/";
     Args.scheme_uri := None;
     Args.table_scheme_uri := None;
     Args.indexterms := true;
     Args.notes := true;
     Args.components := true |}.

Definition main : Args.t -> M unit :=
  main strftime_F get_uri leader_text new_ClassificationRecord is_public iterparse
       from_rdf context dumps py.

End Sample.

(** * Properties *)

(** ** Running monadic code *)

(** [push l w]: the world [w] after the statements [l] were added. *)
Definition push (l : list triple) (w : world) : world :=
  {| graph := graph w ++ l; bnodes := bnodes w; trace := trace w |}.

(** A computation that does nothing but add [l]. *)
Definition adds (m : M unit) (l : list triple) : Prop :=
  forall w, m w = (inr tt, push l w).

Lemma push_nil w : push [] w = w.
Proof. destruct w; unfold push; simpl; now rewrite app_nil_r. Qed.

Lemma push_push l1 l2 w : push l2 (push l1 w) = push (l1 ++ l2) w.
Proof. unfold push; simpl; now rewrite app_assoc. Qed.

Lemma adds_ret : adds (ret tt) [].
Proof. intros w; unfold ret; now rewrite push_nil. Qed.

Lemma adds_graph_add t : all_Nodes t = true -> adds (graph_add t) [t].
Proof. intros H w. unfold graph_add. now rewrite H. Qed.

Lemma bind_adds {B} m l (k : unit -> M B) w :
  adds m l -> bind m k w = k tt (push l w).
Proof. intros H; unfold bind; now rewrite H. Qed.

Lemma adds_seq m1 m2 l1 l2 :
  adds m1 l1 -> adds m2 l2 -> adds (m1 ;; m2) (l1 ++ l2).
Proof.
  intros H1 H2 w. rewrite (bind_adds _ _ H1), H2. now rewrite push_push.
Qed.

Lemma adds_for_each {A} (body : A -> M unit) (f : A -> triple) l :
  (forall x, adds (body x) [f x]) -> adds (for_each l body) (map f l).
Proof.
  intros H; induction l as [|x l IH]; simpl.
  - apply adds_ret.
  - change (f x :: map f l) with ([f x] ++ map f l). now apply adds_seq.
Qed.

Lemma adds_when (b : bool) m l :
  adds m l -> adds (when b m) (if b then l else []).
Proof. destruct b; simpl; auto using adds_ret. Qed.

Lemma adds_if (b : bool) m1 m2 l1 l2 :
  adds m1 l1 -> adds m2 l2 -> adds (if b then m1 else m2) (if b then l1 else l2).
Proof. now destruct b. Qed.

Create HintDb adds.
#[local] Hint Resolve adds_ret adds_graph_add adds_seq adds_when adds_if : adds.

(** ** Selecting statements *)

(** Statements whose predicate satisfies [g]. *)
Definition by_pred (g : node -> bool) (t : triple) : bool := g (pred t).

Definition uniform (s p : node) (l : list triple) : Prop :=
  Forall (fun t => subj t = s /\ pred t = p) l.

Lemma uniform_nil s p : uniform s p [].
Proof. constructor. Qed.

Lemma uniform_one s p o : uniform s p [(s, p, o)].
Proof. repeat constructor. Qed.

Lemma uniform_map {A} s p (f : A -> node) l : uniform s p (map (fun x => (s, p, f x)) l).
Proof. induction l; simpl; constructor; auto. Qed.

Lemma filter_uniform g s p l :
  uniform s p l -> filter (by_pred g) l = if g p then l else [].
Proof.
  induction 1 as [|t l [_ Hp] _ IH]; simpl.
  - now destruct (g p).
  - unfold by_pred at 1. rewrite Hp, IH. now destruct (g p).
Qed.

Lemma filter_nothing {A} (f : A -> bool) l :
  (forall t, In t l -> f t = false) -> filter f l = [].
Proof.
  induction l as [|t l IH]; simpl; intros H; [reflexivity|].
  rewrite (H t) by now left. apply IH. intros; apply H; now right.
Qed.

Lemma filter_cons_false {A} (f : A -> bool) a l :
  f a = false -> filter f (a :: l) = filter f l.
Proof. intros H; simpl; now rewrite H. Qed.

Lemma filter_cons_true {A} (f : A -> bool) a l :
  f a = true -> filter f (a :: l) = a :: filter f l.
Proof. intros H; simpl; now rewrite H. Qed.

Lemma literal_value_eqb_eq a b : literal_value_eqb a b = true <-> a = b.
Proof.
  destruct a, b; simpl; split; intros H; try discriminate; try congruence.
  - apply String.eqb_eq in H. congruence.
  - injection H as ->. apply String.eqb_refl.
  - apply Bool.eqb_prop in H. congruence.
  - injection H as ->. apply Bool.eqb_reflx.
Qed.

Lemma option_string_eqb_eq a b : option_eqb String.eqb a b = true <-> a = b.
Proof.
  destruct a, b; simpl; split; intros H; try discriminate; try congruence.
  - apply String.eqb_eq in H. congruence.
  - injection H as ->. apply String.eqb_refl.
Qed.

Lemma node_eqb_eq a b : node_eqb a b = true <-> a = b.
Proof.
  destruct a, b; simpl; split; intros H; try discriminate; try congruence.
  - apply String.eqb_eq in H. congruence.
  - injection H as ->. apply String.eqb_refl.
  - apply Nat.eqb_eq in H. congruence.
  - injection H as ->. apply Nat.eqb_refl.
  - apply andb_true_iff in H as [H H3]. apply andb_true_iff in H as [H1 H2].
    apply literal_value_eqb_eq in H1. apply option_string_eqb_eq in H2.
    apply option_string_eqb_eq in H3. congruence.
  - injection H as -> -> ->. rewrite !andb_true_iff. repeat split.
    + now apply literal_value_eqb_eq.
    + now apply option_string_eqb_eq.
    + now apply option_string_eqb_eq.
  - apply String.eqb_eq in H. congruence.
  - injection H as ->. apply String.eqb_refl.
Qed.

Lemma node_eqb_refl a : node_eqb a a = true.
Proof. now apply node_eqb_eq. Qed.

Lemma node_eqb_neq a b : a <> b -> node_eqb a b = false.
Proof.
  intros H. destruct (node_eqb a b) eqn:E; [|reflexivity].
  apply node_eqb_eq in E. contradiction.
Qed.

(** ** Looking statements up by subject and predicate *)

(** No statement of [g] has an anonymous subject minted at [k] or later. *)
Definition fresh_from (k : nat) (g : list triple) : Prop :=
  forall t i, In t g -> subj t = BNode i -> i < k.

Lemma objects_app g1 g2 s p : objects (g1 ++ g2) s p = objects g1 s p ++ objects g2 s p.
Proof. unfold objects. now rewrite filter_app, map_app. Qed.

Lemma objects_cons t l s p :
  objects (t :: l) s p
  = (if node_eqb (subj t) s && node_eqb (pred t) p then [obj t] else []) ++ objects l s p.
Proof. unfold objects; simpl. now destruct (_ && _). Qed.

Lemma objects_nil s p : objects [] s p = [].
Proof. reflexivity. Qed.

Lemma objects_other_subject l s p :
  (forall t, In t l -> subj t <> s) -> objects l s p = [].
Proof.
  intros H. unfold objects. rewrite filter_nothing; [reflexivity|].
  intros t Ht. rewrite (node_eqb_neq (H t Ht)). reflexivity.
Qed.

Lemma objects_fresh k g i p : fresh_from k g -> k <= i -> objects g (BNode i) p = [].
Proof.
  intros Hf Hi. apply objects_other_subject. intros t Ht E.
  specialize (Hf t i Ht E). lia.
Qed.

Lemma uniform_subject s p l t : uniform s p l -> In t l -> subj t = s.
Proof. intros H Ht. unfold uniform in H. rewrite Forall_forall in H. now apply H. Qed.

Lemma BNode_eqb i j : node_eqb (BNode i) (BNode j) = Nat.eqb i j.
Proof. reflexivity. Qed.

Lemma BNode_not_nil i : node_eqb (BNode i) RDF.nil = false.
Proof. reflexivity. Qed.

Lemma rest_not_first : node_eqb RDF.rest RDF.first = false.
Proof. reflexivity. Qed.

Lemma first_not_rest : node_eqb RDF.first RDF.rest = false.
Proof. reflexivity. Qed.

(** A walk that ends has found [rdf:nil] as the [rdf:rest] of its last node. *)
Lemma rdf_list_ends G : forall fuel n chain d,
  rdf_list fuel G n = Some chain ->
  chain <> [] ->
  objects G (fst (last chain d)) RDF.rest = [RDF.nil].
Proof.
  induction fuel as [|fuel IH]; intros n chain d H Hne; [discriminate|].
  cbn [rdf_list] in H. destruct (node_eqb n RDF.nil).
  { injection H as <-. contradiction. }
  destruct (objects G n RDF.first) as [|x [|? ?]] eqn:Ex; try discriminate.
  destruct (objects G n RDF.rest) as [|r [|? ?]] eqn:Er; try discriminate.
  destruct (rdf_list fuel G r) as [l|] eqn:El; [|discriminate].
  injection H as <-.
  destruct l as [|e' l].
  - cbn [last fst]. destruct fuel as [|fuel]; [discriminate|].
    cbn [rdf_list] in El. destruct (node_eqb r RDF.nil) eqn:En.
    + apply node_eqb_eq in En. now subst r.
    + destruct (objects G r RDF.first) as [|? [|? ?]]; try discriminate.
      destruct (objects G r RDF.rest) as [|? [|? ?]]; try discriminate.
      destruct (rdf_list fuel G _); discriminate.
  - change (last ((n, x) :: e' :: l) d) with (last (e' :: l) d).
    apply (IH _ _ _ El). discriminate.
Qed.

Lemma map_fst_combine {A B} (a : list A) (b : list B) :
  length a = length b -> map fst (combine a b) = a.
Proof.
  revert b; induction a as [|x a IH]; intros [|y b] H; simpl in *; try discriminate;
    [reflexivity|]. f_equal. apply IH. now injection H.
Qed.

Lemma map_snd_combine {A B} (a : list A) (b : list B) :
  length a = length b -> map snd (combine a b) = b.
Proof.
  revert b; induction a as [|x a IH]; intros [|y b] H; simpl in *; try discriminate;
    [reflexivity|]. f_equal. apply IH. now injection H.
Qed.

(** [sel g p l]: the statements [l], all of predicate [p], that [g] keeps. *)
Definition sel (g : node -> bool) (p : node) (l : list triple) : list triple :=
  if g p then l else [].

Lemma filter_sel g s p l : uniform s p l -> filter (by_pred g) l = sel g p l.
Proof. apply filter_uniform. Qed.

(** Replace each [sel g p l] by [l] or [[]], by evaluating [g p]. *)
Ltac settle_sel :=
  repeat match goal with
         | |- context [sel ?g ?p ?l] =>
             let v := eval vm_compute in (g p) in
             change (sel g p l) with (if v then l else @nil triple)
         end;
  cbv iota.

(** [only p]: the predicate is [p]. *)
Definition only (p : node) : node -> bool := fun q => node_eqb q p.

Definition is_membership : node -> bool :=
  fun q => node_eqb q SKOS.topConceptOf || node_eqb q SKOS.inScheme.

Lemma objects_no_pred l s p :
  filter (by_pred (only p)) l = [] -> objects l s p = [].
Proof.
  intros H. unfold objects. rewrite filter_nothing; [reflexivity|].
  intros t Ht. destruct (node_eqb (pred t) p) eqn:E; [|apply andb_false_r].
  assert (In t (filter (by_pred (only p)) l)) as Hin by (apply filter_In; now split).
  rewrite H in Hin. destruct Hin.
Qed.

(** ** What one call of the graph builder does *)

Section GraphBuilderFacts.

Variable date : Type.
Variable strftime_F : date -> string.
Variable get_uri : ClassificationRecord date -> string -> string -> string.

Implicit Types (record : ClassificationRecord date) (options : Options) (w : world).

(** The store refuses a plain string in the place of the object. *)
Lemma graph_add_refuses (s p : node) (x : string) w :
  graph_add (s, p, PyStr x) w = (inl AssertionError, w).
Proof.
  unfold graph_add, all_Nodes. cbn [subj pred obj fst snd is_Node].
  now rewrite andb_false_r.
Qed.

Lemma bind_ret {A B} (a : A) (k : A -> M B) w : bind (ret a) k w = k a w.
Proof. reflexivity. Qed.

Lemma bind_assoc {A B C} (m : M A) (f : A -> M B) (k : B -> M C) w :
  bind (bind m f) k w = bind m (fun a => bind (f a) k) w.
Proof. unfold bind. destruct (m w) as [[e|a] w']; reflexivity. Qed.

Lemma bind_ext {A B} (m : M A) (k k' : A -> M B) w :
  (forall a w', k a w' = k' a w') -> bind m k w = bind m k' w.
Proof. intros H. unfold bind. destruct (m w) as [[e|a] w']; [reflexivity|apply H]. Qed.

Lemma bind_new_BNode {B} (k : node -> M B) w :
  bind new_BNode k w
  = k (BNode (bnodes w)) {| graph := graph w; bnodes := S (bnodes w); trace := trace w |}.
Proof. reflexivity. Qed.

Lemma bind_run {A B} (m : M A) (k : A -> M B) w a w' :
  m w = (inr a, w') -> bind m k w = k a w'.
Proof. intros H. unfold bind. now rewrite H. Qed.

(** Run a [graph.add] of terms that is followed by more. *)
Ltac step_add := erewrite bind_adds by (apply adds_graph_add; reflexivity).

Lemma bind_fails {A B} (m : M A) (k : A -> M B) w e w' :
  m w = (inl e, w') -> bind m k w = (inl e, w').
Proof. intros H. unfold bind. now rewrite H. Qed.

(** The loop over the remaining components, started on the head node, and
    the statement after it.  With nothing left the loop is over at once and
    the head is closed with [rdf:nil]; otherwise the first turn links the
    head to a new node and breaks on that node's element. *)
Lemma chain_loop record (cs : list string) prev w :
  bnodes w = S prev ->
  bind
    (for_fold cs (BNode prev) (fun b1 component =>
       b2 <- new_BNode ;;
       graph_add (b1, RDF.rest, b2) ;;
       graph_add (b2, RDF.first, PyStr (get_uri record "class" component)) ;;
       ret b2))
    (fun b1 => graph_add (b1, RDF.rest, RDF.nil)) w
  = (match cs with [] => inr tt | _ :: _ => inl AssertionError end,
     {| graph := graph w ++ [(BNode prev, RDF.rest, head_rest prev cs)];
        bnodes := bnodes w + match cs with [] => 0 | _ :: _ => 1 end;
        trace := trace w |}).
Proof.
  intros Hw. destruct cs as [|c cs].
  - unfold bind, graph_add; simpl. now rewrite Nat.add_0_r.
  - cbn [for_fold head_rest]. rewrite !bind_assoc, bind_new_BNode.
    rewrite !bind_assoc. step_add.
    rewrite !bind_assoc. erewrite bind_fails by apply graph_add_refuses.
    unfold push. cbn [graph bnodes trace]. rewrite Hw. do 2 f_equal. lia.
Qed.

Lemma adds_schemes (u : string) record :
  adds (for_each (scheme_uris record) (fun scheme_uri =>
          if is_top_concept record
          then graph_add (URIRef u, SKOS.topConceptOf, URIRef scheme_uri)
          else graph_add (URIRef u, SKOS.inScheme, URIRef scheme_uri)))
       (scheme_statements (URIRef u) record).
Proof.
  apply adds_for_each. intros x. unfold membership_predicate.
  destruct (is_top_concept record); apply adds_graph_add; reflexivity.
Qed.

Lemma adds_date (u : string) (p : node) (d : option date) :
  is_Node p = true ->
  adds match d with
       | Some d => graph_add (URIRef u, p, Literal (LStr (strftime_F d)) None (Some XSD.date))
       | None => ret tt
       end
       (date_statements strftime_F (URIRef u) p d).
Proof.
  intros Hp. destruct d; simpl; [|apply adds_ret].
  apply adds_graph_add. unfold all_Nodes. cbn [subj pred obj fst snd is_Node].
  now rewrite Hp.
Qed.

Lemma adds_notation (u : string) record :
  adds match notation record with
       | Some n =>
           when (truthy (notation record))
             (if Constants.eqb (record_type record) Constants.TABLE_RECORD
              then graph_add (URIRef u, SKOS.notation, Literal (LStr ("T" ++ n)%string) None None)
              else graph_add (URIRef u, SKOS.notation, Literal (LStr n) None None))
       | None => ret tt
       end
       (notation_statements (URIRef u) record).
Proof.
  unfold notation_statements, notation_literal.
  destruct (notation record) as [n|]; [|apply adds_ret].
  apply adds_when.
  destruct (Constants.eqb _ _); apply adds_graph_add; reflexivity.
Qed.

Lemma adds_prefLabel (u : string) record :
  adds match prefLabel record with
       | Some l =>
           when (truthy (prefLabel record))
             (graph_add (URIRef u, SKOS.prefLabel, Literal (LStr l) (lang record) None))
       | None => ret tt
       end
       (prefLabel_statements (URIRef u) record).
Proof.
  unfold prefLabel_statements.
  destruct (prefLabel record) as [l|]; [|apply adds_ret].
  apply adds_when, adds_graph_add. reflexivity.
Qed.

Lemma adds_texts (u : string) (p : node) record (l : list string) :
  is_Node p = true ->
  adds (for_each l (fun x => graph_add (URIRef u, p, Literal (LStr x) (lang record) None)))
       (text_statements (URIRef u) p record l).
Proof.
  intros Hp. apply adds_for_each. intros x. apply adds_graph_add.
  unfold all_Nodes. cbn [subj pred obj fst snd is_Node]. now rewrite Hp.
Qed.

Lemma adds_altLabel (u : string) record options :
  adds (when (include_indexterms options)
          (for_each (altLabel record) (fun label =>
             graph_add (URIRef u, SKOS.altLabel,
                        Literal (LStr (term label)) (lang record) None))))
       (altLabel_statements (URIRef u) record options).
Proof.
  unfold altLabel_statements, text_statements. rewrite map_map.
  apply adds_when, adds_for_each. intros x. apply adds_graph_add. reflexivity.
Qed.

Lemma adds_broader (u : string) record :
  adds (for_each (broader record) (fun parent_uri =>
          graph_add (URIRef u, SKOS.broader, URIRef parent_uri)))
       (broader_statements (URIRef u) record).
Proof. apply adds_for_each. intros x. apply adds_graph_add. reflexivity. Qed.

Lemma adds_extras (u : string) record :
  adds (for_each (webDeweyExtras record) (fun kv =>
          graph_add (URIRef u, WD (fst kv), Literal (LStr (snd kv)) (lang record) None)))
       (extras_statements (URIRef u) record).
Proof. apply adds_for_each. intros x. apply adds_graph_add. reflexivity. Qed.

Lemma adds_notes (u : string) record options :
  adds (when (include_notes options)
          (for_each (definition record) (fun note =>
             graph_add (URIRef u, SKOS.definition, Literal (LStr note) (lang record) None)) ;;
           for_each (editorialNote record) (fun note =>
             graph_add (URIRef u, SKOS.editorialNote, Literal (LStr note) (lang record) None)) ;;
           for_each (scopeNote record) (fun note =>
             graph_add (URIRef u, SKOS.scopeNote, Literal (LStr note) (lang record) None)) ;;
           for_each (historyNote record) (fun note =>
             graph_add (URIRef u, SKOS.historyNote, Literal (LStr note) (lang record) None))))
       (note_statements (URIRef u) record options).
Proof.
  unfold note_statements. apply adds_when.
  repeat apply adds_seq; apply adds_texts; reflexivity.
Qed.

Lemma adds_deprecated (u : string) record :
  adds (when (deprecated record)
          (graph_add (URIRef u, OWL.deprecated, Literal (LBool true) None None)))
       (deprecated_statements (URIRef u) record).
Proof. apply adds_when, adds_graph_add. reflexivity. Qed.

(** *** Steps of a call *)

Lemma bind_assoc_call {A B C} (m : St (call_state date) A)
      (f : A -> St (call_state date) B) (k : B -> St (call_state date) C) s :
  bind (bind m f) k s = bind m (fun a => bind (f a) k) s.
Proof. unfold bind. destruct (m s) as [[e|a] s']; reflexivity. Qed.

Lemma bind_the_record {B} (k : ClassificationRecord date -> St (call_state date) B)
      record w :
  bind (the_record (date := date)) k (record, w) = k record (record, w).
Proof. reflexivity. Qed.

Lemma bind_on_world {A B} (m : M A) (k : A -> St (call_state date) B) record w :
  bind (on_world m) k (record, w)
  = match m w with
    | (inr a, w') => k a (record, w')
    | (inl e, w') => (inl e, (record, w'))
    end.
Proof. unfold bind, on_world. cbn [fst snd]. now destruct (m w) as [[e|a] w']. Qed.

Lemma bind_on_world_adds {B} m l (k : unit -> St (call_state date) B) record w :
  adds m l -> bind (on_world m) k (record, w) = k tt (record, push l w).
Proof. intros H. now rewrite bind_on_world, H. Qed.

Lemma on_world_adds m l record w :
  adds m l -> on_world m (record, w) = (inr tt, (record, push l w)).
Proof. intros H. unfold on_world. cbn [fst snd]. now rewrite H. Qed.

Lemma bind_pop_component {B} (k : string -> St (call_state date) B) record w c cs :
  components record = c :: cs ->
  bind (pop_component (date := date)) k (record, w) = k c (set_components record cs, w).
Proof. intros H. unfold bind, pop_component. cbn [fst snd]. now rewrite H. Qed.

Lemma wants_components_cons record options :
  wants_components record options = true ->
  exists c cs, components record = c :: cs.
Proof.
  unfold wants_components. intros H. apply andb_true_iff in H as [_ H].
  destruct (components record) as [|c cs]; [discriminate|eauto].
Qed.

(** The component block after the [pop]: [record'] is the record as the
    [pop] left it, [c] the component taken out. *)
Lemma chain_run (u : string) record' (c : string) w :
  (b1 <- new_BNode ;;
   graph_add (URIRef u, MADS "componentList", b1) ;;
   graph_add (b1, RDF.first, URIRef (get_uri record' "class" c)) ;;
   b1 <- for_fold (components record') b1 (fun b1 component =>
           b2 <- new_BNode ;;
           graph_add (b1, RDF.rest, b2) ;;
           graph_add (b2, RDF.first, PyStr (get_uri record' "class" component)) ;;
           ret b2) ;;
   graph_add (b1, RDF.rest, RDF.nil)) w
  = (match components record' with [] => inr tt | _ :: _ => inl AssertionError end,
     {| graph := graph w
                 ++ [(URIRef u, MADS "componentList", BNode (bnodes w));
                     (BNode (bnodes w), RDF.first, URIRef (get_uri record' "class" c));
                     (BNode (bnodes w), RDF.rest, head_rest (bnodes w) (components record'))];
        bnodes := bnodes w + match components record' with [] => 1 | _ :: _ => 2 end;
        trace := trace w |}).
Proof.
  rewrite bind_new_BNode. step_add. step_add.
  rewrite chain_loop by reflexivity.
  unfold push. cbn [graph bnodes trace]. f_equal. f_equal.
  - now rewrite <- !app_assoc.
  - destruct (components record'); lia.
Qed.

(** One call, run to its end: how it ends, the record it leaves, the
    statements it has appended, the anonymous nodes it has minted.  Nothing
    is logged. *)
Lemma add_record_to_graph_run record options w u :
  uri record = Some u ->
  add_record_to_graph strftime_F get_uri options (record, w)
  = (call_outcome record options,
     (record_after record options,
      {| graph := graph w
                  ++ record_statements strftime_F get_uri (URIRef u) record options (bnodes w);
         bnodes := bnodes w + minted record options;
         trace := trace w |})).
Proof.
  intros Hu. unfold add_record_to_graph.
  rewrite bind_the_record, Hu. cbn [new_URIRef].
  rewrite bind_on_world. cbn [ret]. cbv iota beta.
  erewrite bind_on_world_adds.
  2:{ apply adds_seq; [apply adds_graph_add; reflexivity|].
      apply adds_seq; [apply adds_schemes|].
      apply adds_seq; [apply adds_date; reflexivity|].
      apply adds_seq; [apply adds_date; reflexivity|].
      apply adds_seq; [apply adds_notation|].
      apply adds_seq; [apply adds_prefLabel|].
      apply adds_seq; [apply adds_altLabel|].
      apply adds_seq; [apply adds_broader|].
      apply adds_seq; [apply adds_notes|].
      apply adds_deprecated. }
  change ([(URIRef u, RDF.type, SKOS.Concept)] ++ _)
    with (leading_statements strftime_F (URIRef u) record options).
  fold (wants_components record options).
  unfold call_outcome, record_after, record_statements, minted, breaks, component_statements.
  destruct (wants_components record options) eqn:Hw.
  - destruct (wants_components_cons _ _ Hw) as (c & cs & Hc). rewrite Hc.
    rewrite bind_assoc_call. erewrite bind_pop_component by exact Hc.
    rewrite bind_assoc_call, bind_the_record.
    rewrite bind_on_world, chain_run. cbv zeta.
    cbn [components set_components tl length Nat.leb andb].
    destruct cs as [|c' cs]; cbn [head_rest length]; cbv iota.
    + rewrite bind_the_record.
      erewrite on_world_adds by apply adds_extras.
      unfold push, extras_statements.
      cbn [graph bnodes trace lang webDeweyExtras set_components].
      now rewrite <- !app_assoc.
    + unfold push. cbn [graph bnodes trace].
      now rewrite app_nil_r, <- !app_assoc.
  - cbn [andb]. unfold bind at 1. cbn [ret]. cbv iota beta.
    rewrite bind_the_record.
    erewrite on_world_adds by apply adds_extras.
    unfold push. cbn [graph bnodes trace app]. do 3 f_equal.
    + now rewrite <- !app_assoc.
    + lia.
Qed.

(** *** Selecting by predicate in the statements of a call *)

Lemma uniform_texts s p record (l : list string) :
  uniform s p (text_statements (date := date) s p record l).
Proof. apply uniform_map with (f := fun x => Literal (LStr x) (lang record) None). Qed.

Lemma filter_leading g s record options :
  filter (by_pred g) (leading_statements strftime_F s record options)
  = sel g RDF.type [(s, RDF.type, SKOS.Concept)]
    ++ sel g (membership_predicate record) (scheme_statements s record)
    ++ sel g DCTERMS.created (date_statements strftime_F s DCTERMS.created (created record))
    ++ sel g DCTERMS.modified (date_statements strftime_F s DCTERMS.modified (modified record))
    ++ sel g SKOS.notation (notation_statements s record)
    ++ sel g SKOS.prefLabel (prefLabel_statements s record)
    ++ sel g SKOS.altLabel (altLabel_statements s record options)
    ++ sel g SKOS.broader (broader_statements s record)
    ++ (if include_notes options
        then sel g SKOS.definition (text_statements s SKOS.definition record (definition record))
             ++ sel g SKOS.editorialNote
                  (text_statements s SKOS.editorialNote record (editorialNote record))
             ++ sel g SKOS.scopeNote (text_statements s SKOS.scopeNote record (scopeNote record))
             ++ sel g SKOS.historyNote
                  (text_statements s SKOS.historyNote record (historyNote record))
        else [])
    ++ sel g OWL.deprecated (deprecated_statements s record).
Proof.
  unfold leading_statements. rewrite !filter_app.
  repeat (apply (f_equal2 (@app triple))).
  - apply filter_sel with (s := s), uniform_one.
  - apply filter_sel with (s := s), uniform_map.
  - apply filter_sel with (s := s).
    destruct (created record); [apply uniform_one | apply uniform_nil].
  - apply filter_sel with (s := s).
    destruct (modified record); [apply uniform_one | apply uniform_nil].
  - apply filter_sel with (s := s). unfold notation_statements.
    destruct (notation record); [|apply uniform_nil].
    destruct (truthy _); [apply uniform_one | apply uniform_nil].
  - apply filter_sel with (s := s). unfold prefLabel_statements.
    destruct (prefLabel record); [|apply uniform_nil].
    destruct (truthy _); [apply uniform_one | apply uniform_nil].
  - apply filter_sel with (s := s). unfold altLabel_statements.
    destruct (include_indexterms options); [apply uniform_texts | apply uniform_nil].
  - apply filter_sel with (s := s), uniform_map.
  - unfold note_statements. destruct (include_notes options); [|reflexivity].
    rewrite !filter_app.
    repeat (apply (f_equal2 (@app triple)));
      apply filter_sel with (s := s), uniform_texts.
  - apply filter_sel with (s := s). unfold deprecated_statements.
    destruct (deprecated record); [apply uniform_one | apply uniform_nil].
Qed.

Lemma filter_extras g s record :
  (forall key, g (WD key) = false) ->
  filter (by_pred g) (extras_statements (date := date) s record) = [].
Proof.
  intros H. apply filter_nothing. intros t Ht.
  apply in_map_iff in Ht as (kv & <- & _). apply H.
Qed.

Lemma filter_components g s record options k :
  g (MADS "componentList") = false -> g RDF.first = false -> g RDF.rest = false ->
  filter (by_pred g) (component_statements get_uri s record options k) = [].
Proof.
  intros Hc Hf Hr. unfold component_statements.
  destruct (wants_components record options); [|reflexivity].
  destruct (components record) as [|c cs]; [reflexivity|].
  cbv zeta. now rewrite !filter_cons_false by assumption.
Qed.

(** Statements of a call whose predicate [g] keeps, when [g] keeps none of
    the chain and none of the vendor extras. *)
Lemma filter_record_statements g s record options k :
  g (MADS "componentList") = false -> g RDF.first = false -> g RDF.rest = false ->
  (forall key, g (WD key) = false) ->
  filter (by_pred g) (record_statements strftime_F get_uri s record options k)
  = filter (by_pred g) (leading_statements strftime_F s record options).
Proof.
  intros Hc Hf Hr Hx. unfold record_statements. rewrite !filter_app.
  rewrite filter_components by assumption.
  destruct (breaks record options); [|rewrite filter_extras by assumption];
    now rewrite !app_nil_r.
Qed.

(** Evaluate a selection over the statements of a call. *)
Ltac select_in_call :=
  rewrite filter_record_statements by (intros; reflexivity);
  rewrite filter_leading;
  unfold scheme_statements, membership_predicate;
  repeat match goal with
         | |- context [is_top_concept ?r] => destruct (is_top_concept r)
         | |- context [include_notes ?o] => destruct (include_notes o)
         end;
  settle_sel; cbn [app]; rewrite ?app_nil_r.

(** Type and membership among the statements of a call. *)
Lemma call_type_and_membership record options u k :
  filter (by_pred (only RDF.type))
         (record_statements strftime_F get_uri (URIRef u) record options k)
  = [(URIRef u, RDF.type, SKOS.Concept)]
  /\ filter (by_pred is_membership)
            (record_statements strftime_F get_uri (URIRef u) record options k)
     = map (fun scheme_uri =>
              (URIRef u,
               (if is_top_concept record then SKOS.topConceptOf else SKOS.inScheme),
               URIRef scheme_uri))
           (scheme_uris record).
Proof. split; select_in_call; reflexivity. Qed.

(** C5. For a record with a notation, the only [skos:notation] statement of
    a call, however the call ends, carries the literal ['T' + notation] when
    the record is a table record and the notation itself when it is a
    classification record (no statement at all for the empty string, which
    Python takes for false); the record keeps its raw notation, so the
    prefix exists in the graph only. *)
Theorem C5_notation_literal record options w u n :
  uri record = Some u ->
  notation record = Some n ->
  exists outcome record' emitted w',
    add_record_to_graph strftime_F get_uri options (record, w) = (outcome, (record', w'))
    /\ graph w' = graph w ++ emitted
    /\ filter (by_pred (only SKOS.notation)) emitted
       = (if String.eqb n "" then []
          else [(URIRef u, SKOS.notation,
                 Literal (LStr match record_type record with
                               | Constants.TABLE_RECORD => ("T" ++ n)%string
                               | Constants.CLASSIFICATION_RECORD => n
                               end) None None)])
    /\ notation record' = Some n.
Proof.
  intros Hu Hn. do 4 eexists. split; [apply add_record_to_graph_run; exact Hu|].
  cbn [graph]. split; [reflexivity|]. split.
  - select_in_call; unfold notation_statements, notation_literal; rewrite Hn;
      unfold truthy; destruct (String.eqb n ""); cbn [negb];
      destruct (record_type record); reflexivity.
  - unfold record_after. now destruct (wants_components record options).
Qed.



(** *** The component chain *)

Lemma subjects_of_uniform s p l : uniform s p l -> Forall (fun t => subj t = s) l.
Proof. apply Forall_impl. now intros t [H _]. Qed.

Lemma leading_subjects s record options :
  Forall (fun t => subj t = s) (leading_statements strftime_F s record options).
Proof.
  unfold leading_statements. repeat (apply Forall_app; split).
  - apply subjects_of_uniform with (p := RDF.type), uniform_one.
  - apply subjects_of_uniform with (p := membership_predicate record), uniform_map.
  - apply subjects_of_uniform with (p := DCTERMS.created).
    destruct (created record); [apply uniform_one | apply uniform_nil].
  - apply subjects_of_uniform with (p := DCTERMS.modified).
    destruct (modified record); [apply uniform_one | apply uniform_nil].
  - apply subjects_of_uniform with (p := SKOS.notation). unfold notation_statements.
    destruct (notation record); [|apply uniform_nil].
    destruct (truthy _); [apply uniform_one | apply uniform_nil].
  - apply subjects_of_uniform with (p := SKOS.prefLabel). unfold prefLabel_statements.
    destruct (prefLabel record); [|apply uniform_nil].
    destruct (truthy _); [apply uniform_one | apply uniform_nil].
  - apply subjects_of_uniform with (p := SKOS.altLabel). unfold altLabel_statements.
    destruct (include_indexterms options); [apply uniform_texts | apply uniform_nil].
  - apply subjects_of_uniform with (p := SKOS.broader), uniform_map.
  - unfold note_statements. destruct (include_notes options); [|constructor].
    repeat (apply Forall_app; split);
      eapply subjects_of_uniform, uniform_texts.
  - apply subjects_of_uniform with (p := OWL.deprecated). unfold deprecated_statements.
    destruct (deprecated record); [apply uniform_one | apply uniform_nil].
Qed.

Lemma leading_subject s record options t :
  In t (leading_statements strftime_F s record options) -> subj t = s.
Proof.
  intros H. generalize (leading_subjects s record options). rewrite Forall_forall. auto.
Qed.

Lemma extras_subject s record t :
  In t (extras_statements (date := date) s record) -> subj t = s.
Proof. unfold extras_statements. rewrite in_map_iff. now intros (? & <- & _). Qed.

(** The vendor extras of a call, when they are reached. *)
Lemma trailing_subject s record options t :
  In t (if breaks record options then [] else extras_statements (date := date) s record) ->
  subj t = s.
Proof. destruct (breaks record options); [intros []|apply extras_subject]. Qed.

(** A statement of the component block is about the record or about the
    head node. *)
Lemma component_subject s record options k t :
  In t (component_statements get_uri s record options k) ->
  subj t = s \/ (subj t = BNode k /\ minted record options >= 1).
Proof.
  unfold component_statements, minted.
  destruct (wants_components record options); [|intros []].
  destruct (components record) as [|c cs]; [intros []|].
  cbv zeta. intros [<-|[<-|[<-|[]]]].
  - now left.
  - right. split; [reflexivity|]. destruct (Nat.leb _ _); lia.
  - right. split; [reflexivity|]. destruct (Nat.leb _ _); lia.
Qed.

Lemma leading_no_componentList s record options :
  filter (by_pred (only (MADS "componentList")))
         (leading_statements strftime_F s record options) = [].
Proof.
  rewrite filter_leading. unfold membership_predicate.
  destruct (is_top_concept record), (include_notes options); settle_sel; reflexivity.
Qed.

(** What the graph holds after a call for an anonymous node not minted
    before it: what the component block says of it. *)
Lemma call_objects_BNode record options w u j p :
  fresh_from (bnodes w) (graph w) ->
  bnodes w <= j ->
  objects (graph w ++ record_statements strftime_F get_uri (URIRef u) record options (bnodes w))
          (BNode j) p
  = objects (component_statements get_uri (URIRef u) record options (bnodes w)) (BNode j) p.
Proof.
  intros Hfresh Hj. unfold record_statements.
  rewrite !objects_app, (objects_fresh _ Hfresh Hj).
  rewrite (objects_other_subject (leading_statements _ _ _ _)).
  2:{ intros t Ht E. apply leading_subject in Ht. congruence. }
  rewrite (objects_other_subject (if breaks record options then [] else _)).
  2:{ intros t Ht E. apply trailing_subject in Ht. congruence. }
  cbn [app]. now rewrite app_nil_r.
Qed.

(** Every statement of a call is made of terms. *)
Lemma map_are_nodes {A} (f : A -> triple) l :
  (forall x, all_Nodes (f x) = true) -> Forall (fun t => all_Nodes t = true) (map f l).
Proof. intros H. apply Forall_forall. intros t Ht. apply in_map_iff in Ht as (x & <- & _). apply H. Qed.

Lemma record_statements_are_nodes record options u k :
  Forall (fun t => all_Nodes t = true)
         (record_statements strftime_F get_uri (URIRef u) record options k).
Proof.
  unfold record_statements, leading_statements. repeat (apply Forall_app; split).
  - repeat constructor.
  - apply map_are_nodes. intros x. unfold membership_predicate.
    now destruct (is_top_concept record).
  - destruct (created record); repeat constructor.
  - destruct (modified record); repeat constructor.
  - unfold notation_statements, notation_literal. destruct (notation record); [|constructor].
    destruct (truthy _); [|constructor].
    destruct (Constants.eqb _ _); repeat constructor.
  - unfold prefLabel_statements. destruct (prefLabel record); [|constructor].
    destruct (truthy _); repeat constructor.
  - unfold altLabel_statements. destruct (include_indexterms options); [|constructor].
    now apply map_are_nodes.
  - now apply map_are_nodes.
  - unfold note_statements. destruct (include_notes options); [|constructor].
    repeat (apply Forall_app; split); now apply map_are_nodes.
  - unfold deprecated_statements. destruct (deprecated record); repeat constructor.
  - unfold component_statements. destruct (wants_components record options); [|constructor].
    destruct (components record) as [|c [|c' cs]]; repeat constructor.
  - destruct (breaks record options); [constructor|]. now apply map_are_nodes.
Qed.

(** What the record is linked to by [mads:componentList]. *)
Lemma call_component_lists record options u k :
  objects (record_statements strftime_F get_uri (URIRef u) record options k)
          (URIRef u) (MADS "componentList")
  = if wants_components record options then [BNode k] else [].
Proof.
  unfold record_statements. rewrite !objects_app.
  rewrite (@objects_no_pred (leading_statements _ _ _ _))
    by apply leading_no_componentList.
  rewrite (@objects_no_pred (if breaks record options then [] else _)).
  2:{ destruct (breaks record options); [reflexivity|apply filter_extras; reflexivity]. }
  unfold component_statements.
  destruct (wants_components record options) eqn:Hw; [|reflexivity].
  destruct (wants_components_cons _ _ Hw) as (c & cs & ->). cbv zeta.
  rewrite !objects_cons. cbn [subj pred obj fst snd].
  rewrite !node_eqb_refl. cbn [node_eqb andb app]. reflexivity.
Qed.

(** C1, where the code departs from it.  With components requested and two
    components or more, the call does not return: it raises
    [AssertionError] when it hands the second component's identifier to the
    store.  By then the record is linked to a head node, the head holds the
    first component and points to a second node, and that second node holds
    nothing: no walk from the head ends, the head's is the only [rdf:rest]
    statement of the call, so that nothing closes the list, and two
    anonymous nodes are minted whatever the number of components. *)
Theorem C1_chain_breaks_at_second_component record options w u c c' cs :
  uri record = Some u ->
  include_components options = true ->
  components record = c :: c' :: cs ->
  fresh_from (bnodes w) (graph w) ->
  let head := BNode (bnodes w) in
  let second := BNode (S (bnodes w)) in
  exists record' emitted w',
    add_record_to_graph strftime_F get_uri options (record, w)
    = (inl AssertionError, (record', w'))
    /\ graph w' = graph w ++ emitted
    /\ objects emitted (URIRef u) (MADS "componentList") = [head]
    /\ objects (graph w') head RDF.first = [URIRef (get_uri record' "class" c)]
    /\ objects (graph w') head RDF.rest = [second]
    /\ objects (graph w') second RDF.first = []
    /\ objects (graph w') second RDF.rest = []
    /\ (forall fuel, rdf_list fuel (graph w') head = None)
    /\ filter (by_pred (only RDF.rest)) emitted = [(head, RDF.rest, second)]
    /\ bnodes w' = bnodes w + 2.
Proof.
  intros Hu Hc Hcs Hfresh head second.
  assert (Hwants : wants_components record options = true).
  { unfold wants_components. now rewrite Hc, Hcs. }
  assert (Hcomp : component_statements get_uri (URIRef u) record options (bnodes w)
                  = [(URIRef u, MADS "componentList", head);
                     (head, RDF.first,
                      URIRef (get_uri (set_components record (c' :: cs)) "class" c));
                     (head, RDF.rest, second)]).
  { unfold component_statements. now rewrite Hwants, Hcs. }
  assert (Hobj : forall j p, bnodes w <= j ->
            objects (graph w
                     ++ record_statements strftime_F get_uri (URIRef u) record options
                          (bnodes w)) (BNode j) p
            = (if Nat.eqb (bnodes w) j && node_eqb RDF.first p
               then [URIRef (get_uri (set_components record (c' :: cs)) "class" c)] else [])
              ++ (if Nat.eqb (bnodes w) j && node_eqb RDF.rest p then [second] else [])).
  { intros j p Hj. rewrite call_objects_BNode by assumption. rewrite Hcomp.
    rewrite !objects_cons, objects_nil. cbn [subj pred obj fst snd].
    unfold head. rewrite !BNode_eqb. cbn [node_eqb andb app]. now rewrite app_nil_r. }
  assert (H1 : objects (graph w
                        ++ record_statements strftime_F get_uri (URIRef u) record options
                             (bnodes w)) head RDF.first
               = [URIRef (get_uri (set_components record (c' :: cs)) "class" c)]).
  { unfold head. rewrite Hobj by lia. rewrite Nat.eqb_refl. reflexivity. }
  assert (H2 : objects (graph w
                        ++ record_statements strftime_F get_uri (URIRef u) record options
                             (bnodes w)) head RDF.rest = [second]).
  { unfold head. rewrite Hobj by lia. rewrite Nat.eqb_refl. reflexivity. }
  assert (H3 : forall p,
             objects (graph w
                      ++ record_statements strftime_F get_uri (URIRef u) record options
                           (bnodes w)) second p = []).
  { intros p. unfold second. rewrite Hobj by lia.
    replace (Nat.eqb (bnodes w) (S (bnodes w))) with false
      by (symmetry; apply Nat.eqb_neq; lia).
    reflexivity. }
  exists (set_components record (c' :: cs)),
         (record_statements strftime_F get_uri (URIRef u) record options (bnodes w)).
  eexists. split.
  { erewrite add_record_to_graph_run by exact Hu.
    unfold call_outcome, record_after, breaks. rewrite Hwants, Hcs. reflexivity. }
  cbn [graph bnodes].
  split; [reflexivity|].
  split; [rewrite call_component_lists; now rewrite Hwants|].
  split; [exact H1|]. split; [exact H2|]. split; [apply H3|]. split; [apply H3|].
  split.
  { intros [|[|fuel]]; [reflexivity| |]; cbn [rdf_list]; unfold head at 1;
      rewrite BNode_not_nil, H1, H2; [reflexivity|].
    unfold second at 1. now rewrite BNode_not_nil, H3. }
  split.
  { unfold record_statements, breaks. rewrite Hwants, Hcs, Hcomp. cbn [length Nat.leb andb].
    rewrite app_nil_r, filter_app.
    rewrite filter_leading. unfold membership_predicate.
    rewrite filter_cons_false by reflexivity.
    rewrite filter_cons_false by reflexivity.
    rewrite filter_cons_true by reflexivity.
    destruct (is_top_concept record), (include_notes options); settle_sel;
      cbn [app filter]; now rewrite ?app_nil_r. }
  unfold minted. now rewrite Hwants, Hcs.
Qed.

(** C9, where the code departs from it.  With components requested and at
    least two of them, the element of the head node is built with
    [URIRef(...)] and is stored; the element of the next node is the bare
    string that [get_uri] returns, and the store refuses it: the call ends
    there with [AssertionError].  So the head's is the only [rdf:first]
    statement of the call, and no statement of the call has a plain string
    as its object. *)
Theorem C9_unwrapped_component_is_refused record options w u c0 c1 cs :
  uri record = Some u ->
  include_components options = true ->
  components record = c0 :: c1 :: cs ->
  exists record' emitted w',
    add_record_to_graph strftime_F get_uri options (record, w)
    = (inl AssertionError, (record', w'))
    /\ graph w' = graph w ++ emitted
    /\ filter (by_pred (only RDF.first)) emitted
       = [(BNode (bnodes w), RDF.first, URIRef (get_uri record' "class" c0))]
    /\ graph_add (BNode (S (bnodes w)), RDF.first, PyStr (get_uri record' "class" c1)) w'
       = (inl AssertionError, w')
    /\ Forall (fun t => all_Nodes t = true) emitted.
Proof.
  intros Hu Hc Hcs.
  assert (Hwants : wants_components record options = true).
  { unfold wants_components. now rewrite Hc, Hcs. }
  exists (set_components record (c1 :: cs)),
         (record_statements strftime_F get_uri (URIRef u) record options (bnodes w)).
  eexists. split.
  { erewrite add_record_to_graph_run by exact Hu.
    unfold call_outcome, record_after, breaks. rewrite Hwants, Hcs. reflexivity. }
  cbn [graph]. split; [reflexivity|]. split; [|split].
  - unfold record_statements, breaks. rewrite Hwants, Hcs. cbn [length Nat.leb andb].
    rewrite app_nil_r, filter_app.
    rewrite filter_leading. unfold membership_predicate.
    unfold component_statements. rewrite Hwants, Hcs. cbv zeta.
    rewrite filter_cons_false by reflexivity.
    rewrite filter_cons_true by reflexivity.
    rewrite filter_cons_false by reflexivity.
    destruct (is_top_concept record), (include_notes options); settle_sel;
      cbn [app filter]; now rewrite ?app_nil_r.
  - apply graph_add_refuses.
  - apply record_statements_are_nodes.
Qed.

(** The call keeps the store's anonymous nodes below the mint counter. *)
Lemma add_record_to_graph_fresh record options w u :
  uri record = Some u ->
  fresh_from (bnodes w) (graph w) ->
  fresh_from (bnodes (snd (snd (add_record_to_graph strftime_F get_uri options (record, w)))))
             (graph (snd (snd (add_record_to_graph strftime_F get_uri options (record, w))))).
Proof.
  intros Hu Hfresh. erewrite add_record_to_graph_run by exact Hu. cbn [snd graph bnodes].
  intros t i Ht Ei. apply in_app_iff in Ht as [Ht|Ht].
  - specialize (Hfresh t i Ht Ei). lia.
  - unfold record_statements in Ht. rewrite !in_app_iff in Ht.
    destruct Ht as [Ht|[Ht|Ht]].
    + apply leading_subject in Ht. congruence.
    + apply component_subject in Ht as [Ht|[Ht Hm]]; [congruence|].
      rewrite Ht in Ei. injection Ei as <-. lia.
    + apply trailing_subject in Ht. congruence.
Qed.

End GraphBuilderFacts.

(** ** The per-record pipeline *)

Definition is_log (e : event) : Prop :=
  match e with Log _ _ _ | SetLevel _ => True | _ => False end.

(** The events that touch the output: opening, serializing, writing. *)
Definition is_output (e : event) : bool :=
  match e with
  | Open _ _ | SerializeTurtle _ _ | FileWrite _ _ => true
  | _ => false
  end.

(** A store that is empty or holds a statement about a URI reference. *)
Definition headed (g : list triple) : Prop :=
  g <> [] -> exists t, In t g /\ is_URIRef (subj t) = true.

Lemma is_log_not_output l : Forall is_log l -> forall e, In e l -> is_output e = false.
Proof.
  intros H e He. rewrite Forall_forall in H. specialize (H e He).
  destruct e; simpl in *; tauto.
Qed.

(** [w'] continues [w]: only log entries were added to the trace, a headed
    store stayed headed, and anonymous nodes stayed below the mint counter. *)
Definition extends (w w' : world) : Prop :=
  (exists logs, trace w' = trace w ++ logs /\ Forall is_log logs)
  /\ (headed (graph w) -> headed (graph w'))
  /\ (fresh_from (bnodes w) (graph w) -> fresh_from (bnodes w') (graph w')).

(** A computation that does no more than that, however it ends. *)
Definition tame {A} (m : M A) : Prop := forall w, extends w (snd (m w)).

Lemma extends_refl w : extends w w.
Proof.
  split; [exists []; split; [now rewrite app_nil_r | constructor] | auto].
Qed.

Lemma extends_trans w1 w2 w3 : extends w1 w2 -> extends w2 w3 -> extends w1 w3.
Proof.
  intros [(l1 & E1 & F1) [H1 G1]] [(l2 & E2 & F2) [H2 G2]]. split; [|auto].
  exists (l1 ++ l2). split; [now rewrite E2, E1, app_assoc | now apply Forall_app].
Qed.

Lemma tame_ret {A} (a : A) : tame (ret a).
Proof. intros w; apply extends_refl. Qed.

Lemma tame_raise {A} e : tame (raise e : M A).
Proof. intros w; apply extends_refl. Qed.

Lemma tame_lift {A} (r : exn + A) : tame (lift r).
Proof. intros w; apply extends_refl. Qed.

Lemma tame_emit e : is_log e -> tame (emit e).
Proof.
  intros H w. split; cbn; [|auto]. exists [e]. split; [reflexivity|now constructor].
Qed.

Lemma tame_bind {A B} (m : M A) (k : A -> M B) :
  tame m -> (forall a, tame (k a)) -> tame (bind m k).
Proof.
  intros Hm Hk w. unfold bind. specialize (Hm w).
  destruct (m w) as [[e|a] w1]; cbn [snd] in *; [assumption|].
  eapply extends_trans; [eassumption|apply Hk].
Qed.

Lemma tame_try_except {A} (m : M A) (h : exn -> M A) :
  tame m -> (forall e, tame (h e)) -> tame (try_except m h).
Proof.
  intros Hm Hh w. unfold try_except. specialize (Hm w).
  destruct (m w) as [[e|a] w1]; cbn [snd] in *; [|assumption].
  eapply extends_trans; [eassumption|apply Hh].
Qed.

Lemma tame_when (b : bool) m : tame m -> tame (when b m).
Proof. destruct b; simpl; auto using tame_ret. Qed.

Lemma tame_new_Graph : tame new_Graph.
Proof.
  intros w. split; [|split]; cbn.
  - exists []. split; [now rewrite app_nil_r | constructor].
  - intros _ H. now destruct H.
  - intros _ t i [].
Qed.

Lemma headed_app_type g u l :
  In (URIRef u, RDF.type, SKOS.Concept) l -> headed (g ++ l).
Proof.
  intros H _. exists (URIRef u, RDF.type, SKOS.Concept). split; [|reflexivity].
  apply in_app_iff. now right.
Qed.

Lemma get_beyond (s : string) : forall n, String.length s <= n -> String.get n s = None.
Proof.
  induction s as [|c s IH]; intros n H; [reflexivity|].
  destruct n as [|n]; cbn in *; [lia|]. apply IH. lia.
Qed.

(** [say l w]: the world [w] after the events [l]. *)
Definition say (l : list event) (w : world) : world :=
  {| graph := graph w; bnodes := bnodes w; trace := trace w ++ l |}.

Lemma say_nil w : say [] w = w.
Proof. destruct w; unfold say; simpl; now rewrite app_nil_r. Qed.

Lemma say_say l1 l2 w : say l2 (say l1 w) = say (l1 ++ l2) w.
Proof. unfold say; simpl; now rewrite app_assoc. Qed.

Lemma bind_emit {B} e (k : unit -> M B) w : bind (emit e) k w = k tt (say [e] w).
Proof. reflexivity. Qed.

(** What [main] adds to a member list before it prints it. *)
Definition with_context (e : json) : json :=
  match e with
  | JObj m => JObj (dict_set m "@context" (JStr jskos_context))
  | _ => e
  end.

Definition is_object (e : json) : Prop := exists m, e = JObj m.

(** What the graph-to-tree transformation is relied on for, on a store that
    holds a statement about a URI reference: the result is a document
    object, and its ["@graph"] member, when there is one, is a non-empty
    array of node objects. *)
Definition document_of (doc : json) (d : list (string * json)) : Prop :=
  doc = JObj d
  /\ forall v, dict_get d "@graph" = Some v ->
               exists entries, v = JArr entries /\ entries <> [] /\ Forall is_object entries.

(** The node objects [main] prints in line-delimited output. *)
Definition top_level_entries (d : list (string * json)) : list json :=
  match dict_get d "@graph" with
  | Some (JArr entries) => entries
  | _ => [JObj d]
  end.

Section PipelineFacts.

Variable date : Type.
Variable strftime_F : date -> string.
Variable get_uri : ClassificationRecord date -> string -> string -> string.
Variable RawRecord : Type.
Variable leader_text : RawRecord -> option string.
Variable new_ClassificationRecord : RawRecord -> Options -> exn + ClassificationRecord date.
Variable is_public : ClassificationRecord date -> bool.
Variable iterparse : string -> document RawRecord.
Variable from_rdf : list triple -> json -> json.
Variable context : json.
Variable dumps : json -> bool -> option nat -> string.
Variable py : python.

Let process :=
  process_record strftime_F get_uri leader_text new_ClassificationRecord is_public.
Let loop :=
  records_loop strftime_F get_uri leader_text new_ClassificationRecord is_public.
Let run_main :=
  main strftime_F get_uri leader_text new_ClassificationRecord is_public iterparse
       from_rdf context dumps py.

Implicit Types (rec : RawRecord) (kwargs options : Options) (w : world).

Lemma process_record_no_leader rec kwargs w :
  leader_text rec = None ->
  process rec kwargs w = (inl (InvalidRecordError "Record does not have a leader"), w).
Proof. intros H. unfold process, process_record. now rewrite H. Qed.

Lemma process_record_short_leader rec kwargs w leader :
  leader_text rec = Some leader ->
  String.get 6 leader = None ->
  process rec kwargs w = (inl IndexError, w).
Proof. intros H1 H2. unfold process, process_record. now rewrite H1, H2. Qed.

Lemma process_record_other_family rec kwargs w leader marker :
  leader_text rec = Some leader ->
  String.get 6 leader = Some marker ->
  marker <> "w"%char ->
  process rec kwargs w
  = (inl (InvalidRecordError "Record is not a Marc21 Classification record"), w).
Proof.
  intros H1 H2 H3. unfold process, process_record. rewrite H1, H2.
  apply Ascii.eqb_neq in H3. now rewrite H3.
Qed.

Lemma process_record_rejected rec kwargs w leader e :
  leader_text rec = Some leader ->
  String.get 6 leader = Some "w"%char ->
  new_ClassificationRecord rec kwargs = inl e ->
  process rec kwargs w = (inl e, w).
Proof. intros H1 H2 H3. unfold process, process_record. now rewrite H1, H2, H3. Qed.

Lemma process_record_hidden rec kwargs w leader record u :
  leader_text rec = Some leader ->
  String.get 6 leader = Some "w"%char ->
  new_ClassificationRecord rec kwargs = inr record ->
  uri record = Some u ->
  is_public record = false ->
  process rec kwargs w = (inr tt, w).
Proof.
  intros H1 H2 H3 H4 H5. unfold process, process_record.
  now rewrite H1, H2, H3, H4, H5.
Qed.

Lemma process_record_public rec kwargs w leader record u :
  leader_text rec = Some leader ->
  String.get 6 leader = Some "w"%char ->
  new_ClassificationRecord rec kwargs = inr record ->
  uri record = Some u ->
  is_public record = true ->
  process rec kwargs w
  = (call_outcome record kwargs,
     {| graph := graph w
                 ++ record_statements strftime_F get_uri (URIRef u) record kwargs (bnodes w);
        bnodes := bnodes w + minted record kwargs;
        trace := trace w |}).
Proof.
  intros H1 H2 H3 H4 H5. unfold process, process_record.
  rewrite H1, H2, H3, H4, H5. cbn [Ascii.eqb Bool.eqb].
  unfold call. erewrite add_record_to_graph_run by eassumption.
  reflexivity.
Qed.

(** C4, as the code has it.  A valid record with the marker ['w'], an
    identifier and that is public gets exactly one type statement, declaring
    it a [skos:Concept], and one scheme-membership statement per entry of
    [scheme_uris], in order, each with [skos:topConceptOf] when
    [is_top_concept] holds and [skos:inScheme] otherwise; no other statement
    made for the record carries one of these predicates.  They are made
    first, so they are there however the processing of the record ends. *)
Theorem C4_type_and_membership rec kwargs w leader record u :
  leader_text rec = Some leader ->
  String.get 6 leader = Some "w"%char ->
  new_ClassificationRecord rec kwargs = inr record ->
  uri record = Some u ->
  is_public record = true ->
  exists outcome emitted w',
    process_record strftime_F get_uri leader_text new_ClassificationRecord is_public
                   rec kwargs w = (outcome, w')
    /\ graph w' = graph w ++ emitted
    /\ filter (by_pred (only RDF.type)) emitted = [(URIRef u, RDF.type, SKOS.Concept)]
    /\ filter (by_pred is_membership) emitted
       = map (fun scheme_uri =>
                (URIRef u,
                 (if is_top_concept record then SKOS.topConceptOf else SKOS.inScheme),
                 URIRef scheme_uri))
             (scheme_uris record)
    /\ length (filter (by_pred is_membership) emitted) = length (scheme_uris record).
Proof.
  intros H1 H2 H3 H4 H5. do 3 eexists.
  split; [eapply process_record_public; eassumption|].
  cbn [graph]. split; [reflexivity|].
  destruct (call_type_and_membership strftime_F get_uri record kwargs u (bnodes w))
    as [Ht Hm].
  split; [exact Ht|]. split; [exact Hm|]. rewrite Hm. apply length_map.
Qed.

(** C6. A record that passes the leader checks and is normalized, but has no
    identifier ([uri] is [None]), makes [process_record] return normally: no
    exception, the graph as it was, no anonymous node minted, and one
    debug-level log entry, whatever the other attributes of the record. *)
Theorem C6_no_identifier_no_statement rec kwargs w leader record :
  leader_text rec = Some leader ->
  String.get 6 leader = Some "w"%char ->
  new_ClassificationRecord rec kwargs = inr record ->
  uri record = None ->
  exists w',
    process_record strftime_F get_uri leader_text new_ClassificationRecord is_public
                   rec kwargs w = (inr tt, w')
    /\ graph w' = graph w
    /\ bnodes w' = bnodes w
    /\ trace w'
       = trace w
         ++ [Log DEBUG
               "Ignoring record because: No known concept scheme detected, and no manual URI template given"
               []].
Proof.
  intros H1 H2 H3 H4. unfold process_record. rewrite H1, H2, H3, H4.
  cbn [Ascii.eqb Bool.eqb]. eexists. split; [reflexivity|]. now cbn.
Qed.

Lemma tame_add_record record kwargs u :
  uri record = Some u -> tame (call record (add_record_to_graph strftime_F get_uri kwargs)).
Proof.
  intros Hu w.
  pose proof (@add_record_to_graph_fresh _ strftime_F get_uri record kwargs w u Hu) as Hf.
  unfold call. erewrite add_record_to_graph_run in * by exact Hu. cbn [snd] in *.
  split; [|split].
  - cbn [trace]. exists []. split; [now rewrite app_nil_r | constructor].
  - cbn [graph]. intros _. apply headed_app_type with (u := u).
    unfold record_statements, leading_statements. cbn [app]. now left.
  - exact Hf.
Qed.

Lemma tame_process rec kwargs : tame (process rec kwargs).
Proof.
  unfold process, process_record.
  destruct (leader_text rec) as [leader|]; [|apply tame_raise].
  destruct (String.get 6 leader) as [marker|]; [|apply tame_raise].
  destruct (Ascii.eqb marker "w"); [|apply tame_raise].
  destruct (new_ClassificationRecord rec kwargs) as [e|record]; [apply tame_raise|].
  destruct (uri record) as [u|] eqn:Hu; [|now apply tame_emit].
  destruct (is_public record); [|apply tame_ret].
  now apply tame_add_record with (u := u).
Qed.

Lemma tame_get_records_resume n : tame (get_records_resume n).
Proof.
  unfold get_records_resume. apply tame_bind; [|intros; apply tame_ret].
  apply tame_when. now apply tame_emit.
Qed.

Lemma tame_loop rs broken options : forall n read, tame (loop rs broken options n read).
Proof.
  induction rs as [|rec rs IH]; intros n read; cbn [loop records_loop].
  - destruct broken; [apply tame_raise | apply tame_ret].
  - apply tame_bind.
    + apply tame_try_except; [apply tame_process|].
      intros []; try apply tame_raise. now apply tame_emit.
    + intros _. apply tame_bind; [apply tame_get_records_resume|intros; apply IH].
Qed.

(** *** The two halves of [main] *)

Definition options_of (args : Args.t) : Options :=
  {| base_uri := Args.base_uri args;
     scheme_uri := Args.scheme_uri args;
     table_scheme_uri := Args.table_scheme_uri args;
     include_indexterms := Args.indexterms args;
     include_notes := Args.notes args;
     include_components := Args.components args |}.

(** [main] up to the end of its loop over the records. *)
Definition read_all (args : Args.t) : M unit :=
  new_Graph ;;
  emit (SetLevel (if Args.verbose args then DEBUG else INFO)) ;;
  if negb (member (Args.outformat args) ["turtle"; "jskos"; "ndjson"])
  then raise (ValueError "output format not supported")
  else
    get_records_start (Args.infile args) ;;
    loop (records (iterparse (Args.infile args))) (malformed (iterparse (Args.infile args)))
         (options_of args) 0 0.

(** Where [main] sends its output. *)
Definition out_stream (args : Args.t) : stream :=
  match Args.outfile args with
  | Some name =>
      if truthy (Args.outfile args) && negb (String.eqb name "-") then File name else Stdout
  | None => Stdout
  end.

Lemma tame_read_all args : tame (read_all args).
Proof.
  unfold read_all. apply tame_bind; [apply tame_new_Graph|]. intros _.
  apply tame_bind; [now apply tame_emit|]. intros _.
  destruct (negb _); [apply tame_raise|].
  apply tame_bind; [now apply tame_emit|]. intros _. apply tame_loop.
Qed.

(** When the reading is over, the store is empty or holds a statement about
    a URI reference. *)
Lemma read_all_headed args w : headed (graph (snd (read_all args w))).
Proof.
  assert (T : tame (emit (SetLevel (if Args.verbose args then DEBUG else INFO)) ;;
                    if negb (member (Args.outformat args) ["turtle"; "jskos"; "ndjson"])
                    then raise (ValueError "output format not supported")
                    else
                      get_records_start (Args.infile args) ;;
                      loop (records (iterparse (Args.infile args)))
                           (malformed (iterparse (Args.infile args)))
                           (options_of args) 0 0)).
  { apply tame_bind; [now apply tame_emit|]. intros _.
    destruct (negb _); [apply tame_raise|].
    apply tame_bind; [now apply tame_emit|]. intros _. apply tame_loop. }
  unfold read_all. unfold bind at 1. unfold new_Graph at 1.
  apply (proj1 (proj2 (T _))). cbn [graph]. intros H. now destruct H.
Qed.

(** And its anonymous nodes are below the mint counter, as every call of the
    graph builder in the loop found them. *)
Lemma read_all_fresh args w :
  fresh_from (bnodes (snd (read_all args w))) (graph (snd (read_all args w))).
Proof.
  pose proof (tame_read_all args) as T.
  unfold read_all in *. unfold bind at 1. unfold new_Graph at 1.
  assert (T' : tame (emit (SetLevel (if Args.verbose args then DEBUG else INFO)) ;;
                     if negb (member (Args.outformat args) ["turtle"; "jskos"; "ndjson"])
                     then raise (ValueError "output format not supported")
                     else
                       get_records_start (Args.infile args) ;;
                       loop (records (iterparse (Args.infile args)))
                            (malformed (iterparse (Args.infile args)))
                            (options_of args) 0 0)).
  { apply tame_bind; [now apply tame_emit|]. intros _.
    destruct (negb _); [apply tame_raise|].
    apply tame_bind; [now apply tame_emit|]. intros _. apply tame_loop. }
  apply (proj2 (proj2 (T' _))). cbn [graph]. intros t i [].
Qed.

(** [main] from the test of the store on. *)
Definition write_out (args : Args.t) : M unit :=
  graph <- get_graph ;;
  match graph with
  | [] => emit (Log WARNING "RDF result is empty!" [])
  | _ :: _ =>
      out_file <-
        (match Args.outfile args with
         | Some name =>
             if truthy (Args.outfile args) && negb (String.eqb name "-")
             then emit (Open name "wb") ;; ret (File name)
             else ret Stdout
         | None => ret Stdout
         end) ;;

      (if is_format (Args.outformat args) "turtle"
       then serialize_turtle py out_file graph
       else if member (Args.outformat args) ["jskos"; "ndjson"]
       then
         let jskos := from_rdf graph context in
         if is_format (Args.outformat args) "jskos"
         then
           jskos <- lift (py_setitem jskos "@context" (JStr jskos_context)) ;;
           stream_write py out_file (dumps jskos true (Some 2))
         else
           has_graph <- lift (py_contains "@graph" jskos) ;;
           entries <-
             (if has_graph : bool
              then v <- lift (py_getitem jskos "@graph") ;; lift (py_iter v)
              else ret [jskos]) ;;
           for_each entries (fun record =>
             record <- lift (py_setitem record "@context" (JStr jskos_context)) ;;
             stream_write py out_file (dumps record true None) ;;
             stream_write py out_file newline)
       else ret tt) ;;

      match out_file with
      | File _ =>
          emit (Log INFO "Wrote %s: %s"
                  [ArgStr (str_of (Args.outformat args)); ArgStr (str_of (Args.outfile args))])
      | Stdout => ret tt
      end
  end.

(** [main] is the one after the other. *)
Lemma main_split args w :
  run_main args w = bind (read_all args) (fun _ => write_out args) w.
Proof.
  unfold run_main, main, read_all, write_out, loop, options_of.
  symmetry. etransitivity; [apply bind_assoc|].
  apply bind_ext; intros _ w1.
  etransitivity; [apply bind_assoc|].
  apply bind_ext; intros _ w2.
  destruct (negb (member (Args.outformat args) ["turtle"; "jskos"; "ndjson"]));
    [reflexivity|].
  etransitivity; [apply bind_assoc|].
  apply bind_ext; intros _ w3.
  reflexivity.
Qed.

(** C7. When the loop over the records ends normally on an empty graph,
    [main] logs one warning and returns: the graph is still empty, and no
    event of the whole run opens, serializes to or writes an output. *)
Theorem C7_empty_graph_no_output args w w1 :
  read_all args w = (inr tt, w1) ->
  graph w1 = [] ->
  exists w',
    main strftime_F get_uri leader_text new_ClassificationRecord is_public iterparse
         from_rdf context dumps py args w = (inr tt, w')
    /\ graph w' = []
    /\ trace w' = trace w1 ++ [Log WARNING "RDF result is empty!" []]
    /\ exists events, trace w' = trace w ++ events
                      /\ forall e, In e events -> is_output e = false.
Proof.
  intros Hread Hempty.
  exists {| graph := []; bnodes := bnodes w1;
            trace := trace w1 ++ [Log WARNING "RDF result is empty!" []] |}.
  split.
  { fold run_main. rewrite main_split.
    rewrite (@bind_run _ _ _ _ _ _ _ Hread).
    unfold write_out, bind, get_graph, emit.
    destruct w1 as [g b t]. cbn in Hempty. subst g. reflexivity. }
  split; [reflexivity|]. split; [reflexivity|]. cbn [trace].
  destruct (tame_read_all args w) as [(logs & E & F) _].
  rewrite Hread in E. cbn [snd] in E.
  exists (logs ++ [Log WARNING "RDF result is empty!" []]). split.
  - now rewrite E, app_assoc.
  - intros e He. apply in_app_iff in He as [He|[<-|[]]]; [|reflexivity].
    now apply (is_log_not_output F).
Qed.

(** The choice of the output stream. *)
Lemma open_out {B} args (k : stream -> M B) w :
  bind (match Args.outfile args with
        | Some name =>
            if truthy (Args.outfile args) && negb (String.eqb name "-")
            then emit (Open name "wb") ;; ret (File name)
            else ret Stdout
        | None => ret Stdout
        end) k w
  = k (out_stream args)
      (say (match out_stream args with File name => [Open name "wb"] | Stdout => [] end) w).
Proof.
  unfold out_stream. destruct (Args.outfile args) as [name|]; [|now rewrite say_nil].
  destruct (truthy (Some name) && negb (String.eqb name "-")); [reflexivity|].
  now rewrite say_nil.
Qed.

Definition ndjson_line (out : stream) (e : json) : list event :=
  [FileWrite out (dumps (with_context e) true None); FileWrite out newline].

Lemma stream_write_taken out text w :
  takes_text py out = true -> stream_write py out text w = (inr tt, say [FileWrite out text] w).
Proof. intros H. unfold stream_write. now rewrite H. Qed.

Lemma stream_write_refused out text w :
  takes_text py out = false -> stream_write py out text w = (inl TypeError, w).
Proof. intros H. unfold stream_write. now rewrite H. Qed.

(** The printing loop of the line-delimited format, over node objects, on a
    stream that takes text. *)
Lemma print_entries out : forall entries w,
  takes_text py out = true ->
  Forall is_object entries ->
  for_each entries (fun record =>
    record <- lift (py_setitem record "@context" (JStr jskos_context)) ;;
    stream_write py out (dumps record true None) ;;
    stream_write py out newline) w
  = (inr tt, say (flat_map (ndjson_line out) entries) w).
Proof.
  intros entries w Ht. revert w.
  induction entries as [|e entries IH]; intros w H.
  - cbn. now rewrite say_nil.
  - inversion H as [|? ? [m ->] H']; subst.
    cbn [for_each flat_map]. unfold bind at 1. unfold bind at 1.
    cbn [lift py_setitem]. unfold bind at 1.
    rewrite stream_write_taken by exact Ht.
    rewrite stream_write_taken by exact Ht.
    rewrite IH by assumption. rewrite !say_say.
    unfold ndjson_line at 2. cbn [with_context app]. reflexivity.
Qed.

(** The same loop on a stream that refuses text ends at its first write. *)
Lemma print_entries_refused out e entries w :
  takes_text py out = false ->
  is_object e ->
  for_each (e :: entries) (fun record =>
    record <- lift (py_setitem record "@context" (JStr jskos_context)) ;;
    stream_write py out (dumps record true None) ;;
    stream_write py out newline) w
  = (inl TypeError, w).
Proof.
  intros Ht [m ->]. cbn [for_each]. unfold bind at 1. unfold bind at 1.
  cbn [lift py_setitem]. unfold bind at 1.
  now rewrite stream_write_refused by exact Ht.
Qed.

(** What the transformation gives [main] to print, under its interface. *)
Lemma entries_to_print args w w1 :
  (forall g, (exists t, In t g /\ is_URIRef (subj t) = true) ->
             exists d, document_of (from_rdf g context) d) ->
  read_all args w = (inr tt, w1) ->
  graph w1 <> [] ->
  exists d,
    from_rdf (graph w1) context = JObj d
    /\ Forall is_object (top_level_entries d)
    /\ 1 <= length (top_level_entries d)
    /\ (if match dict_get d "@graph" with Some _ => true | None => false end
        then v <- lift (py_getitem (JObj d) "@graph") ;; lift (py_iter v)
        else ret [JObj d])
       = (ret (top_level_entries d) : M (list json)).
Proof.
  intros contract Hread Hne.
  assert (Hh : exists t, In t (graph w1) /\ is_URIRef (subj t) = true).
  { generalize (read_all_headed args w). rewrite Hread. cbn [snd]. auto. }
  destruct (contract _ Hh) as (d & Hdoc & Hgraph).
  exists d. split; [exact Hdoc|].
  unfold top_level_entries. destruct (dict_get d "@graph") as [v|] eqn:E.
  - destruct (Hgraph v eq_refl) as (entries & -> & Hn & Hall).
    split; [assumption|]. split; [destruct entries; [contradiction|cbn; lia]|].
    unfold bind, lift, py_getitem. rewrite E. reflexivity.
  - split; [constructor; [now exists d|constructor]|]. split; [cbn; lia|reflexivity].
Qed.

(** [main] in [ndjson] mode from the choice of the stream on. *)
Lemma ndjson_out args w1 d :
  graph w1 <> [] ->
  Args.outformat args = Some "ndjson" ->
  from_rdf (graph w1) context = JObj d ->
  (if match dict_get d "@graph" with Some _ => true | None => false end
   then v <- lift (py_getitem (JObj d) "@graph") ;; lift (py_iter v)
   else ret [JObj d])
  = (ret (top_level_entries d) : M (list json)) ->
  write_out args w1
  = bind
      (for_each (top_level_entries d) (fun record =>
         record <- lift (py_setitem record "@context" (JStr jskos_context)) ;;
         stream_write py (out_stream args) (dumps record true None) ;;
         stream_write py (out_stream args) newline))
      (fun _ =>
         match out_stream args with
         | File _ =>
             emit (Log INFO "Wrote %s: %s"
                     [ArgStr (str_of (Args.outformat args));
                      ArgStr (str_of (Args.outfile args))])
         | Stdout => ret tt
         end)
      (say (match out_stream args with File name => [Open name "wb"] | Stdout => [] end) w1).
Proof.
  intros Hne Hfmt Hdoc Hiter.
  unfold write_out. unfold bind at 1. unfold get_graph at 1.
  assert (Hm : forall (A : Type) (a b : A),
             match graph w1 with [] => a | _ :: _ => b end = b).
  { intros. destruct (graph w1); [contradiction|reflexivity]. }
  rewrite Hm.
  rewrite open_out. rewrite Hfmt.
  cbn [is_format option_eqb member existsb String.eqb Ascii.eqb Bool.eqb orb].
  rewrite Hdoc.
  unfold bind at 1. unfold bind at 1. cbn [lift py_contains].
  unfold bind at 1. rewrite Hiter. unfold ret at 1. reflexivity.
Qed.

(** X27. In [ndjson] mode on a stream that takes text (the standard output,
    or any stream under Python 2), after a reading that ends normally on a
    non-empty graph, [main] prints one compact line per entry
    of the top-level ["@graph"] array of the transformed document when the
    document has that key, and the whole document as one line otherwise;
    every printed object has received the context URI; nothing else is
    written; and at least one line is printed. *)
Theorem ndjson_lines args w w1 :
  (forall g, (exists t, In t g /\ is_URIRef (subj t) = true) ->
             exists d, document_of (from_rdf g context) d) ->
  read_all args w = (inr tt, w1) ->
  graph w1 <> [] ->
  Args.outformat args = Some "ndjson" ->
  takes_text py (out_stream args) = true ->
  exists d w',
    from_rdf (graph w1) context = JObj d
    /\ main strftime_F get_uri leader_text new_ClassificationRecord is_public iterparse
            from_rdf context dumps py args w = (inr tt, w')
    /\ graph w' = graph w1
    /\ trace w'
       = trace w1
         ++ match out_stream args with File name => [Open name "wb"] | Stdout => [] end
         ++ flat_map (ndjson_line (out_stream args)) (top_level_entries d)
         ++ match out_stream args with
            | File _ => [Log INFO "Wrote %s: %s"
                           [ArgStr "ndjson"; ArgStr (str_of (Args.outfile args))]]
            | Stdout => []
            end
    /\ (forall entries, dict_get d "@graph" = Some (JArr entries) ->
                        top_level_entries d = entries)
    /\ (dict_get d "@graph" = None -> top_level_entries d = [JObj d])
    /\ 1 <= length (top_level_entries d).
Proof.
  intros contract Hread Hne Hfmt Htext.
  destruct (@entries_to_print args w w1 contract Hread Hne)
    as (d & Hdoc & Hall & Hlen & Hiter).
  exists d.
  exists (say match out_stream args with
              | File _ => [Log INFO "Wrote %s: %s"
                             [ArgStr "ndjson"; ArgStr (str_of (Args.outfile args))]]
              | Stdout => []
              end
           (say (flat_map (ndjson_line (out_stream args)) (top_level_entries d))
              (say match out_stream args with
                   | File name => [Open name "wb"]
                   | Stdout => []
                   end w1))).
  split; [exact Hdoc|]. split.
  { fold run_main. rewrite main_split.
    rewrite (@bind_run _ _ _ _ _ _ _ Hread).
    rewrite (@ndjson_out args w1 d Hne Hfmt Hdoc Hiter).
    unfold bind at 1. rewrite print_entries by assumption. rewrite Hfmt.
    destruct (out_stream args) eqn:Eo; [now rewrite (say_nil (say _ _))|reflexivity]. }
  split; [reflexivity|].
  split.
  { unfold say; cbn [trace]. now rewrite <- !app_assoc. }
  split.
  { intros entries E. unfold top_level_entries. now rewrite E. }
  split.
  { intros E. unfold top_level_entries. now rewrite E. }
  exact Hlen.
Qed.

(** C10, where the code departs from it.  Under Python 3, in [ndjson] mode
    with a named output file, after a reading that ends normally on a
    non-empty graph: the file is opened for bytes, the first entry gets its
    context, and the first [write] of its text is refused.  [main] ends on
    [TypeError]; all it has done is log and open the file, so no line is
    written for a graph that is not empty. *)
Theorem C10_named_file_gets_no_line args w w1 name :
  (forall g, (exists t, In t g /\ is_URIRef (subj t) = true) ->
             exists d, document_of (from_rdf g context) d) ->
  py = Python3 ->
  read_all args w = (inr tt, w1) ->
  graph w1 <> [] ->
  Args.outformat args = Some "ndjson" ->
  out_stream args = File name ->
  exists w' logs,
    main strftime_F get_uri leader_text new_ClassificationRecord is_public iterparse
         from_rdf context dumps py args w = (inl TypeError, w')
    /\ graph w' = graph w1
    /\ trace w' = trace w ++ logs ++ [Open name "wb"]
    /\ Forall is_log logs.
Proof.
  intros contract Hpy Hread Hne Hfmt Hout.
  assert (Htext : takes_text py (File name) = false) by now rewrite Hpy.
  clear Hpy.
  destruct (@entries_to_print args w w1 contract Hread Hne)
    as (d & Hdoc & Hall & Hlen & Hiter).
  destruct (tame_read_all args w) as [(logs & E & F) _].
  rewrite Hread in E. cbn [snd] in E.
  exists (say [Open name "wb"] w1), logs.
  split; [|split; [reflexivity|split; [|exact F]]].
  - fold run_main. rewrite main_split.
    rewrite (@bind_run _ _ _ _ _ _ _ Hread).
    rewrite (@ndjson_out args w1 d Hne Hfmt Hdoc Hiter). rewrite Hout.
    destruct (top_level_entries d) as [|e entries]; [cbn in Hlen; lia|].
    inversion Hall as [|? ? He _]; subst.
    unfold bind at 1. now rewrite print_entries_refused.
  - unfold say; cbn [trace]. now rewrite E, <- app_assoc.
Qed.

(** *** Records the loop meets *)

(** A record that [process_record] refuses with [InvalidRecordError] costs
    one debug entry, and the loop goes on with the next record. *)
Lemma loop_skips_invalid rec rs broken options n read w msg :
  process rec options w = (inl (InvalidRecordError msg), w) ->
  loop (rec :: rs) broken options n read w
  = (read' <- get_records_resume read ;; loop rs broken options (S n) read')
      (say [Log DEBUG "Ignoring record %d: %s" [ArgInt (S n); ArgStr msg]] w).
Proof.
  intros H. unfold loop. cbn [records_loop]. cbv zeta.
  unfold bind at 1. unfold try_except. unfold process in H. rewrite H.
  reflexivity.
Qed.

(** A leader of fewer than seven characters ends the loop, and with it the
    run, on an [IndexError]: that exception is not the one the loop catches. *)
Lemma loop_stops_on_short_leader rec rs broken options n read w leader :
  leader_text rec = Some leader ->
  String.length leader < 7 ->
  loop (rec :: rs) broken options n read w = (inl IndexError, w).
Proof.
  intros H1 H2. unfold loop. cbn [records_loop]. cbv zeta.
  unfold bind at 1. unfold try_except.
  fold process.
  rewrite (@process_record_short_leader rec options w leader H1); [reflexivity|].
  apply get_beyond. lia.
Qed.

End PipelineFacts.

(** ** The graph builder on sample records *)

Lemma C1_witness :
  uri Sample.built_record = Some "http://dewey.info/class/512.0901/e23/"
  /\ include_components Sample.options = true
  /\ components Sample.built_record = ["512"; "0901"]
  /\ fresh_from (bnodes empty_world) (graph empty_world)
  /\ exists record' emitted w',
       add_record_to_graph Sample.strftime_F Sample.get_uri Sample.options
                           (Sample.built_record, empty_world)
       = (inl AssertionError, (record', w'))
       /\ graph w' = graph empty_world ++ emitted
       /\ objects emitted (URIRef "http://dewey.info/class/512.0901/e23/")
                  (MADS "componentList") = [BNode 0]
       /\ objects (graph w') (BNode 0) RDF.first
          = [URIRef (Sample.get_uri record' "class" "512")]
       /\ objects (graph w') (BNode 0) RDF.rest = [BNode 1]
       /\ objects (graph w') (BNode 1) RDF.first = []
       /\ objects (graph w') (BNode 1) RDF.rest = []
       /\ (forall fuel, rdf_list fuel (graph w') (BNode 0) = None)
       /\ filter (by_pred (only RDF.rest)) emitted = [(BNode 0, RDF.rest, BNode 1)]
       /\ bnodes w' = 0 + 2.
Proof.
  assert (F : fresh_from (bnodes empty_world) (graph empty_world)).
  { intros t i []. }
  split; [reflexivity|]. split; [reflexivity|]. split; [reflexivity|]. split; [exact F|].
  exact (@C1_chain_breaks_at_second_component Sample.date Sample.strftime_F Sample.get_uri
           Sample.built_record Sample.options empty_world
           "http://dewey.info/class/512.0901/e23/" "512" "0901" []
           eq_refl eq_refl eq_refl F).
Defined.



(** The same on the record with both components: the call raises, and has
    taken the first component out before. *)
Example pop_is_kept_when_the_call_raises :
  exists record' w',
    add_record_to_graph Sample.strftime_F Sample.get_uri Sample.options
                        (Sample.built_record, empty_world)
    = (inl AssertionError, (record', w'))
    /\ components Sample.built_record = ["512"; "0901"]
    /\ components record' = ["0901"].
Proof.
  do 2 eexists. split; [vm_compute; reflexivity|]. split; reflexivity.
Qed.

Lemma C5_witness :
  uri Sample.table_record = Some "http://dewey.info/class/1--0901/e23/"
  /\ notation Sample.table_record = Some "1--0901"
  /\ exists outcome record' emitted w',
       add_record_to_graph Sample.strftime_F Sample.get_uri Sample.options
                           (Sample.table_record, empty_world) = (outcome, (record', w'))
       /\ graph w' = graph empty_world ++ emitted
       /\ filter (by_pred (only SKOS.notation)) emitted
          = [(URIRef "http://dewey.info/class/1--0901/e23/", SKOS.notation,
              Literal (LStr "T1--0901") None None)]
       /\ notation record' = Some "1--0901".
Proof.
  split; [reflexivity|]. split; [reflexivity|].
  exact (@C5_notation_literal Sample.date Sample.strftime_F Sample.get_uri
           Sample.table_record Sample.options empty_world
           "http://dewey.info/class/1--0901/e23/" "1--0901" eq_refl eq_refl).
Defined.

Lemma C9_witness :
  uri Sample.built_record = Some "http://dewey.info/class/512.0901/e23/"
  /\ include_components Sample.options = true
  /\ components Sample.built_record = ["512"; "0901"]
  /\ exists record' emitted w',
       add_record_to_graph Sample.strftime_F Sample.get_uri Sample.options
                           (Sample.built_record, empty_world)
       = (inl AssertionError, (record', w'))
       /\ graph w' = graph empty_world ++ emitted
       /\ filter (by_pred (only RDF.first)) emitted
          = [(BNode 0, RDF.first, URIRef (Sample.get_uri record' "class" "512"))]
       /\ graph_add (BNode 1, RDF.first, PyStr (Sample.get_uri record' "class" "0901")) w'
          = (inl AssertionError, w')
       /\ Forall (fun t => all_Nodes t = true) emitted.
Proof.
  split; [reflexivity|]. split; [reflexivity|]. split; [reflexivity|].
  exact (@C9_unwrapped_component_is_refused Sample.date Sample.strftime_F Sample.get_uri
           Sample.built_record Sample.options empty_world
           "http://dewey.info/class/512.0901/e23/" "512" "0901" []
           eq_refl eq_refl eq_refl).
Defined.

(** ** The pipeline on sample documents *)

Lemma C6_witness :
  Sample.leader_text Sample.unidentified = Some "00000nw  a2200000n  4500"
  /\ String.get 6 "00000nw  a2200000n  4500" = Some "w"%char
  /\ Sample.new_ClassificationRecord Sample.unidentified Sample.options
     = inr Sample.unidentified_record
  /\ uri Sample.unidentified_record = None
  /\ exists w',
       process_record Sample.strftime_F Sample.get_uri Sample.leader_text
                      Sample.new_ClassificationRecord Sample.is_public
                      Sample.unidentified Sample.options empty_world = (inr tt, w')
       /\ graph w' = graph empty_world
       /\ bnodes w' = bnodes empty_world
       /\ trace w'
          = trace empty_world
            ++ [Log DEBUG
                  "Ignoring record because: No known concept scheme detected, and no manual URI template given"
                  []].
Proof.
  repeat (split; [reflexivity|]).
  exact (@C6_no_identifier_no_statement Sample.date Sample.strftime_F Sample.get_uri
           Sample.raw Sample.leader_text Sample.new_ClassificationRecord Sample.is_public
           Sample.unidentified Sample.options empty_world _ _
           eq_refl eq_refl eq_refl eq_refl).
Defined.

Lemma C4_witness :
  Sample.leader_text Sample.classification = Some "00000nw  a2200000n  4500"
  /\ String.get 6 "00000nw  a2200000n  4500" = Some "w"%char
  /\ Sample.new_ClassificationRecord Sample.classification Sample.options = inr Sample.record
  /\ uri Sample.record = Some "http://dewey.info/class/512.0901/e23/"
  /\ Sample.is_public Sample.record = true
  /\ exists outcome emitted w',
       process_record Sample.strftime_F Sample.get_uri Sample.leader_text
                      Sample.new_ClassificationRecord Sample.is_public
                      Sample.classification Sample.options empty_world = (outcome, w')
       /\ graph w' = graph empty_world ++ emitted
       /\ filter (by_pred (only RDF.type)) emitted
          = [(URIRef "http://dewey.info/class/512.0901/e23/", RDF.type, SKOS.Concept)]
       /\ filter (by_pred is_membership) emitted
          = map (fun scheme_uri =>
                   (URIRef "http://dewey.info/class/512.0901/e23/",
                    (if is_top_concept Sample.record
                     then SKOS.topConceptOf else SKOS.inScheme),
                    URIRef scheme_uri))
                (scheme_uris Sample.record)
       /\ length (filter (by_pred is_membership) emitted)
          = length (scheme_uris Sample.record).
Proof.
  split; [reflexivity|]. split; [reflexivity|]. split; [reflexivity|].
  split; [reflexivity|]. split; [reflexivity|].
  exact (@C4_type_and_membership Sample.date Sample.strftime_F Sample.get_uri
           Sample.raw Sample.leader_text Sample.new_ClassificationRecord Sample.is_public
           Sample.classification Sample.options empty_world
           "00000nw  a2200000n  4500" Sample.record
           "http://dewey.info/class/512.0901/e23/"
           eq_refl eq_refl eq_refl eq_refl eq_refl).
Defined.

(** C4 as the spec states it fails: the sample record is valid, has the
    marker ['w'] and an identifier, and when it is not public
    [process_record] returns without a single statement. *)
Lemma C4_counterexample :
  Sample.leader_text Sample.classification = Some "00000nw  a2200000n  4500"
  /\ String.get 6 "00000nw  a2200000n  4500" = Some "w"%char
  /\ Sample.new_ClassificationRecord Sample.classification Sample.options = inr Sample.record
  /\ uri Sample.record = Some "http://dewey.info/class/512.0901/e23/"
  /\ process_record Sample.strftime_F Sample.get_uri Sample.leader_text
                    Sample.new_ClassificationRecord (fun _ => false)
                    Sample.classification Sample.options empty_world
     = (inr tt, empty_world)
  /\ graph empty_world = [].
Proof. repeat split. Qed.

(** C2, at a leader of five characters.  The document holds that record and
    then a valid one.  The run ends on [IndexError] in the first turn of the
    loop: nothing is logged for the record, the valid record is never
    reached, the graph is empty and nothing is written. *)
Theorem C2_short_leader_ends_the_run :
  Sample.leader_text Sample.short_leader = Some "00000"
  /\ records (Sample.iterparse "short.xml") = [Sample.short_leader; Sample.classification]
  /\ Sample.main (Sample.args "short.xml" "turtle") empty_world
     = (inl IndexError,
        {| graph := [];
           bnodes := 0;
           trace := [SetLevel INFO; Log INFO "Parsing: %s" [ArgStr "short.xml"]] |}).
Proof. split; [reflexivity|]. split; [reflexivity|]. vm_compute. reflexivity. Qed.

(** The other two leader faults of C2 are caught: the run goes on to the
    valid record and writes its statements. *)
Example invalid_leaders_are_skipped :
  exists w',
    Sample.main (Sample.args "mixed.xml" "turtle") empty_world = (inr tt, w')
    /\ firstn 4 (trace w')
       = [SetLevel INFO;
          Log INFO "Parsing: %s" [ArgStr "mixed.xml"];
          Log DEBUG "Ignoring record %d: %s"
            [ArgInt 1; ArgStr "Record is not a Marc21 Classification record"];
          Log DEBUG "Ignoring record %d: %s"
            [ArgInt 2; ArgStr "Record does not have a leader"]]
    /\ length (graph w') = 13.
Proof. eexists. split; [vm_compute; reflexivity|]. split; vm_compute; reflexivity. Qed.

(** The world after reading a document in which every record is refused. *)
Definition after_rejected : world :=
  {| graph := [];
     bnodes := 0;
     trace :=
       [SetLevel INFO;
        Log INFO "Parsing: %s" [ArgStr "rejected.xml"];
        Log DEBUG "Ignoring record %d: %s"
          [ArgInt 1; ArgStr "Record is not a Marc21 Classification record"];
        Log DEBUG "Ignoring record %d: %s"
          [ArgInt 2; ArgStr "Record does not have a leader"];
        Log DEBUG
          "Ignoring record because: No known concept scheme detected, and no manual URI template given"
          []] |}.

Lemma C7_witness :
  read_all Sample.strftime_F Sample.get_uri Sample.leader_text
           Sample.new_ClassificationRecord Sample.is_public Sample.iterparse
           (Sample.args "rejected.xml" "turtle") empty_world
  = (inr tt, after_rejected)
  /\ graph after_rejected = []
  /\ exists w',
       Sample.main (Sample.args "rejected.xml" "turtle") empty_world = (inr tt, w')
       /\ graph w' = []
       /\ trace w' = trace after_rejected ++ [Log WARNING "RDF result is empty!" []]
       /\ exists events, trace w' = trace empty_world ++ events
                         /\ forall e, In e events -> is_output e = false.
Proof.
  assert (Hread : read_all Sample.strftime_F Sample.get_uri Sample.leader_text
                    Sample.new_ClassificationRecord Sample.is_public Sample.iterparse
                    (Sample.args "rejected.xml" "turtle") empty_world
                  = (inr tt, after_rejected)) by (vm_compute; reflexivity).
  split; [exact Hread|]. split; [reflexivity|].
  exact (@C7_empty_graph_no_output Sample.date Sample.strftime_F Sample.get_uri
           Sample.raw Sample.leader_text Sample.new_ClassificationRecord Sample.is_public
           Sample.iterparse Sample.from_rdf Sample.context Sample.dumps Sample.py
           (Sample.args "rejected.xml" "turtle") empty_world after_rejected
           Hread eq_refl).
Defined.

(** The sample transformation keeps to what is relied on. *)
Lemma sample_from_rdf_document g :
  (exists t, In t g /\ is_URIRef (subj t) = true) ->
  exists d, document_of (Sample.from_rdf g Sample.context) d.
Proof.
  intros (t & Ht & _). eexists. split; [reflexivity|].
  intros v E. cbn in E. injection E as <-. eexists. split; [reflexivity|]. split.
  - destruct g; [destruct Ht|discriminate].
  - apply Forall_forall. intros e He. apply in_map_iff in He as (x & <- & _).
    eexists. reflexivity.
Defined.

(** The world after reading the sample document with one valid record. *)
Definition after_mixed : world :=
  snd (read_all Sample.strftime_F Sample.get_uri Sample.leader_text
                Sample.new_ClassificationRecord Sample.is_public Sample.iterparse
                (Sample.args "mixed.xml" "ndjson") empty_world).

Lemma C10_witness :
  (forall g, (exists t, In t g /\ is_URIRef (subj t) = true) ->
             exists d, document_of (Sample.from_rdf g Sample.context) d)
  /\ Sample.py = Python3
  /\ read_all Sample.strftime_F Sample.get_uri Sample.leader_text
              Sample.new_ClassificationRecord Sample.is_public Sample.iterparse
              (Sample.args "mixed.xml" "ndjson") empty_world
     = (inr tt, after_mixed)
  /\ graph after_mixed <> []
  /\ Args.outformat (Sample.args "mixed.xml" "ndjson") = Some "ndjson"
  /\ out_stream (Sample.args "mixed.xml" "ndjson") = File "out.ndjson"
  /\ exists w' logs,
       Sample.main (Sample.args "mixed.xml" "ndjson") empty_world = (inl TypeError, w')
       /\ graph w' = graph after_mixed
       /\ trace w' = trace empty_world ++ logs ++ [Open "out.ndjson" "wb"]
       /\ Forall is_log logs.
Proof.
  assert (Hread : read_all Sample.strftime_F Sample.get_uri Sample.leader_text
                    Sample.new_ClassificationRecord Sample.is_public Sample.iterparse
                    (Sample.args "mixed.xml" "ndjson") empty_world
                  = (inr tt, after_mixed)) by (vm_compute; reflexivity).
  assert (Hne : graph after_mixed <> []) by (vm_compute; discriminate).
  split; [exact sample_from_rdf_document|].
  split; [reflexivity|].
  split; [exact Hread|].
  split; [exact Hne|].
  split; [reflexivity|].
  split; [reflexivity|].
  exact (@C10_named_file_gets_no_line Sample.date Sample.strftime_F Sample.get_uri
           Sample.raw Sample.leader_text Sample.new_ClassificationRecord Sample.is_public
           Sample.iterparse Sample.from_rdf Sample.context Sample.dumps Sample.py
           (Sample.args "mixed.xml" "ndjson") empty_world after_mixed "out.ndjson"
           sample_from_rdf_document eq_refl Hread Hne eq_refl eq_refl).
Defined.

(** The same document sent to the standard output is printed. *)
Lemma ndjson_lines_witness :
  (forall g, (exists t, In t g /\ is_URIRef (subj t) = true) ->
             exists d, document_of (Sample.from_rdf g Sample.context) d)
  /\ read_all Sample.strftime_F Sample.get_uri Sample.leader_text
              Sample.new_ClassificationRecord Sample.is_public Sample.iterparse
              (Sample.stdout_args "mixed.xml" "ndjson") empty_world
     = (inr tt, after_mixed)
  /\ graph after_mixed <> []
  /\ Args.outformat (Sample.stdout_args "mixed.xml" "ndjson") = Some "ndjson"
  /\ takes_text Sample.py (out_stream (Sample.stdout_args "mixed.xml" "ndjson")) = true
  /\ exists d w',
       Sample.from_rdf (graph after_mixed) Sample.context = JObj d
       /\ Sample.main (Sample.stdout_args "mixed.xml" "ndjson") empty_world = (inr tt, w')
       /\ graph w' = graph after_mixed
       /\ trace w'
          = trace after_mixed
            ++ []
            ++ flat_map (ndjson_line Sample.dumps Stdout) (top_level_entries d)
            ++ []
       /\ (forall entries, dict_get d "@graph" = Some (JArr entries) ->
                           top_level_entries d = entries)
       /\ (dict_get d "@graph" = None -> top_level_entries d = [JObj d])
       /\ 1 <= length (top_level_entries d).
Proof.
  assert (Hread : read_all Sample.strftime_F Sample.get_uri Sample.leader_text
                    Sample.new_ClassificationRecord Sample.is_public Sample.iterparse
                    (Sample.stdout_args "mixed.xml" "ndjson") empty_world
                  = (inr tt, after_mixed)) by (vm_compute; reflexivity).
  assert (Hne : graph after_mixed <> []) by (vm_compute; discriminate).
  split; [exact sample_from_rdf_document|].
  split; [exact Hread|].
  split; [exact Hne|].
  split; [reflexivity|].
  split; [reflexivity|].
  exact (@ndjson_lines Sample.date Sample.strftime_F Sample.get_uri
           Sample.raw Sample.leader_text Sample.new_ClassificationRecord Sample.is_public
           Sample.iterparse Sample.from_rdf Sample.context Sample.dumps Sample.py
           (Sample.stdout_args "mixed.xml" "ndjson") empty_world after_mixed
           sample_from_rdf_document Hread Hne eq_refl eq_refl).
Defined.

(** ** The subject sorters of the Turtle output *)

(** [x] is made of characters of the class [cls]. *)
Fixpoint all_in (cls : list Re.class_item) (x : string) : bool :=
  match x with
  | EmptyString => true
  | String c x' => Re.in_class cls c && all_in cls x'
  end.

(** [Matches p m g]: the text [m] is matched by the whole of [p], the groups
    taking the texts [g]. *)
Inductive Matches : Re.pattern -> string -> list string -> Prop :=
| Matches_end : Matches [] "" []
| Matches_lit c p m g :
    Matches p m g -> Matches (Re.Lit c :: p) (String c m) g
| Matches_esc c p m g :
    Matches p m g -> Matches (Re.EscLit c :: p) (String c m) g
| Matches_group cls p x m g :
    x <> "" -> all_in cls x = true -> Matches p m g ->
    Matches (Re.Group cls :: p) (x ++ m) (x :: g).

(** [p] occurs somewhere in [s], with groups [g]. *)
Definition occurs (p : Re.pattern) (s : string) (g : list string) : Prop :=
  exists before m after, s = (before ++ m ++ after)%string /\ Matches p m g.

Lemma append_assoc (a b c : string) : ((a ++ b) ++ c = a ++ (b ++ c))%string.
Proof. induction a as [|x a IH]; simpl; [reflexivity|now rewrite IH]. Qed.

Lemma append_nil_r (a : string) : (a ++ "")%string = a.
Proof. induction a as [|x a IH]; simpl; [reflexivity|now rewrite IH]. Qed.

Lemma take_drop k : forall s, (Re.take k s ++ Re.drop k s)%string = s.
Proof.
  induction k as [|k IH]; intros [|c s]; simpl; try reflexivity. now rewrite IH.
Qed.

Lemma drop_append x : forall t, Re.drop (String.length x) (x ++ t) = t.
Proof. induction x as [|c x IH]; intros t; simpl; [now destruct t|apply IH]. Qed.

Lemma take_append x : forall t, Re.take (String.length x) (x ++ t) = x.
Proof.
  induction x as [|c x IH]; intros t; simpl; [now destruct t|now rewrite IH].
Qed.

Lemma take_in_span cls : forall k s, k <= Re.span cls s -> all_in cls (Re.take k s) = true.
Proof.
  induction k as [|k IH]; intros s H; [now destruct s|].
  destruct s as [|c s]; simpl in *; [lia|].
  destruct (Re.in_class cls c); simpl in *; [apply IH; lia|lia].
Qed.

Lemma take_not_empty k s : 1 <= k <= String.length s -> Re.take k s <> "".
Proof. destruct k, s; simpl; intros; try lia; discriminate. Qed.

Lemma span_length cls s : Re.span cls s <= String.length s.
Proof.
  induction s as [|c s IH]; simpl; [lia|]. destruct (Re.in_class cls c); lia.
Qed.

Lemma span_covers cls x : forall t,
  all_in cls x = true -> String.length x <= Re.span cls (x ++ t).
Proof.
  induction x as [|c x IH]; intros t H; simpl in *; [lia|].
  apply andb_true_iff in H as [Hc Hx]. rewrite Hc. specialize (IH t Hx). lia.
Qed.

Lemma longest_first_sound {A} (f : nat -> option A) : forall n r,
  Re.longest_first n f = Some r -> exists k, 1 <= k <= n /\ f k = Some r.
Proof.
  induction n as [|n IH]; intros r H; simpl in H; [discriminate|].
  destruct (f (S n)) as [r'|] eqn:E.
  - injection H as <-. exists (S n). split; [lia|assumption].
  - destruct (IH _ H) as (k & Hk & Hf). exists k. split; [lia|assumption].
Qed.

Lemma longest_first_complete {A} (f : nat -> option A) k r : forall n,
  1 <= k <= n -> f k = Some r -> exists r', Re.longest_first n f = Some r'.
Proof.
  induction n as [|n IH]; intros Hk Hf; [lia|]. simpl.
  destruct (f (S n)) as [r'|] eqn:E; [eauto|].
  apply IH; [|assumption].
  destruct (Nat.eq_dec k (S n)) as [->|]; [congruence|lia].
Qed.

(** What the matcher returns is a match of a prefix of the text. *)
Lemma match_here_sound : forall p s acc r,
  Re.match_here p s acc = Some r ->
  exists m rest g, s = (m ++ rest)%string /\ Matches p m g /\ r = rev acc ++ g.
Proof.
  induction p as [|a p IH]; intros s acc r H.
  - injection H as <-. exists "", s, []. repeat split.
    + constructor.
    + now rewrite app_nil_r.
  - destruct a as [c|c|cls]; cbn [Re.match_here] in H.
    + destruct s as [|x s]; [discriminate|].
      destruct (Ascii.eqb x c) eqn:E; [|discriminate].
      apply Ascii.eqb_eq in E. subst x.
      destruct (IH _ _ _ H) as (m & rest & g & -> & Hm & ->).
      exists (String c m), rest, g. repeat split. now constructor.
    + destruct s as [|x s]; [discriminate|].
      destruct (Ascii.eqb x c) eqn:E; [|discriminate].
      apply Ascii.eqb_eq in E. subst x.
      destruct (IH _ _ _ H) as (m & rest & g & -> & Hm & ->).
      exists (String c m), rest, g. repeat split. now constructor.
    + apply longest_first_sound in H as (k & Hk & H).
      destruct (IH _ _ _ H) as (m & rest & g & Hs & Hm & ->).
      exists (Re.take k s ++ m)%string, rest, (Re.take k s :: g). repeat split.
      * now rewrite append_assoc, <- Hs, take_drop.
      * constructor; [|now apply take_in_span|assumption].
        apply take_not_empty. pose proof (span_length cls s). lia.
      * cbn [rev]. now rewrite <- app_assoc.
Qed.

(** A text that starts with a match makes the matcher succeed. *)
Lemma match_here_complete : forall p m g,
  Matches p m g -> forall rest acc, exists r, Re.match_here p (m ++ rest) acc = Some r.
Proof.
  induction 1 as [|c p m g _ IH|c p m g _ IH|cls p x m g Hx Hcls _ IH]; intros rest acc.
  - cbn. eauto.
  - cbn. rewrite Ascii.eqb_refl. apply IH.
  - cbn. rewrite Ascii.eqb_refl. apply IH.
  - cbn [Re.match_here]. rewrite append_assoc.
    destruct (IH rest (x :: acc)) as (r & Hr).
    apply longest_first_complete with (k := String.length x) (r := r).
    + split; [destruct x; [contradiction|simpl; lia]|now apply span_covers].
    + now rewrite drop_append, take_append.
Qed.

Lemma search_sound p : forall s r, Re.search p s = Some r -> occurs p s r.
Proof.
  induction s as [|c s IH]; intros r H; cbn [Re.search] in H.
  - destruct (Re.match_here p "" []) as [g|] eqn:E; [|discriminate].
    injection H as <-.
    destruct (match_here_sound _ _ _ E) as (m & rest & g' & Hs & Hm & ->).
    exists "", m, rest. now split.
  - destruct (Re.match_here p (String c s) []) as [g|] eqn:E.
    + injection H as <-.
      destruct (match_here_sound _ _ _ E) as (m & rest & g' & Hs & Hm & ->).
      exists "", m, rest. now split.
    + destruct (IH _ H) as (before & m & after & -> & Hm).
      exists (String c before), m, after. now split.
Qed.

Lemma search_complete p s g : occurs p s g -> exists r, Re.search p s = Some r.
Proof.
  intros (before & m & after & -> & Hm).
  induction before as [|c before IH].
  - destruct (match_here_complete Hm after []) as (r & Hr).
    exists r. cbn [append]. destruct (m ++ after)%string; cbn [Re.search]; now rewrite Hr.
  - cbn [append Re.search]. destruct (Re.match_here p _ []); eauto.
Qed.

Lemma table_groups m g : Matches table_pattern m g -> exists a b, g = [a; b].
Proof.
  unfold table_pattern. intros H.
  repeat match goal with
         | H : Matches (_ :: _) _ _ |- _ => inversion H; clear H; subst
         | H : Matches [] _ _ |- _ => inversion H; clear H; subst
         end.
  eauto.
Qed.

Lemma schedule_groups m g : Matches schedule_pattern m g -> exists a, g = [a].
Proof.
  unfold schedule_pattern. intros H.
  repeat match goal with
         | H : Matches (_ :: _) _ _ |- _ => inversion H; clear H; subst
         | H : Matches [] _ _ |- _ => inversion H; clear H; subst
         end.
  eauto.
Qed.

Lemma sort_key_unfold subject :
  sort_key subject
  = match Re.search table_pattern subject with
    | Some g => Some ("T" ++ group g 0 ++ "--" ++ group g 1)%string
    | None =>
        match Re.search schedule_pattern subject with
        | Some g => Some ("A" ++ group g 0)%string
        | None => None
        end
    end.
Proof. reflexivity. Qed.

(** C8. A subject in which the table-number pattern occurs is keyed
    ['T' + a + '--' + b] for an occurrence with groups [a] and [b]; a subject
    in which it does not occur and the schedule-number pattern does is keyed
    ['A' + a] for an occurrence with group [a].  The subject of notation
    [512] gets [A512], the subject of notation [512--1] gets [T512--1], and
    every key of the first kind sorts before every key of the second. *)
Theorem C8_sort_keys (subject : string) (g : list string) :
  (occurs table_pattern subject g ->
   exists a b, occurs table_pattern subject [a; b]
               /\ sort_key subject = Some ("T" ++ a ++ "--" ++ b)%string)
  /\ ((forall g', ~ occurs table_pattern subject g') ->
      occurs schedule_pattern subject g ->
      exists a, occurs schedule_pattern subject [a]
                /\ sort_key subject = Some ("A" ++ a)%string)
  /\ sort_key "http://dewey.info/class/512/e23/" = Some "A512"
  /\ sort_key "http://dewey.info/class/512--1/e23/" = Some "T512--1"
  /\ (forall x y, String.compare ("A" ++ x) ("T" ++ y) = Lt).
Proof.
  split; [|split; [|split; [|split]]].
  - intros H. destruct (search_complete H) as (r & Hr).
    pose proof (search_sound _ _ Hr) as Ho.
    destruct Ho as (before & m & after & Hs & Hm).
    destruct (table_groups Hm) as (a & b & ->).
    exists a, b. split.
    + now exists before, m, after.
    + rewrite sort_key_unfold, Hr. reflexivity.
  - intros Hno H. rewrite sort_key_unfold.
    destruct (Re.search table_pattern subject) as [r|] eqn:Et.
    { destruct (Hno r). now apply search_sound. }
    destruct (search_complete H) as (r & Hr).
    pose proof (search_sound _ _ Hr) as Ho.
    destruct Ho as (before & m & after & Hs & Hm).
    destruct (schedule_groups Hm) as (a & ->).
    exists a. split.
    + now exists before, m, after.
    + rewrite Hr. reflexivity.
  - vm_compute. reflexivity.
  - vm_compute. reflexivity.
  - intros x y. reflexivity.
Qed.

(** The table pattern is found in the subject of notation [512--1]. *)
Lemma table_number_occurs :
  occurs table_pattern "http://dewey.info/class/512--1/e23/" ["512"; "1"].
Proof.
  exists "http://dewey.info/class", "/512--1/e", "23/". split; [reflexivity|].
  apply Matches_lit.
  apply (@Matches_group _ _ "512" "--1/e"); [discriminate|reflexivity|].
  do 2 apply Matches_esc.
  apply (@Matches_group _ _ "1" "/e"); [discriminate|reflexivity|].
  do 2 apply Matches_lit. apply Matches_end.
Defined.

(** The schedule pattern is found in the subject of notation [512], and the
    table pattern is not. *)
Lemma schedule_number_occurs :
  occurs schedule_pattern "http://dewey.info/class/512/e23/" ["512"].
Proof.
  exists "http://dewey.info/class", "/512/e", "23/". split; [reflexivity|].
  apply Matches_lit.
  apply (@Matches_group _ _ "512" "/e"); [discriminate|reflexivity|].
  do 2 apply Matches_lit. apply Matches_end.
Defined.

Lemma no_table_number_in_schedule_subject g :
  ~ occurs table_pattern "http://dewey.info/class/512/e23/" g.
Proof.
  intros H. destruct (search_complete H) as (r & Hr).
  vm_compute in Hr. discriminate Hr.
Defined.

Lemma C8_witness :
  occurs table_pattern "http://dewey.info/class/512--1/e23/" ["512"; "1"]
  /\ (exists a b,
        occurs table_pattern "http://dewey.info/class/512--1/e23/" [a; b]
        /\ sort_key "http://dewey.info/class/512--1/e23/" = Some ("T" ++ a ++ "--" ++ b)%string)
  /\ (forall g', ~ occurs table_pattern "http://dewey.info/class/512/e23/" g')
  /\ occurs schedule_pattern "http://dewey.info/class/512/e23/" ["512"]
  /\ (exists a,
        occurs schedule_pattern "http://dewey.info/class/512/e23/" [a]
        /\ sort_key "http://dewey.info/class/512/e23/" = Some ("A" ++ a)%string).
Proof.
  split; [exact table_number_occurs|].
  split.
  { exact (proj1 (C8_sort_keys "http://dewey.info/class/512--1/e23/" ["512"; "1"])
             table_number_occurs). }
  split; [exact no_table_number_in_schedule_subject|].
  split; [exact schedule_number_occurs|].
  exact (proj1 (proj2 (C8_sort_keys "http://dewey.info/class/512/e23/" ["512"]))
           no_table_number_in_schedule_subject schedule_number_occurs).
Defined.

Example table_pattern_text :
  Re.text table_pattern = "/([0-9A-Z\-]+)\-\-([0-9.\-;:]+)/e".
Proof. reflexivity. Qed.

Example schedule_pattern_text :
  Re.text schedule_pattern = "/([0-9.\-;:]+)/e".
Proof. reflexivity. Qed.

(** Without the slashes around it, a notation is not found by either
    pattern. *)
Example bare_notation_has_no_key : sort_key "512" = None /\ sort_key "512--1" = None.
Proof. split; vm_compute; reflexivity. Qed.

(** * Further properties of the code *)

(** ** The other statements of the graph builder *)

(** The predicate is one of those that build a component chain. *)
Definition is_chain_predicate : node -> bool :=
  fun q => node_eqb q (MADS "componentList") || node_eqb q RDF.first || node_eqb q RDF.rest.

(** The predicate is one of the four note predicates. *)
Definition is_note_predicate : node -> bool :=
  fun q => node_eqb q SKOS.definition || node_eqb q SKOS.editorialNote
           || node_eqb q SKOS.scopeNote || node_eqb q SKOS.historyNote.

Fixpoint starts_with (prefix s : string) : bool :=
  match prefix, s with
  | EmptyString, _ => true
  | String a prefix', String b s' => Ascii.eqb a b && starts_with prefix' s'
  | String _ _, EmptyString => false
  end.

(** The predicate lies in the [WD] namespace. *)
Definition is_WD : node -> bool :=
  fun q => match q with
           | URIRef s => starts_with "http://data.ub.uio.no/webdewey-terms#" s
           | _ => false
           end.

Section GraphBuilderMore.

Variable date : Type.
Variable strftime_F : date -> string.
Variable get_uri : ClassificationRecord date -> string -> string -> string.

Implicit Types (record : ClassificationRecord date) (options : Options) (w : world).

(** Run the call and name what it appends. *)
Ltac run_call Hu :=
  do 4 eexists;
  split; [eapply add_record_to_graph_run; exact Hu|];
  cbn [graph bnodes]; split; [reflexivity|].

(** Evaluate a selection that keeps nothing of the chain or of the extras. *)
Ltac select_leading :=
  rewrite filter_record_statements by (intros; reflexivity);
  rewrite filter_leading;
  unfold scheme_statements, membership_predicate;
  repeat match goal with
         | |- context [is_top_concept ?r] => destruct (is_top_concept r)
         | |- context [include_notes ?o] => destruct (include_notes o)
         end;
  settle_sel; cbn [app]; rewrite ?app_nil_r.

(** X1. Every statement of a call, however the call ends, is about the record
    itself or about an anonymous node that this very call minted. *)
Theorem call_subjects record options w u :
  uri record = Some u ->
  exists outcome record' emitted w',
    add_record_to_graph strftime_F get_uri options (record, w) = (outcome, (record', w'))
    /\ graph w' = graph w ++ emitted
    /\ Forall (fun t => subj t = URIRef u
                        \/ exists i, subj t = BNode i /\ bnodes w <= i < bnodes w')
              emitted.
Proof.
  intros Hu. run_call Hu.
  apply Forall_forall. intros t Ht.
  unfold record_statements in Ht. rewrite !in_app_iff in Ht.
  destruct Ht as [Ht|[Ht|Ht]].
  - left. now apply leading_subject in Ht.
  - apply component_subject in Ht as [Ht|[Ht Hm]]; [now left|].
    right. exists (bnodes w). split; [assumption|lia].
  - left. now apply trailing_subject in Ht.
Qed.

(** X2. Without the components flag, or with no component, a call returns
    and builds no chain: it mints no anonymous node, leaves the record as it
    was, speaks of the record only and uses none of the list predicates. *)
Theorem call_without_components record options w u :
  uri record = Some u ->
  include_components options = false \/ components record = [] ->
  exists record' emitted w',
    add_record_to_graph strftime_F get_uri options (record, w) = (inr tt, (record', w'))
    /\ graph w' = graph w ++ emitted
    /\ record' = record
    /\ bnodes w' = bnodes w
    /\ Forall (fun t => subj t = URIRef u) emitted
    /\ filter (by_pred is_chain_predicate) emitted = [].
Proof.
  intros Hu Hno.
  assert (Hw : wants_components record options = false).
  { unfold wants_components. destruct Hno as [->| ->]; [reflexivity|apply andb_false_r]. }
  assert (Hb : breaks record options = false) by (unfold breaks; now rewrite Hw).
  do 3 eexists.
  split.
  { erewrite add_record_to_graph_run by exact Hu. unfold call_outcome. rewrite Hb.
    reflexivity. }
  cbn [graph bnodes]. split; [reflexivity|].
  unfold record_after, minted. rewrite Hw.
  split; [reflexivity|]. split; [apply Nat.add_0_r|].
  assert (Hc : component_statements get_uri (URIRef u) record options (bnodes w) = []).
  { unfold component_statements. now rewrite Hw. }
  unfold record_statements. rewrite Hc, Hb. cbn [app]. split.
  - apply Forall_app. split.
    + apply leading_subjects.
    + apply Forall_forall. intros t Ht. now apply extras_subject in Ht.
  - rewrite filter_app, filter_extras by reflexivity.
    rewrite filter_leading. unfold membership_predicate.
    destruct (is_top_concept record), (include_notes options); settle_sel; reflexivity.
Qed.

(** X3. Index terms become [skos:altLabel] statements only under their flag:
    then one per term, in order, with the record's language tag. *)
Theorem call_altLabels record options w u :
  uri record = Some u ->
  exists outcome record' emitted w',
    add_record_to_graph strftime_F get_uri options (record, w) = (outcome, (record', w'))
    /\ graph w' = graph w ++ emitted
    /\ filter (by_pred (only SKOS.altLabel)) emitted
       = if include_indexterms options
         then map (fun label =>
                     (URIRef u, SKOS.altLabel, Literal (LStr (term label)) (lang record) None))
                  (altLabel record)
         else [].
Proof.
  intros Hu. run_call Hu.
  select_leading; unfold altLabel_statements, text_statements;
    destruct (include_indexterms options); rewrite ?map_map; reflexivity.
Qed.

(** X4. Parents become [skos:broader] statements, one per parent and in order; a
    record without parents gets none. *)
Theorem call_broader record options w u :
  uri record = Some u ->
  exists outcome record' emitted w',
    add_record_to_graph strftime_F get_uri options (record, w) = (outcome, (record', w'))
    /\ graph w' = graph w ++ emitted
    /\ filter (by_pred (only SKOS.broader)) emitted
       = map (fun parent_uri => (URIRef u, SKOS.broader, URIRef parent_uri)) (broader record).
Proof.
  intros Hu. run_call Hu. select_leading; reflexivity.
Qed.

(** X5. Notes are emitted only under their flag: then the statements with a note
    predicate are the definitions, the editorial notes, the scope notes and
    the history notes, in this order and each kind in its own order, all with
    the record's language tag. *)
Theorem call_notes record options w u :
  uri record = Some u ->
  exists outcome record' emitted w',
    add_record_to_graph strftime_F get_uri options (record, w) = (outcome, (record', w'))
    /\ graph w' = graph w ++ emitted
    /\ filter (by_pred is_note_predicate) emitted
       = if include_notes options
         then
           map (fun x => (URIRef u, SKOS.definition, Literal (LStr x) (lang record) None))
               (definition record)
           ++ map (fun x => (URIRef u, SKOS.editorialNote, Literal (LStr x) (lang record) None))
                  (editorialNote record)
           ++ map (fun x => (URIRef u, SKOS.scopeNote, Literal (LStr x) (lang record) None))
                  (scopeNote record)
           ++ map (fun x => (URIRef u, SKOS.historyNote, Literal (LStr x) (lang record) None))
                  (historyNote record)
         else [].
Proof.
  intros Hu. run_call Hu. select_leading; reflexivity.
Qed.

(** X6. [owl:deprecated] is stated, with the literal [True], exactly for a
    deprecated record. *)
Theorem call_deprecated record options w u :
  uri record = Some u ->
  exists outcome record' emitted w',
    add_record_to_graph strftime_F get_uri options (record, w) = (outcome, (record', w'))
    /\ graph w' = graph w ++ emitted
    /\ filter (by_pred (only OWL.deprecated)) emitted
       = if deprecated record
         then [(URIRef u, OWL.deprecated, Literal (LBool true) None None)]
         else [].
Proof.
  intros Hu. run_call Hu. select_leading; reflexivity.
Qed.

(** X7. A date that is present is stated once, as its [%F] text typed
    [xsd:date]; an absent date is not stated. *)
Theorem call_dates record options w u :
  uri record = Some u ->
  exists outcome record' emitted w',
    add_record_to_graph strftime_F get_uri options (record, w) = (outcome, (record', w'))
    /\ graph w' = graph w ++ emitted
    /\ filter (by_pred (only DCTERMS.created)) emitted
       = match created record with
         | Some d => [(URIRef u, DCTERMS.created,
                       Literal (LStr (strftime_F d)) None (Some XSD.date))]
         | None => []
         end
    /\ filter (by_pred (only DCTERMS.modified)) emitted
       = match modified record with
         | Some d => [(URIRef u, DCTERMS.modified,
                       Literal (LStr (strftime_F d)) None (Some XSD.date))]
         | None => []
         end.
Proof.
  intros Hu. run_call Hu. split; select_leading; reflexivity.
Qed.

(** X8. The caption is stated once as [skos:prefLabel] with the record's
    language tag; an absent or empty caption is not stated. *)
Theorem call_prefLabel record options w u :
  uri record = Some u ->
  exists outcome record' emitted w',
    add_record_to_graph strftime_F get_uri options (record, w) = (outcome, (record', w'))
    /\ graph w' = graph w ++ emitted
    /\ filter (by_pred (only SKOS.prefLabel)) emitted
       = match prefLabel record with
         | Some l =>
             if String.eqb l "" then []
             else [(URIRef u, SKOS.prefLabel, Literal (LStr l) (lang record) None)]
         | None => []
         end.
Proof.
  intros Hu. run_call Hu.
  select_leading; unfold prefLabel_statements, truthy;
    destruct (prefLabel record) as [l|]; try reflexivity;
    destruct (String.eqb l ""); reflexivity.
Qed.

(** X9. The vendor extras come last.  In a call that returns they become one
    statement per item, in order, under the predicate that the key names in
    the [WD] namespace and with the record's language tag, and no other
    statement of the call has a predicate in that namespace; a call that
    raises has not come to them and has made no such statement. *)
Theorem call_extras record options w u :
  uri record = Some u ->
  exists outcome record' emitted w',
    add_record_to_graph strftime_F get_uri options (record, w) = (outcome, (record', w'))
    /\ graph w' = graph w ++ emitted
    /\ filter (by_pred is_WD) emitted
       = match outcome with
         | inr _ =>
             map (fun kv =>
                    (URIRef u, WD (fst kv), Literal (LStr (snd kv)) (lang record) None))
                 (webDeweyExtras record)
         | inl _ => []
         end.
Proof.
  intros Hu. run_call Hu.
  unfold record_statements, call_outcome. rewrite !filter_app.
  rewrite filter_components by reflexivity.
  assert (He : forall l : list (string * string),
             filter (by_pred is_WD)
               (map (fun kv => (URIRef u, WD (fst kv),
                                Literal (LStr (snd kv)) (lang record) None)) l)
             = map (fun kv => (URIRef u, WD (fst kv),
                               Literal (LStr (snd kv)) (lang record) None)) l).
  { induction l as [|kv l IH]; [reflexivity|].
    cbn [map]. rewrite filter_cons_true by reflexivity. now rewrite IH. }
  unfold extras_statements.
  replace (filter (by_pred is_WD)
             (if breaks record options
              then []
              else map (fun kv => (URIRef u, WD (fst kv),
                                   Literal (LStr (snd kv)) (lang record) None))
                       (webDeweyExtras record)))
    with (if breaks record options
          then []
          else map (fun kv => (URIRef u, WD (fst kv),
                               Literal (LStr (snd kv)) (lang record) None))
                   (webDeweyExtras record))
    by (destruct (breaks record options); [reflexivity|now rewrite He]).
  rewrite filter_leading. unfold membership_predicate.
  destruct (breaks record options), (is_top_concept record), (include_notes options);
    settle_sel; reflexivity.
Qed.

(** X26. A single component gives a whole list of one node.  With components
    requested and exactly one of them, the call returns; it has minted one
    anonymous node, linked the record to it by [mads:componentList], given
    it the component's identifier, as a URI reference, for its element and
    [rdf:nil] for its rest: the walk from the head finds this one node and
    ends.  The record comes back without its component. *)
Theorem single_component_chain record options w u c :
  uri record = Some u ->
  include_components options = true ->
  components record = [c] ->
  fresh_from (bnodes w) (graph w) ->
  exists record' emitted w',
    add_record_to_graph strftime_F get_uri options (record, w) = (inr tt, (record', w'))
    /\ graph w' = graph w ++ emitted
    /\ record' = set_components record []
    /\ objects emitted (URIRef u) (MADS "componentList") = [BNode (bnodes w)]
    /\ objects (graph w') (BNode (bnodes w)) RDF.first
       = [URIRef (get_uri record' "class" c)]
    /\ objects (graph w') (BNode (bnodes w)) RDF.rest = [RDF.nil]
    /\ rdf_list 2 (graph w') (BNode (bnodes w))
       = Some [(BNode (bnodes w), URIRef (get_uri record' "class" c))]
    /\ bnodes w' = bnodes w + 1.
Proof.
  intros Hu Hc Hcs Hfresh.
  assert (Hwants : wants_components record options = true).
  { unfold wants_components. now rewrite Hc, Hcs. }
  assert (Hb : breaks record options = false).
  { unfold breaks. rewrite Hcs. apply andb_false_r. }
  assert (Hcomp : component_statements get_uri (URIRef u) record options (bnodes w)
                  = [(URIRef u, MADS "componentList", BNode (bnodes w));
                     (BNode (bnodes w), RDF.first,
                      URIRef (get_uri (set_components record []) "class" c));
                     (BNode (bnodes w), RDF.rest, RDF.nil)]).
  { unfold component_statements. now rewrite Hwants, Hcs. }
  assert (H1 : objects (graph w
                        ++ record_statements strftime_F get_uri (URIRef u) record options
                             (bnodes w)) (BNode (bnodes w)) RDF.first
               = [URIRef (get_uri (set_components record []) "class" c)]).
  { rewrite call_objects_BNode by (assumption || lia). rewrite Hcomp.
    rewrite !objects_cons, objects_nil. cbn [subj pred obj fst snd].
    rewrite !BNode_eqb, Nat.eqb_refl. reflexivity. }
  assert (H2 : objects (graph w
                        ++ record_statements strftime_F get_uri (URIRef u) record options
                             (bnodes w)) (BNode (bnodes w)) RDF.rest = [RDF.nil]).
  { rewrite call_objects_BNode by (assumption || lia). rewrite Hcomp.
    rewrite !objects_cons, objects_nil. cbn [subj pred obj fst snd].
    rewrite !BNode_eqb, Nat.eqb_refl. reflexivity. }
  exists (set_components record []),
         (record_statements strftime_F get_uri (URIRef u) record options (bnodes w)).
  eexists. split.
  { erewrite add_record_to_graph_run by exact Hu.
    unfold call_outcome, record_after. rewrite Hb, Hwants, Hcs. reflexivity. }
  cbn [graph bnodes].
  split; [reflexivity|]. split; [reflexivity|].
  split; [rewrite call_component_lists; now rewrite Hwants|].
  split; [exact H1|]. split; [exact H2|].
  split.
  { cbn [rdf_list]. rewrite BNode_not_nil, H1, H2. reflexivity. }
  unfold minted. now rewrite Hwants, Hcs.
Qed.

End GraphBuilderMore.

(** ** Relations kept along a run *)

Section Keeps.

(** A relation between the world before and the world after. *)
Variable R : world -> world -> Prop.
Hypothesis R_refl : forall w, R w w.
Hypothesis R_trans : forall a b c, R a b -> R b c -> R a c.

(** The computation [m] relates every world to the one it leaves, however it
    ends. *)
Definition keeps {A} (m : M A) : Prop := forall w, R w (snd (m w)).

Lemma keeps_ret {A} (a : A) : keeps (ret a).
Proof. intros w. apply R_refl. Qed.

Lemma keeps_raise {A} e : keeps (raise e : M A).
Proof. intros w. apply R_refl. Qed.

Lemma keeps_bind {A B} (m : M A) (k : A -> M B) :
  keeps m -> (forall a, keeps (k a)) -> keeps (bind m k).
Proof.
  intros Hm Hk w. unfold bind. specialize (Hm w).
  destruct (m w) as [[e|a] w1]; cbn [snd] in *; [assumption|].
  eapply R_trans; [eassumption|apply Hk].
Qed.

Lemma keeps_try_except {A} (m : M A) (h : exn -> M A) :
  keeps m -> (forall e, keeps (h e)) -> keeps (try_except m h).
Proof.
  intros Hm Hh w. unfold try_except. specialize (Hm w).
  destruct (m w) as [[e|a] w1]; cbn [snd] in *; [|assumption].
  eapply R_trans; [eassumption|apply Hh].
Qed.

Lemma keeps_when (b : bool) m : keeps m -> keeps (when b m).
Proof. destruct b; simpl; auto using keeps_ret. Qed.

End Keeps.

(** The handler of the loop in [main], for the record numbered [n]. *)
Definition ignore_invalid (n : nat) (e : exn) : M unit :=
  match e with
  | InvalidRecordError msg =>
      emit (Log DEBUG "Ignoring record %d: %s" [ArgInt n; ArgStr msg])
  | _ => raise e
  end.

Section LoopKeeps.

Variable date : Type.
Variable strftime_F : date -> string.
Variable get_uri : ClassificationRecord date -> string -> string -> string.
Variable RawRecord : Type.
Variable leader_text : RawRecord -> option string.
Variable new_ClassificationRecord : RawRecord -> Options -> exn + ClassificationRecord date.
Variable is_public : ClassificationRecord date -> bool.

Variable R : world -> world -> Prop.
Hypothesis R_refl : forall w, R w w.
Hypothesis R_trans : forall a b c, R a b -> R b c -> R a c.

(** [R] holds across a debug entry and across a call of the graph builder. *)
Hypothesis R_debug : forall fmt args w, R w (snd (emit (Log DEBUG fmt args) w)).
Hypothesis R_add : forall record options u w,
  uri record = Some u ->
  R w (snd (call record (add_record_to_graph strftime_F get_uri options) w)).

Lemma keeps_process rec kwargs :
  keeps R (process_record strftime_F get_uri leader_text new_ClassificationRecord
                          is_public rec kwargs).
Proof.
  unfold process_record.
  destruct (leader_text rec) as [leader|]; [|now apply keeps_raise].
  destruct (String.get 6 leader) as [marker|]; [|now apply keeps_raise].
  destruct (Ascii.eqb marker "w"); [|now apply keeps_raise].
  destruct (new_ClassificationRecord rec kwargs) as [e|record]; [now apply keeps_raise|].
  destruct (uri record) as [u|] eqn:Hu; [|intros w; apply R_debug].
  destruct (is_public record); [|now apply keeps_ret].
  intros w. now apply R_add with (u := u).
Qed.

(** One turn of the loop, up to the generator's resumption. *)
Lemma keeps_turn rec options n :
  keeps R (try_except
             (process_record strftime_F get_uri leader_text new_ClassificationRecord
                             is_public rec options)
             (ignore_invalid n)).
Proof.
  apply keeps_try_except; [assumption|apply keeps_process|].
  intros []; cbn [ignore_invalid]; try now apply keeps_raise.
  intros w. apply R_debug.
Qed.

End LoopKeeps.

Lemma loop_cons date (strftime_F : date -> string) get_uri RawRecord
      (leader_text : RawRecord -> option string) new_ClassificationRecord is_public
      rec rs broken options n read w :
  records_loop strftime_F get_uri leader_text new_ClassificationRecord is_public
               (rec :: rs) broken options n read w
  = bind (try_except
            (process_record strftime_F get_uri leader_text new_ClassificationRecord
                            is_public rec options)
            (ignore_invalid (S n)))
         (fun _ =>
            bind (get_records_resume read)
                 (fun read' =>
                    records_loop strftime_F get_uri leader_text new_ClassificationRecord
                                 is_public rs broken options (S n) read')) w.
Proof. reflexivity. Qed.

(** The generator's resumption never fails: it counts, and logs at most one
    progress entry. *)
Lemma get_records_resume_run read w :
  get_records_resume read w
  = (inr (S read),
     say (if Nat.eqb (S read mod 500) 0
          then [Log INFO "Read %d records (%.f recs/sec)" [ArgInt (S read); ArgRate]]
          else []) w).
Proof.
  unfold get_records_resume. cbv zeta.
  destruct (Nat.eqb (S read mod 500) 0); cbn [when].
  - reflexivity.
  - unfold bind, ret. now rewrite say_nil.
Qed.

(** ** The store only grows *)

(** [w'] holds the statements of [w] followed by more, and has minted no
    fewer anonymous nodes. *)
Definition grows (w w' : world) : Prop :=
  (exists l, graph w' = graph w ++ l) /\ bnodes w <= bnodes w'.

Lemma grows_refl w : grows w w.
Proof. split; [exists []; now rewrite app_nil_r|lia]. Qed.

Lemma grows_trans a b c : grows a b -> grows b c -> grows a c.
Proof.
  intros [(l1 & E1) B1] [(l2 & E2) B2]. split; [|lia].
  exists (l1 ++ l2). now rewrite E2, E1, app_assoc.
Qed.

Section Growth.

Variable date : Type.
Variable strftime_F : date -> string.
Variable get_uri : ClassificationRecord date -> string -> string -> string.
Variable RawRecord : Type.
Variable leader_text : RawRecord -> option string.
Variable new_ClassificationRecord : RawRecord -> Options -> exn + ClassificationRecord date.
Variable is_public : ClassificationRecord date -> bool.

Lemma grows_emit e w : grows w (snd (emit e w)).
Proof. split; cbn; [exists []; now rewrite app_nil_r|lia]. Qed.

Lemma grows_add record options u w :
  uri record = Some u ->
  grows w (snd (call record (add_record_to_graph strftime_F get_uri options) w)).
Proof.
  intros Hu. unfold call. erewrite add_record_to_graph_run by exact Hu. cbn [snd].
  split; cbn [graph bnodes]; [eauto|lia].
Qed.

(** X10. Whatever a record is and however its processing ends, normally, skipped
    or on an exception, [process_record] and the loop of [main] only append
    to the store: the statements that were there stay, in their order, and
    the count of anonymous nodes never goes down. *)
Theorem store_only_grows rec rs broken options n read w :
  grows w (snd (process_record strftime_F get_uri leader_text new_ClassificationRecord
                               is_public rec options w))
  /\ grows w (snd (records_loop strftime_F get_uri leader_text new_ClassificationRecord
                                is_public rs broken options n read w)).
Proof.
  split.
  - apply keeps_process;
      [exact grows_refl|intros; apply grows_emit|apply grows_add].
  - revert n read w. induction rs as [|r rs IH]; intros n read w.
    + cbn. destruct broken; apply grows_refl.
    + rewrite loop_cons.
      apply (@keeps_bind grows grows_trans).
      * apply keeps_turn;
          [exact grows_refl|exact grows_trans|intros; apply grows_emit|apply grows_add].
      * intros _ w1. unfold bind. rewrite get_records_resume_run.
        eapply grows_trans; [|apply IH]. split; cbn; [exists []; now rewrite app_nil_r|lia].
Qed.

End Growth.

(** ** Runs of [main] *)

Section RunMore.

Variable date : Type.
Variable strftime_F : date -> string.
Variable get_uri : ClassificationRecord date -> string -> string -> string.
Variable RawRecord : Type.
Variable leader_text : RawRecord -> option string.
Variable new_ClassificationRecord : RawRecord -> Options -> exn + ClassificationRecord date.
Variable is_public : ClassificationRecord date -> bool.
Variable iterparse : string -> document RawRecord.
Variable from_rdf : list triple -> json -> json.
Variable context : json.
Variable dumps : json -> bool -> option nat -> string.
Variable py : python.

Let process :=
  process_record strftime_F get_uri leader_text new_ClassificationRecord is_public.
Let loop :=
  records_loop strftime_F get_uri leader_text new_ClassificationRecord is_public.
Let reading :=
  read_all strftime_F get_uri leader_text new_ClassificationRecord is_public iterparse.
Let run :=
  main strftime_F get_uri leader_text new_ClassificationRecord is_public iterparse
       from_rdf context dumps py.

Implicit Types (rec : RawRecord) (options : Options) (w : world) (args : Args.t).

(** The world in which the loop over the records starts. *)
Definition started (args : Args.t) (w : world) : world :=
  {| graph := [];
     bnodes := bnodes w;
     trace := trace w ++ [SetLevel (if Args.verbose args then DEBUG else INFO);
                          Log INFO "Parsing: %s" [ArgStr (Args.infile args)]] |}.

Lemma reading_supported args w :
  member (Args.outformat args) ["turtle"; "jskos"; "ndjson"] = true ->
  reading args w
  = loop (records (iterparse (Args.infile args))) (malformed (iterparse (Args.infile args)))
         (options_of args) 0 0 (started args w).
Proof.
  intros H. unfold reading, read_all. rewrite H. cbn [negb].
  unfold bind at 1. cbn [new_Graph]. unfold bind at 1. cbn [emit].
  unfold get_records_start. unfold bind at 1. cbn [emit graph bnodes trace].
  unfold loop, started. do 2 f_equal. now rewrite <- app_assoc.
Qed.

Lemma reading_unsupported args w :
  member (Args.outformat args) ["turtle"; "jskos"; "ndjson"] = false ->
  reading args w
  = (inl (ValueError "output format not supported"),
     {| graph := [];
        bnodes := bnodes w;
        trace := trace w ++ [SetLevel (if Args.verbose args then DEBUG else INFO)] |}).
Proof. intros H. unfold reading, read_all. rewrite H. reflexivity. Qed.

Lemma run_split args w : run args w = bind (reading args) (fun _ => write_out from_rdf context dumps py args) w.
Proof. apply main_split. Qed.

(** X11. An output format other than the three known ones stops [main] with
    [ValueError] before the input is touched: the level of the console is
    set, and nothing else happens, whatever the input document is. *)
Theorem unsupported_format_stops_before_reading args w :
  member (Args.outformat args) ["turtle"; "jskos"; "ndjson"] = false ->
  main strftime_F get_uri leader_text new_ClassificationRecord is_public iterparse
       from_rdf context dumps py args w
  = (inl (ValueError "output format not supported"),
     {| graph := [];
        bnodes := bnodes w;
        trace := trace w ++ [SetLevel (if Args.verbose args then DEBUG else INFO)] |}).
Proof.
  intros H. fold run. rewrite run_split. unfold bind.
  now rewrite (reading_unsupported _ _ H).
Qed.

(** X12. A document without any record element ends in the warning: [main]
    returns normally, and all it did was set the level and log the start
    and the warning. *)
Theorem empty_document_warns args w :
  member (Args.outformat args) ["turtle"; "jskos"; "ndjson"] = true ->
  records (iterparse (Args.infile args)) = [] ->
  malformed (iterparse (Args.infile args)) = false ->
  main strftime_F get_uri leader_text new_ClassificationRecord is_public iterparse
       from_rdf context dumps py args w
  = (inr tt,
     {| graph := [];
        bnodes := bnodes w;
        trace := trace w ++ [SetLevel (if Args.verbose args then DEBUG else INFO);
                             Log INFO "Parsing: %s" [ArgStr (Args.infile args)];
                             Log WARNING "RDF result is empty!" []] |}).
Proof.
  intros Hf Hr Hm. fold run. rewrite run_split. unfold bind at 1.
  rewrite (reading_supported _ _ Hf), Hr, Hm. cbn [loop records_loop ret].
  unfold write_out, bind, get_graph, started, emit. cbn [graph bnodes trace].
  do 2 f_equal. now rewrite <- app_assoc.
Qed.

(** *** Exceptions in the loop *)

(** X13. An exception of [process_record] that is not [InvalidRecordError] ends
    the loop at that record with that exception: the handler logs nothing,
    the generator is not resumed and the later records are not looked at. *)
Theorem loop_stops_on_other_exception rec rs broken options n read w e w1 :
  process_record strftime_F get_uri leader_text new_ClassificationRecord is_public
                 rec options w = (inl e, w1) ->
  (forall msg, e <> InvalidRecordError msg) ->
  records_loop strftime_F get_uri leader_text new_ClassificationRecord is_public
               (rec :: rs) broken options n read w = (inl e, w1).
Proof.
  intros H He. rewrite loop_cons. unfold bind at 1, try_except. rewrite H.
  destruct e; try reflexivity. now destruct (He msg).
Qed.

(** With a document that breaks off in malformed XML the loop never ends
    normally. *)
Lemma loop_broken options : forall rs n read w,
  exists e w', loop rs true options n read w = (inl e, w').
Proof.
  induction rs as [|rec rs IH]; intros n read w.
  - unfold loop. cbn [records_loop]. unfold raise. eauto.
  - unfold loop. rewrite loop_cons. unfold bind at 1.
    destruct (try_except _ _ w) as [[e|[]] w1]; [eauto|].
    unfold bind. rewrite get_records_resume_run. apply IH.
Qed.

(** X14. A malformed input document is fatal: [main] ends on an exception, and
    up to there it has opened, serialized and written nothing, however many
    records came before the malformed place. *)
Theorem malformed_document_writes_nothing args w :
  malformed (iterparse (Args.infile args)) = true ->
  exists e w' events,
    main strftime_F get_uri leader_text new_ClassificationRecord is_public iterparse
         from_rdf context dumps py args w = (inl e, w')
    /\ trace w' = trace w ++ events
    /\ forall ev, In ev events -> is_output ev = false.
Proof.
  intros Hm.
  assert (Hr : exists e w', reading args w = (inl e, w')).
  { destruct (member (Args.outformat args) ["turtle"; "jskos"; "ndjson"]) eqn:Hf.
    - rewrite (reading_supported _ _ Hf), Hm. apply loop_broken.
    - rewrite (reading_unsupported _ _ Hf). eauto. }
  destruct Hr as (e & w' & Hr).
  destruct (tame_read_all strftime_F get_uri leader_text new_ClassificationRecord
              is_public iterparse args w) as [(logs & E & F) _].
  fold reading in E. rewrite Hr in E. cbn [snd] in E.
  exists e, w', logs. split; [|split].
  - fold run. rewrite run_split. unfold bind. now rewrite Hr.
  - exact E.
  - now apply is_log_not_output.
Qed.

End RunMore.

(** ** Records that leave no statement, and the log of the loop *)

(** A progress entry of [get_records]. *)
Definition is_progress (e : event) : bool :=
  match e with
  | Log INFO fmt _ => String.eqb fmt "Read %d records (%.f recs/sec)"
  | _ => false
  end.

Definition progress_entries (l : list event) : nat := length (filter is_progress l).

Definition same_progress (w w' : world) : Prop :=
  progress_entries (trace w') = progress_entries (trace w).

Lemma progress_entries_app l1 l2 :
  progress_entries (l1 ++ l2) = progress_entries l1 + progress_entries l2.
Proof. unfold progress_entries. now rewrite filter_app, length_app. Qed.

Lemma div_500_step r :
  S r / 500 = r / 500 + (if Nat.eqb (S r mod 500) 0 then 1 else 0).
Proof.
  pose proof (Nat.div_mod_eq r 500) as E1.
  pose proof (Nat.div_mod_eq (S r) 500) as E2.
  pose proof (Nat.mod_upper_bound r 500) as B1.
  pose proof (Nat.mod_upper_bound (S r) 500) as B2.
  destruct (Nat.eqb (S r mod 500) 0) eqn:E.
  - apply Nat.eqb_eq in E. lia.
  - apply Nat.eqb_neq in E. lia.
Qed.

Section LoopLog.

Variable date : Type.
Variable strftime_F : date -> string.
Variable get_uri : ClassificationRecord date -> string -> string -> string.
Variable RawRecord : Type.
Variable leader_text : RawRecord -> option string.
Variable new_ClassificationRecord : RawRecord -> Options -> exn + ClassificationRecord date.
Variable is_public : ClassificationRecord date -> bool.
Variable iterparse : string -> document RawRecord.
Variable from_rdf : list triple -> json -> json.
Variable context : json.
Variable dumps : json -> bool -> option nat -> string.
Variable py : python.

Let process :=
  process_record strftime_F get_uri leader_text new_ClassificationRecord is_public.
Let loop :=
  records_loop strftime_F get_uri leader_text new_ClassificationRecord is_public.

Implicit Types (rec : RawRecord) (options kwargs : Options) (w : world) (args : Args.t).

(** X15. For a normalized record with an identifier, [is_public] alone decides:
    for a public record [process_record] is the call of the graph builder,
    with its statements and its ending (an [AssertionError] of the store is
    not caught here); a record that is not public changes nothing, not even
    the log, and [process_record] returns. *)
Theorem visibility_gate rec kwargs w leader record u :
  leader_text rec = Some leader ->
  String.get 6 leader = Some "w"%char ->
  new_ClassificationRecord rec kwargs = inr record ->
  uri record = Some u ->
  process_record strftime_F get_uri leader_text new_ClassificationRecord is_public
                 rec kwargs w
  = if is_public record
    then (if include_components kwargs && Nat.leb 2 (length (components record))
          then inl AssertionError
          else inr tt,
          {| graph := graph w
                      ++ record_statements strftime_F get_uri (URIRef u) record kwargs
                           (bnodes w);
             bnodes := bnodes w + minted record kwargs;
             trace := trace w |})
    else (inr tt, w).
Proof.
  intros H1 H2 H3 H4. destruct (is_public record) eqn:Hp.
  - erewrite process_record_public by eassumption.
    unfold call_outcome, breaks, wants_components.
    destruct (include_components kwargs); [|reflexivity]. cbn [andb].
    now destruct (components record) as [|c [|c' cs]].
  - eapply process_record_hidden; eassumption.
Qed.

(** The ways in which [process_record] turns a record down with
    [InvalidRecordError], and the message it gives. *)
Inductive invalid (rec : RawRecord) (options : Options) : string -> Prop :=
| invalid_no_leader :
    leader_text rec = None ->
    invalid rec options "Record does not have a leader"
| invalid_other_family leader marker :
    leader_text rec = Some leader ->
    String.get 6 leader = Some marker ->
    marker <> "w"%char ->
    invalid rec options "Record is not a Marc21 Classification record"
| invalid_by_constructor leader msg :
    leader_text rec = Some leader ->
    String.get 6 leader = Some "w"%char ->
    new_ClassificationRecord rec options = inl (InvalidRecordError msg) ->
    invalid rec options msg.

(** The ways in which a record comes to leave no statement. *)
Inductive refused (rec : RawRecord) (options : Options) : Prop :=
| refused_invalid msg :
    invalid rec options msg -> refused rec options
| refused_unidentified leader record :
    leader_text rec = Some leader ->
    String.get 6 leader = Some "w"%char ->
    new_ClassificationRecord rec options = inr record ->
    uri record = None ->
    refused rec options
| refused_hidden leader record u :
    leader_text rec = Some leader ->
    String.get 6 leader = Some "w"%char ->
    new_ClassificationRecord rec options = inr record ->
    uri record = Some u ->
    is_public record = false ->
    refused rec options.

Lemma invalid_run rec options msg w :
  invalid rec options msg ->
  process rec options w = (inl (InvalidRecordError msg), w).
Proof.
  intros [H|leader marker H1 H2 H3|leader msg' H1 H2 H3].
  - now apply process_record_no_leader.
  - eapply process_record_other_family; eassumption.
  - eapply process_record_rejected; eassumption.
Qed.

Lemma turn_of_invalid rec options msg n w :
  invalid rec options msg ->
  try_except (process rec options) (ignore_invalid n) w
  = (inr tt, say [Log DEBUG "Ignoring record %d: %s" [ArgInt n; ArgStr msg]] w).
Proof. intros H. unfold try_except. now rewrite (invalid_run _ H). Qed.

Lemma turn_of_refused rec options n w :
  refused rec options ->
  exists l, Forall is_log l
            /\ try_except (process rec options) (ignore_invalid n) w = (inr tt, say l w).
Proof.
  intros [msg H|leader record H1 H2 H3 H4|leader record u H1 H2 H3 H4 H5].
  - eexists. split; [|apply turn_of_invalid; exact H]. repeat constructor.
  - eexists. split; [|unfold try_except, process, process_record;
                      rewrite H1, H2, H3, H4; reflexivity].
    repeat constructor.
  - exists []. split; [constructor|]. unfold try_except, process.
    rewrite (process_record_hidden _ _ _ _ _ _ _ _ H1 H2 H3 H4 H5). now rewrite say_nil.
Qed.

(** Over records that are all turned down, the loop ends normally and has
    only logged. *)
Lemma loop_of_refused options : forall rs n read w,
  Forall (fun rec => refused rec options) rs ->
  exists l, Forall is_log l /\ loop rs false options n read w = (inr tt, say l w).
Proof.
  induction rs as [|rec rs IH]; intros n read w H.
  - exists []. split; [constructor|]. unfold loop. cbn. now rewrite say_nil.
  - inversion H as [|? ? Hrec Hrs]; subst.
    destruct (turn_of_refused (S n) w Hrec) as (l1 & F1 & E1).
    unfold loop. rewrite loop_cons. unfold bind at 1. fold process. rewrite E1.
    unfold bind at 1. rewrite get_records_resume_run.
    destruct (IH (S n) (S read) (say (if Nat.eqb (S read mod 500) 0
                                      then [Log INFO "Read %d records (%.f recs/sec)"
                                              [ArgInt (S read); ArgRate]]
                                      else []) (say l1 w)) Hrs) as (l3 & F3 & E3).
    unfold loop in E3. rewrite E3. rewrite !say_say.
    eexists. split; [|reflexivity].
    apply Forall_app. split; [assumption|].
    apply Forall_app. split; [|assumption].
    destruct (Nat.eqb _ 0); repeat constructor.
Qed.

(** X16. A well-formed document all of whose records are turned down (no leader,
    another record family, refused by the normalizer, no identifier, not
    public) gives an empty result: [main] returns normally after the
    warning, the store is empty, no anonymous node was minted, and nothing
    was opened, serialized or written. *)
Theorem document_of_refused_records args w :
  member (Args.outformat args) ["turtle"; "jskos"; "ndjson"] = true ->
  malformed (iterparse (Args.infile args)) = false ->
  Forall (fun rec => refused rec (options_of args)) (records (iterparse (Args.infile args))) ->
  exists w' logs,
    main strftime_F get_uri leader_text new_ClassificationRecord is_public iterparse
         from_rdf context dumps py args w = (inr tt, w')
    /\ graph w' = []
    /\ bnodes w' = bnodes w
    /\ trace w' = trace w ++ logs ++ [Log WARNING "RDF result is empty!" []]
    /\ Forall is_log logs.
Proof.
  intros Hf Hm Hall.
  destruct (loop_of_refused 0 0 (started args w) Hall) as (l & F & E).
  exists (say [Log WARNING "RDF result is empty!" []] (say l (started args w))).
  exists ([SetLevel (if Args.verbose args then DEBUG else INFO);
           Log INFO "Parsing: %s" [ArgStr (Args.infile args)]] ++ l).
  split; [|split; [reflexivity|split; [reflexivity|split]]].
  - rewrite main_split. unfold bind at 1.
    rewrite (reading_supported strftime_F get_uri leader_text new_ClassificationRecord
               is_public iterparse args w Hf).
    rewrite Hm. unfold loop in E. rewrite E. reflexivity.
  - unfold say, started. cbn [trace]. now rewrite <- !app_assoc.
  - apply Forall_app. split; [repeat constructor|assumption].
Qed.

(** X17. The number in an ["Ignoring record %d"] entry is the position of the
    record in the document: when the loop that began at count [n] ends
    normally, the invalid record at index [i] of its records has left the
    entry numbered [n + i + 1], with the message of its rejection. *)
Theorem ignored_record_is_numbered options msg : forall rs i rec broken n read w w',
  nth_error rs i = Some rec ->
  invalid rec options msg ->
  records_loop strftime_F get_uri leader_text new_ClassificationRecord is_public
               rs broken options n read w = (inr tt, w') ->
  In (Log DEBUG "Ignoring record %d: %s" [ArgInt (n + S i); ArgStr msg]) (trace w').
Proof.
  induction rs as [|r rs IH]; intros i rec broken n read w w' Hnth Hinv Hrun.
  - destruct i; discriminate Hnth.
  - rewrite loop_cons in Hrun. unfold bind at 1 in Hrun.
    destruct (try_except _ _ w) as [[e|[]] w1] eqn:Et; [discriminate Hrun|].
    unfold bind at 1 in Hrun. rewrite get_records_resume_run in Hrun.
    destruct i as [|i].
    + injection Hnth as ->. fold process in Et.
      rewrite (turn_of_invalid _ _ Hinv) in Et. injection Et as <-.
      pose proof (tame_loop strftime_F get_uri leader_text new_ClassificationRecord
                    is_public rs broken options (S n) (S read)) as T.
      match type of Hrun with ?m ?x = _ => specialize (T x) end.
      rewrite Hrun in T. destruct T as [(logs & E & _) _]. cbn [snd] in E.
      rewrite E. unfold say; cbn [trace]. rewrite Nat.add_1_r.
      apply in_app_iff. left. apply in_app_iff. left. apply in_app_iff. right. now left.
    + replace (n + S (S i)) with (S n + S i) by lia.
      eapply IH; eassumption.
Qed.

(** X18. Progress is reported once per 500 records read: when the loop, entered
    with [read] records already read, ends normally over [rs], the progress
    entries it has added number [(read + length rs) / 500 - read / 500]. *)
Theorem progress_every_500 options : forall rs broken n read w w',
  records_loop strftime_F get_uri leader_text new_ClassificationRecord is_public
               rs broken options n read w = (inr tt, w') ->
  progress_entries (trace w')
  = progress_entries (trace w) + ((read + length rs) / 500 - read / 500).
Proof.
  induction rs as [|r rs IH]; intros broken n read w w' Hrun.
  - cbn in Hrun. destruct broken; [discriminate Hrun|].
    injection Hrun as <-. rewrite Nat.add_0_r. lia.
  - rewrite loop_cons in Hrun. unfold bind at 1 in Hrun.
    assert (K : same_progress w
                  (snd (try_except
                          (process_record strftime_F get_uri leader_text
                                          new_ClassificationRecord is_public r options)
                          (ignore_invalid (S n)) w))).
    { apply keeps_turn with (R := same_progress).
      - intros x. reflexivity.
      - intros a b c H1 H2. unfold same_progress in *. congruence.
      - intros fmt args x. unfold same_progress. cbn [snd emit trace].
        rewrite progress_entries_app. cbn. lia.
      - intros record o u x Hu. unfold same_progress, call.
        now erewrite add_record_to_graph_run by exact Hu. }
    destruct (try_except _ _ w) as [[e|[]] w1]; [discriminate Hrun|].
    cbn [snd] in K. unfold same_progress in K.
    unfold bind at 1 in Hrun. rewrite get_records_resume_run in Hrun.
    apply IH in Hrun. rewrite Hrun. unfold say; cbn [trace length].
    rewrite progress_entries_app, K.
    replace (progress_entries
               (if Nat.eqb (S read mod 500) 0
                then [Log INFO "Read %d records (%.f recs/sec)" [ArgInt (S read); ArgRate]]
                else []))
      with (if Nat.eqb (S read mod 500) 0 then 1 else 0)
      by (destruct (Nat.eqb (S read mod 500) 0); reflexivity).
    pose proof (div_500_step read) as D.
    assert (M : S read / 500 <= (S read + length rs) / 500)
      by (apply Nat.Div0.div_le_mono; lia).
    replace (read + S (length rs)) with (S read + length rs) by lia.
    lia.
Qed.

End LoopLog.

(** ** The Turtle and the single-document output *)

Section OutputMore.

Variable date : Type.
Variable strftime_F : date -> string.
Variable get_uri : ClassificationRecord date -> string -> string -> string.
Variable RawRecord : Type.
Variable leader_text : RawRecord -> option string.
Variable new_ClassificationRecord : RawRecord -> Options -> exn + ClassificationRecord date.
Variable is_public : ClassificationRecord date -> bool.
Variable iterparse : string -> document RawRecord.
Variable from_rdf : list triple -> json -> json.
Variable context : json.
Variable dumps : json -> bool -> option nat -> string.
Variable py : python.

Implicit Types (w : world) (args : Args.t).

(** What is logged once the output is out. *)
Definition closing (args : Args.t) : list event :=
  match out_stream args with
  | File _ => [Log INFO "Wrote %s: %s"
                 [ArgStr (str_of (Args.outformat args)); ArgStr (str_of (Args.outfile args))]]
  | Stdout => []
  end.

(** What is done to get the output stream. *)
Definition opening (args : Args.t) : list event :=
  match out_stream args with
  | File name => [Open name "wb"]
  | Stdout => []
  end.

Lemma close_out args w :
  match out_stream args with
  | File _ =>
      emit (Log INFO "Wrote %s: %s"
              [ArgStr (str_of (Args.outformat args)); ArgStr (str_of (Args.outfile args))])
  | Stdout => ret tt
  end w = (inr tt, say (closing args) w).
Proof.
  unfold closing. destruct (out_stream args); [|reflexivity].
  unfold ret. now rewrite say_nil.
Qed.

(** [write_out] on a store that is not empty: the stream is chosen, the
    format branch runs, the end is logged. *)
Lemma write_out_nonempty args w1 :
  graph w1 <> [] ->
  write_out from_rdf context dumps py args w1
  = bind
      (if is_format (Args.outformat args) "turtle"
       then serialize_turtle py (out_stream args) (graph w1)
       else if member (Args.outformat args) ["jskos"; "ndjson"]
       then
         let jskos := from_rdf (graph w1) context in
         if is_format (Args.outformat args) "jskos"
         then
           jskos <- lift (py_setitem jskos "@context" (JStr jskos_context)) ;;
           stream_write py (out_stream args) (dumps jskos true (Some 2))
         else
           has_graph <- lift (py_contains "@graph" jskos) ;;
           entries <-
             (if has_graph : bool
              then v <- lift (py_getitem jskos "@graph") ;; lift (py_iter v)
              else ret [jskos]) ;;
           for_each entries (fun record =>
             record <- lift (py_setitem record "@context" (JStr jskos_context)) ;;
             stream_write py (out_stream args) (dumps record true None) ;;
             stream_write py (out_stream args) newline)
       else ret tt)
      (fun _ w => (inr tt, say (closing args) w))
      (say (opening args) w1).
Proof.
  intros Hne. unfold write_out. unfold bind at 1. unfold get_graph at 1.
  assert (Hm : forall (A : Type) (a b : A),
             match graph w1 with [] => a | _ :: _ => b end = b).
  { intros. destruct (graph w1); [contradiction|reflexivity]. }
  rewrite Hm. rewrite open_out. fold (opening args).
  apply bind_ext. intros _ w'. apply close_out.
Qed.

(** X19. In [turtle] mode, on a stream that takes the serializer's bytes (a
    named file, or any stream under Python 2), after a reading that ends
    normally on a non-empty store, [main] hands the whole store to the Turtle
    serializer once, on the chosen stream, and writes nothing itself: a named
    file is opened before and reported after, the standard output is
    neither. *)
Theorem turtle_output args w w1 :
  read_all strftime_F get_uri leader_text new_ClassificationRecord is_public iterparse
           args w = (inr tt, w1) ->
  graph w1 <> [] ->
  Args.outformat args = Some "turtle" ->
  takes_bytes py (out_stream args) = true ->
  main strftime_F get_uri leader_text new_ClassificationRecord is_public iterparse
       from_rdf context dumps py args w
  = (inr tt,
     {| graph := graph w1;
        bnodes := bnodes w1;
        trace := trace w1
                 ++ opening args
                 ++ [SerializeTurtle (out_stream args) (graph w1)]
                 ++ closing args |}).
Proof.
  intros Hread Hne Hfmt Hbytes. rewrite main_split.
  rewrite (@bind_run _ _ _ _ _ _ _ Hread).
  rewrite write_out_nonempty by exact Hne. rewrite Hfmt.
  cbn [is_format option_eqb String.eqb Ascii.eqb Bool.eqb].
  unfold serialize_turtle. rewrite Hbytes.
  unfold bind, emit, say. cbn [graph bnodes trace].
  do 2 f_equal. now rewrite <- !app_assoc.
Qed.

(** X28. In [turtle] mode on a stream that does not take the serializer's
    bytes, which is the standard output under Python 3, after a reading that
    ends normally on a non-empty store: the serializer's first write is
    refused, and [main] ends on [TypeError] with nothing opened, serialized
    or logged since the reading. *)
Theorem turtle_to_text_stream args w w1 :
  read_all strftime_F get_uri leader_text new_ClassificationRecord is_public iterparse
           args w = (inr tt, w1) ->
  graph w1 <> [] ->
  Args.outformat args = Some "turtle" ->
  takes_bytes py (out_stream args) = false ->
  main strftime_F get_uri leader_text new_ClassificationRecord is_public iterparse
       from_rdf context dumps py args w
  = (inl TypeError, w1).
Proof.
  intros Hread Hne Hfmt Hbytes. rewrite main_split.
  rewrite (@bind_run _ _ _ _ _ _ _ Hread).
  rewrite write_out_nonempty by exact Hne. rewrite Hfmt.
  cbn [is_format option_eqb String.eqb Ascii.eqb Bool.eqb].
  unfold serialize_turtle. rewrite Hbytes.
  assert (Ho : opening args = []).
  { unfold opening. destruct (out_stream args); [reflexivity|].
    destruct py; discriminate Hbytes. }
  rewrite Ho, say_nil. reflexivity.
Qed.

(** X20. In [jskos] mode, on a stream that takes text (the standard output, or
    any stream under Python 2), when the transformation gives a document
    object, [main] writes exactly once: the document with its ["@context"]
    member set to the fixed context URI, printed with sorted keys and an
    indent of 2. *)
Theorem jskos_output args w w1 d :
  read_all strftime_F get_uri leader_text new_ClassificationRecord is_public iterparse
           args w = (inr tt, w1) ->
  graph w1 <> [] ->
  Args.outformat args = Some "jskos" ->
  from_rdf (graph w1) context = JObj d ->
  takes_text py (out_stream args) = true ->
  main strftime_F get_uri leader_text new_ClassificationRecord is_public iterparse
       from_rdf context dumps py args w
  = (inr tt,
     {| graph := graph w1;
        bnodes := bnodes w1;
        trace := trace w1
                 ++ opening args
                 ++ [FileWrite (out_stream args)
                       (dumps (JObj (dict_set d "@context" (JStr jskos_context)))
                              true (Some 2))]
                 ++ closing args |}).
Proof.
  intros Hread Hne Hfmt Hdoc Htext. rewrite main_split.
  rewrite (@bind_run _ _ _ _ _ _ _ Hread).
  rewrite write_out_nonempty by exact Hne. rewrite Hfmt, Hdoc.
  cbn [is_format option_eqb member existsb String.eqb Ascii.eqb Bool.eqb orb].
  unfold stream_write. rewrite Htext.
  unfold bind, emit, say, lift. cbn [py_setitem graph bnodes trace].
  do 2 f_equal. now rewrite <- !app_assoc.
Qed.

(** X29. In [jskos] mode on a stream that does not take text, which is a
    named file under Python 3 since it is opened for bytes: [main] opens
    the file and ends on [TypeError] at its one write, with nothing written
    and nothing reported. *)
Theorem jskos_to_binary_file args w w1 d :
  read_all strftime_F get_uri leader_text new_ClassificationRecord is_public iterparse
           args w = (inr tt, w1) ->
  graph w1 <> [] ->
  Args.outformat args = Some "jskos" ->
  from_rdf (graph w1) context = JObj d ->
  takes_text py (out_stream args) = false ->
  main strftime_F get_uri leader_text new_ClassificationRecord is_public iterparse
       from_rdf context dumps py args w
  = (inl TypeError,
     {| graph := graph w1; bnodes := bnodes w1; trace := trace w1 ++ opening args |}).
Proof.
  intros Hread Hne Hfmt Hdoc Htext. rewrite main_split.
  rewrite (@bind_run _ _ _ _ _ _ _ Hread).
  rewrite write_out_nonempty by exact Hne. rewrite Hfmt, Hdoc.
  cbn [is_format option_eqb member existsb String.eqb Ascii.eqb Bool.eqb orb].
  unfold stream_write. rewrite Htext.
  unfold bind, say, lift, raise. cbn [py_setitem graph bnodes trace]. reflexivity.
Qed.

End OutputMore.

(** ** One output stream *)

(** The event serializes or writes to the stream [s]. *)
Definition written_to (s : stream) (e : event) : Prop :=
  match e with
  | SerializeTurtle s' _ | FileWrite s' _ => s' = s
  | _ => False
  end.

(** [w'] is [w] after some output to [s], and nothing else. *)
Definition writes_to (s : stream) (w w' : world) : Prop :=
  exists body, w' = say body w /\ Forall (written_to s) body.

Lemma writes_to_refl s w : writes_to s w w.
Proof. exists []. split; [now rewrite say_nil|constructor]. Qed.

Lemma writes_to_trans s a b c : writes_to s a b -> writes_to s b c -> writes_to s a c.
Proof.
  intros (l1 & -> & F1) (l2 & -> & F2). exists (l1 ++ l2).
  split; [apply say_say|now apply Forall_app].
Qed.

Lemma writes_to_emit s e : written_to s e -> keeps (writes_to s) (emit e).
Proof. intros H w. exists [e]. split; [reflexivity|now constructor]. Qed.

Lemma writes_to_lift s {A} (r : exn + A) : keeps (writes_to s) (lift r).
Proof. intros w. apply writes_to_refl. Qed.

Lemma writes_to_stream_write py s text : keeps (writes_to s) (stream_write py s text).
Proof.
  unfold stream_write. destruct (takes_text py s).
  - apply writes_to_emit. reflexivity.
  - intros w. apply writes_to_refl.
Qed.

Lemma writes_to_serialize py s g : keeps (writes_to s) (serialize_turtle py s g).
Proof.
  unfold serialize_turtle. destruct (takes_bytes py s).
  - apply writes_to_emit. reflexivity.
  - intros w. apply writes_to_refl.
Qed.

Lemma writes_to_bind s {A B} (m : M A) (k : A -> M B) :
  keeps (writes_to s) m -> (forall a, keeps (writes_to s) (k a)) ->
  keeps (writes_to s) (bind m k).
Proof. apply keeps_bind. apply writes_to_trans. Qed.

Lemma writes_to_for_each s {A} (body : A -> M unit) :
  (forall x, keeps (writes_to s) (body x)) ->
  forall l, keeps (writes_to s) (for_each l body).
Proof.
  intros H. induction l as [|x l IH]; cbn [for_each].
  - intros w. apply writes_to_refl.
  - apply writes_to_bind; [apply H|intros _; exact IH].
Qed.

Lemma out_stream_standard args :
  Args.outfile args = None \/ Args.outfile args = Some "" \/ Args.outfile args = Some "-" ->
  out_stream args = Stdout.
Proof. unfold out_stream. intros [->|[->| ->]]; reflexivity. Qed.

Section OneStream.

Variable date : Type.
Variable strftime_F : date -> string.
Variable get_uri : ClassificationRecord date -> string -> string -> string.
Variable RawRecord : Type.
Variable leader_text : RawRecord -> option string.
Variable new_ClassificationRecord : RawRecord -> Options -> exn + ClassificationRecord date.
Variable is_public : ClassificationRecord date -> bool.
Variable iterparse : string -> document RawRecord.
Variable from_rdf : list triple -> json -> json.
Variable context : json.
Variable dumps : json -> bool -> option nat -> string.
Variable py : python.

Implicit Types (w : world) (args : Args.t).

(** What [main] does once the records are read: an optional opening, output
    to the chosen stream, and one closing entry at most. *)
Lemma write_out_shape args w1 :
  exists ws tail,
    snd (write_out from_rdf context dumps py args w1) = say (ws ++ tail) w1
    /\ (ws = [] \/ exists body, ws = opening args ++ body
                                /\ Forall (written_to (out_stream args)) body)
    /\ (tail = [] \/ tail = [Log WARNING "RDF result is empty!" []] \/ tail = closing args).
Proof.
  destruct (graph w1) as [|t g] eqn:Hg.
  - exists [], [Log WARNING "RDF result is empty!" []].
    split; [|split; [now left|right; now left]].
    unfold write_out, bind, get_graph. rewrite Hg. reflexivity.
  - rewrite write_out_nonempty by (rewrite Hg; discriminate).
    match goal with
    | |- context [bind ?m _ (say (opening args) w1)] =>
        assert (K : keeps (writes_to (out_stream args)) m)
    end.
    { destruct (is_format (Args.outformat args) "turtle");
        [apply writes_to_serialize|].
      destruct (member (Args.outformat args) ["jskos"; "ndjson"]);
        [|intros w; apply writes_to_refl].
      cbv zeta. destruct (is_format (Args.outformat args) "jskos").
      - apply writes_to_bind; [apply writes_to_lift|].
        intros j. apply writes_to_stream_write.
      - apply writes_to_bind; [apply writes_to_lift|]. intros has_graph.
        apply writes_to_bind.
        + destruct has_graph; [|intros w; apply writes_to_refl].
          apply writes_to_bind; [apply writes_to_lift|intros v; apply writes_to_lift].
        + intros entries. apply writes_to_for_each. intros x.
          apply writes_to_bind; [apply writes_to_lift|]. intros r.
          apply writes_to_bind; [apply writes_to_stream_write|].
          intros _. apply writes_to_stream_write. }
    unfold bind at 1.
    match goal with
    | |- context [bind ?m _ (say (opening args) w1)] => idtac
    | |- context [?m (say (opening args) w1)] =>
        destruct (K (say (opening args) w1)) as (body & E & F);
        destruct (m (say (opening args) w1)) as [[e|[]] w2]; cbn [snd] in E; subst w2
    end.
    + exists (opening args ++ body), []. rewrite app_nil_r, say_say. cbn [snd].
      split; [reflexivity|]. split; [right; eauto|now left].
    + exists (opening args ++ body), (closing args). rewrite !say_say, app_assoc. cbn [snd].
      split; [reflexivity|]. split; [right; eauto|right; now right].
Qed.

(** X21. However a run of [main] ends, its output is one block of its trace: if a
    file is the target it is opened there, once, and what follows is
    serialized or written to the chosen stream and to no other; before the
    block the run only logs, after it there is nothing, the warning of an
    empty result, or the closing entry. *)
Theorem output_on_one_stream args w :
  exists logs ws tail,
    trace (snd (main strftime_F get_uri leader_text new_ClassificationRecord is_public
                     iterparse from_rdf context dumps py args w))
    = trace w ++ logs ++ ws ++ tail
    /\ Forall is_log logs
    /\ (ws = [] \/ exists body, ws = opening args ++ body
                                /\ Forall (written_to (out_stream args)) body)
    /\ (tail = [] \/ tail = [Log WARNING "RDF result is empty!" []] \/ tail = closing args).
Proof.
  rewrite main_split. unfold bind.
  destruct (tame_read_all strftime_F get_uri leader_text new_ClassificationRecord
              is_public iterparse args w) as [(logs & E & F) _].
  destruct (read_all _ _ _ _ _ _ args w) as [[e|[]] w1]; cbn [snd] in E.
  - exists logs, [], []. cbn [snd]. rewrite !app_nil_r. repeat split; auto.
  - destruct (write_out_shape args w1) as (ws & tail & Ew & Hws & Ht).
    exists logs, ws, tail. rewrite Ew. unfold say; cbn [trace].
    rewrite E, <- app_assoc. repeat split; auto.
Qed.

(** X22. Without an output file name, with an empty one or with ["-"], the run
    opens no file: all it serializes or writes goes to the standard output,
    and after its output it logs nothing. *)
Theorem standard_output_is_not_opened args w :
  Args.outfile args = None \/ Args.outfile args = Some "" \/ Args.outfile args = Some "-" ->
  exists logs body tail,
    trace (snd (main strftime_F get_uri leader_text new_ClassificationRecord is_public
                     iterparse from_rdf context dumps py args w))
    = trace w ++ logs ++ body ++ tail
    /\ Forall is_log logs
    /\ Forall (written_to Stdout) body
    /\ (tail = [] \/ tail = [Log WARNING "RDF result is empty!" []]).
Proof.
  intros Hout. apply out_stream_standard in Hout.
  assert (Ho : opening args = []) by (unfold opening; now rewrite Hout).
  assert (Hc : closing args = []) by (unfold closing; now rewrite Hout).
  rewrite main_split. unfold bind.
  destruct (tame_read_all strftime_F get_uri leader_text new_ClassificationRecord
              is_public iterparse args w) as [(logs & E & F) _].
  destruct (read_all _ _ _ _ _ _ args w) as [[e|[]] w1]; cbn [snd] in E.
  - exists logs, [], []. cbn [snd]. rewrite !app_nil_r. repeat split; auto.
  - destruct (write_out_shape args w1) as (ws & tail & Ew & Hws & Ht).
    rewrite Ho, Hout in Hws. rewrite Hc in Ht.
    assert (Hb : Forall (written_to Stdout) ws).
    { destruct Hws as [->|(body & -> & Fb)]; [constructor|exact Fb]. }
    exists logs, ws, tail. rewrite Ew. unfold say; cbn [trace].
    rewrite E, <- app_assoc. repeat split; auto. tauto.
Qed.

End OneStream.

(** ** What a sort key is made of *)

(** The class [[0-9A-Z\-]] of the first group of the table pattern. *)
Definition table_chars : list Re.class_item :=
  [Re.Range "0" "9"; Re.Range "A" "Z"; Re.EscChar "-"]%char.

(** The class [[0-9.\-;:]] of the other groups. *)
Definition number_chars : list Re.class_item :=
  [Re.Range "0" "9"; Re.Char "."; Re.EscChar "-"; Re.Char ";"; Re.Char ":"]%char.

Ltac invert_matches :=
  repeat match goal with
         | H : Matches (_ :: _) _ _ |- _ => inversion H; clear H; subst
         | H : Matches [] _ _ |- _ => inversion H; clear H; subst
         end.

Lemma table_match_text m g :
  Matches table_pattern m g ->
  exists a b, g = [a; b]
              /\ m = ("/" ++ a ++ "--" ++ b ++ "/e")%string
              /\ a <> "" /\ b <> ""
              /\ all_in table_chars a = true /\ all_in number_chars b = true.
Proof.
  unfold table_pattern. intros H. invert_matches.
  do 2 eexists. repeat split; eassumption.
Qed.

Lemma schedule_match_text m g :
  Matches schedule_pattern m g ->
  exists a, g = [a]
            /\ m = ("/" ++ a ++ "/e")%string
            /\ a <> "" /\ all_in number_chars a = true.
Proof.
  unfold schedule_pattern. intros H. invert_matches.
  eexists. repeat split; eassumption.
Qed.

(** X24. A key is its marker letter followed by the notation just as the subject
    spells it between a slash and ["/e"]: for ['T'], a non-empty run of
    digits, capitals and hyphens, then ["--"], then a non-empty run of digits
    and [. - ; :]; for ['A'], which is given only where no table number is
    found, one such run of digits and [. - ; :]. *)
Theorem sort_key_spells_the_notation subject k :
  sort_key subject = Some k ->
  (exists before a b after,
      subject = (before ++ "/" ++ a ++ "--" ++ b ++ "/e" ++ after)%string
      /\ a <> "" /\ b <> ""
      /\ all_in table_chars a = true /\ all_in number_chars b = true
      /\ k = ("T" ++ a ++ "--" ++ b)%string)
  \/ (exists before a after,
         (forall g, ~ occurs table_pattern subject g)
         /\ subject = (before ++ "/" ++ a ++ "/e" ++ after)%string
         /\ a <> "" /\ all_in number_chars a = true
         /\ k = ("A" ++ a)%string).
Proof.
  rewrite sort_key_unfold.
  destruct (Re.search table_pattern subject) as [r|] eqn:Et.
  - intros H. injection H as <-. left.
    destruct (search_sound _ _ Et) as (before & m & after & -> & Hm).
    destruct (table_match_text Hm) as (a & b & -> & -> & Ha & Hb & Ca & Cb).
    exists before, a, b, after. repeat split; try assumption.
    cbn [append]. repeat (rewrite append_assoc; cbn [append]). reflexivity.
  - destruct (Re.search schedule_pattern subject) as [r|] eqn:Es; [|discriminate].
    intros H. injection H as <-. right.
    destruct (search_sound _ _ Es) as (before & m & after & Hs & Hm).
    destruct (schedule_match_text Hm) as (a & -> & -> & Ha & Ca).
    exists before, a, after. repeat split; try assumption.
    + intros g Ho. destruct (search_complete Ho) as (r & Hr). congruence.
    + rewrite Hs. cbn [append]. repeat (rewrite append_assoc; cbn [append]). reflexivity.
Qed.

(** X25. A subject has no key from the two sorters exactly when neither pattern
    occurs anywhere in it. *)
Theorem sort_key_none_iff subject :
  sort_key subject = None
  <-> (forall g, ~ occurs table_pattern subject g)
      /\ (forall g, ~ occurs schedule_pattern subject g).
Proof.
  rewrite sort_key_unfold. split.
  - intros H.
    destruct (Re.search table_pattern subject) eqn:Et; [discriminate|].
    destruct (Re.search schedule_pattern subject) eqn:Es; [discriminate|].
    split; intros g Ho; destruct (search_complete Ho) as (r & Hr); congruence.
  - intros [Ht Hs].
    destruct (Re.search table_pattern subject) as [r|] eqn:Et.
    { destruct (Ht r). now apply search_sound. }
    destruct (Re.search schedule_pattern subject) as [r|] eqn:Es; [|reflexivity].
    destruct (Hs r). now apply search_sound.
Qed.

(** ** The further properties on sample runs *)

Module More.

Abbreviation add := (add_record_to_graph Sample.strftime_F Sample.get_uri).

Abbreviation process :=
  (process_record Sample.strftime_F Sample.get_uri Sample.leader_text
                  Sample.new_ClassificationRecord Sample.is_public).

Abbreviation loop :=
  (records_loop Sample.strftime_F Sample.get_uri Sample.leader_text
                Sample.new_ClassificationRecord Sample.is_public).

Abbreviation reading :=
  (read_all Sample.strftime_F Sample.get_uri Sample.leader_text
            Sample.new_ClassificationRecord Sample.is_public Sample.iterparse).

(** A document that breaks off after one valid record. *)
Definition broken_iterparse (_ : string) : document Sample.raw :=
  {| records := [Sample.classification]; malformed := true |}.

Abbreviation broken_main :=
  (main Sample.strftime_F Sample.get_uri Sample.leader_text
        Sample.new_ClassificationRecord Sample.is_public broken_iterparse
        Sample.from_rdf Sample.context Sample.dumps Sample.py).

(** The sample record's identifier. *)
Definition u : string := "http://dewey.info/class/512.0901/e23/".

(** The options of [Sample.args]. *)
Definition options : Options := options_of (Sample.args "mixed.xml" "turtle").

(** Six hundred records of another family. *)
Definition many : list Sample.raw := repeat Sample.authority 600.

(** The world after reading [mixed.xml]. *)
Definition after_reading (format : string) : world :=
  snd (reading (Sample.args "mixed.xml" format) empty_world).

End More.

Lemma call_subjects_witness :
  uri Sample.record = Some More.u
  /\ exists outcome record' emitted w',
       More.add Sample.options (Sample.record, empty_world) = (outcome, (record', w'))
       /\ graph w' = graph empty_world ++ emitted
       /\ Forall (fun t => subj t = URIRef More.u
                           \/ exists i, subj t = BNode i
                                        /\ bnodes empty_world <= i < bnodes w')
                 emitted.
Proof.
  split; [reflexivity|].
  exact (@call_subjects Sample.date Sample.strftime_F Sample.get_uri Sample.record
           Sample.options empty_world More.u eq_refl).
Defined.

Lemma call_without_components_witness :
  uri Sample.table_record = Some "http://dewey.info/class/1--0901/e23/"
  /\ (include_components Sample.options = false \/ components Sample.table_record = [])
  /\ exists record' emitted w',
       More.add Sample.options (Sample.table_record, empty_world) = (inr tt, (record', w'))
       /\ graph w' = graph empty_world ++ emitted
       /\ record' = Sample.table_record
       /\ bnodes w' = bnodes empty_world
       /\ Forall (fun t => subj t = URIRef "http://dewey.info/class/1--0901/e23/") emitted
       /\ filter (by_pred is_chain_predicate) emitted = [].
Proof.
  split; [reflexivity|]. split; [right; reflexivity|].
  exact (@call_without_components Sample.date Sample.strftime_F Sample.get_uri
           Sample.table_record Sample.options empty_world _ eq_refl (or_intror eq_refl)).
Defined.

Lemma call_altLabels_witness :
  uri Sample.record = Some More.u
  /\ exists outcome record' emitted w',
       More.add Sample.options (Sample.record, empty_world) = (outcome, (record', w'))
       /\ graph w' = graph empty_world ++ emitted
       /\ filter (by_pred (only SKOS.altLabel)) emitted
          = [(URIRef More.u, SKOS.altLabel, Literal (LStr "Algebra--history") (Some "en") None)].
Proof.
  split; [reflexivity|].
  exact (@call_altLabels Sample.date Sample.strftime_F Sample.get_uri Sample.record
           Sample.options empty_world More.u eq_refl).
Defined.

Lemma call_broader_witness :
  uri Sample.record = Some More.u
  /\ exists outcome record' emitted w',
       More.add Sample.options (Sample.record, empty_world) = (outcome, (record', w'))
       /\ graph w' = graph empty_world ++ emitted
       /\ filter (by_pred (only SKOS.broader)) emitted
          = [(URIRef More.u, SKOS.broader, URIRef "http://dewey.info/class/512/e23/")].
Proof.
  split; [reflexivity|].
  exact (@call_broader Sample.date Sample.strftime_F Sample.get_uri Sample.record
           Sample.options empty_world More.u eq_refl).
Defined.

Lemma call_notes_witness :
  uri Sample.record = Some More.u
  /\ exists outcome record' emitted w',
       More.add Sample.options (Sample.record, empty_world) = (outcome, (record', w'))
       /\ graph w' = graph empty_world ++ emitted
       /\ filter (by_pred is_note_predicate) emitted
          = [(URIRef More.u, SKOS.scopeNote,
              Literal (LStr "Class here history") (Some "en") None)].
Proof.
  split; [reflexivity|].
  exact (@call_notes Sample.date Sample.strftime_F Sample.get_uri Sample.record
           Sample.options empty_world More.u eq_refl).
Defined.

Lemma call_deprecated_witness :
  uri Sample.deprecated_record = Some "http://dewey.info/class/512.09/e23/"
  /\ exists outcome record' emitted w',
       More.add Sample.options (Sample.deprecated_record, empty_world)
       = (outcome, (record', w'))
       /\ graph w' = graph empty_world ++ emitted
       /\ filter (by_pred (only OWL.deprecated)) emitted
          = [(URIRef "http://dewey.info/class/512.09/e23/", OWL.deprecated,
              Literal (LBool true) None None)].
Proof.
  split; [reflexivity|].
  exact (@call_deprecated Sample.date Sample.strftime_F Sample.get_uri
           Sample.deprecated_record Sample.options empty_world _ eq_refl).
Defined.

(** The sample record is not deprecated, and nothing says it is. *)
Example live_record_is_not_deprecated :
  filter (by_pred (only OWL.deprecated))
         (graph (snd (snd (More.add Sample.options (Sample.record, empty_world))))) = [].
Proof. vm_compute. reflexivity. Qed.

Lemma call_dates_witness :
  uri Sample.record = Some More.u
  /\ exists outcome record' emitted w',
       More.add Sample.options (Sample.record, empty_world) = (outcome, (record', w'))
       /\ graph w' = graph empty_world ++ emitted
       /\ filter (by_pred (only DCTERMS.created)) emitted
          = [(URIRef More.u, DCTERMS.created,
              Literal (LStr "2011-03-04") None (Some XSD.date))]
       /\ filter (by_pred (only DCTERMS.modified)) emitted = [].
Proof.
  split; [reflexivity|].
  exact (@call_dates Sample.date Sample.strftime_F Sample.get_uri Sample.record
           Sample.options empty_world More.u eq_refl).
Defined.

Lemma call_prefLabel_witness :
  uri Sample.record = Some More.u
  /\ exists outcome record' emitted w',
       More.add Sample.options (Sample.record, empty_world) = (outcome, (record', w'))
       /\ graph w' = graph empty_world ++ emitted
       /\ filter (by_pred (only SKOS.prefLabel)) emitted
          = [(URIRef More.u, SKOS.prefLabel, Literal (LStr "Algebra") (Some "en") None)].
Proof.
  split; [reflexivity|].
  exact (@call_prefLabel Sample.date Sample.strftime_F Sample.get_uri Sample.record
           Sample.options empty_world More.u eq_refl).
Defined.

Lemma call_extras_witness :
  uri Sample.record = Some More.u
  /\ exists outcome record' emitted w',
       More.add Sample.options (Sample.record, empty_world) = (outcome, (record', w'))
       /\ graph w' = graph empty_world ++ emitted
       /\ filter (by_pred is_WD) emitted
          = match outcome with
            | inr _ =>
                [(URIRef More.u, WD "synthesized", Literal (LStr "true") (Some "en") None)]
            | inl _ => []
            end.
Proof.
  split; [reflexivity|].
  exact (@call_extras Sample.date Sample.strftime_F Sample.get_uri Sample.record
           Sample.options empty_world More.u eq_refl).
Defined.

(** The call for the sample record returns, so its extra is stated; the call
    for the built record raises before the extras, and none is stated. *)
Example extras_of_the_two_sample_calls :
  fst (More.add Sample.options (Sample.record, empty_world)) = inr tt
  /\ filter (by_pred is_WD)
            (graph (snd (snd (More.add Sample.options (Sample.record, empty_world)))))
     = [(URIRef More.u, WD "synthesized", Literal (LStr "true") (Some "en") None)]
  /\ fst (More.add Sample.options (Sample.built_record, empty_world)) = inl AssertionError
  /\ filter (by_pred is_WD)
            (graph (snd (snd (More.add Sample.options (Sample.built_record, empty_world)))))
     = [].
Proof. vm_compute. repeat split. Qed.

Lemma single_component_chain_witness :
  uri Sample.record = Some More.u
  /\ include_components Sample.options = true
  /\ components Sample.record = ["512"]
  /\ fresh_from (bnodes empty_world) (graph empty_world)
  /\ exists record' emitted w',
       More.add Sample.options (Sample.record, empty_world) = (inr tt, (record', w'))
       /\ graph w' = graph empty_world ++ emitted
       /\ record' = set_components Sample.record []
       /\ objects emitted (URIRef More.u) (MADS "componentList") = [BNode 0]
       /\ objects (graph w') (BNode 0) RDF.first
          = [URIRef "http://dewey.info/class/512/e23/"]
       /\ objects (graph w') (BNode 0) RDF.rest = [RDF.nil]
       /\ rdf_list 2 (graph w') (BNode 0)
          = Some [(BNode 0, URIRef "http://dewey.info/class/512/e23/")]
       /\ bnodes w' = 1.
Proof.
  assert (Hfresh : fresh_from (bnodes empty_world) (graph empty_world))
    by (intros t i []).
  split; [reflexivity|]. split; [reflexivity|]. split; [reflexivity|].
  split; [exact Hfresh|].
  exact (@single_component_chain Sample.date Sample.strftime_F Sample.get_uri
           Sample.record Sample.options empty_world More.u "512"
           eq_refl eq_refl eq_refl Hfresh).
Defined.

Lemma unsupported_format_witness :
  member (Args.outformat (Sample.args "mixed.xml" "rdfxml")) ["turtle"; "jskos"; "ndjson"]
  = false
  /\ Sample.main (Sample.args "mixed.xml" "rdfxml") empty_world
     = (inl (ValueError "output format not supported"),
        {| graph := []; bnodes := 0; trace := [SetLevel INFO] |}).
Proof.
  split; [reflexivity|].
  exact (@unsupported_format_stops_before_reading Sample.date Sample.strftime_F
           Sample.get_uri Sample.raw Sample.leader_text Sample.new_ClassificationRecord
           Sample.is_public Sample.iterparse Sample.from_rdf Sample.context Sample.dumps Sample.py
           (Sample.args "mixed.xml" "rdfxml") empty_world eq_refl).
Defined.

Lemma empty_document_witness :
  member (Args.outformat (Sample.args "none.xml" "turtle")) ["turtle"; "jskos"; "ndjson"]
  = true
  /\ records (Sample.iterparse "none.xml") = []
  /\ malformed (Sample.iterparse "none.xml") = false
  /\ Sample.main (Sample.args "none.xml" "turtle") empty_world
     = (inr tt,
        {| graph := [];
           bnodes := 0;
           trace := [SetLevel INFO;
                     Log INFO "Parsing: %s" [ArgStr "none.xml"];
                     Log WARNING "RDF result is empty!" []] |}).
Proof.
  split; [reflexivity|]. split; [reflexivity|]. split; [reflexivity|].
  exact (@empty_document_warns Sample.date Sample.strftime_F
           Sample.get_uri Sample.raw Sample.leader_text Sample.new_ClassificationRecord
           Sample.is_public Sample.iterparse Sample.from_rdf Sample.context Sample.dumps Sample.py
           (Sample.args "none.xml" "turtle") empty_world eq_refl eq_refl eq_refl).
Defined.

Lemma loop_stops_on_other_exception_witness :
  More.process Sample.short_leader More.options empty_world = (inl IndexError, empty_world)
  /\ (forall msg, IndexError <> InvalidRecordError msg)
  /\ More.loop [Sample.short_leader; Sample.classification] false More.options 0 0
               empty_world
     = (inl IndexError, empty_world).
Proof.
  assert (H : forall msg, IndexError <> InvalidRecordError msg) by (intros msg; discriminate).
  split; [reflexivity|]. split; [exact H|].
  exact (@loop_stops_on_other_exception Sample.date Sample.strftime_F
           Sample.get_uri Sample.raw Sample.leader_text Sample.new_ClassificationRecord
           Sample.is_public Sample.short_leader [Sample.classification] false More.options
           0 0 empty_world IndexError empty_world eq_refl H).
Defined.

Lemma malformed_document_witness :
  malformed (More.broken_iterparse "broken.xml") = true
  /\ exists e w' events,
       More.broken_main (Sample.args "broken.xml" "turtle") empty_world = (inl e, w')
       /\ trace w' = trace empty_world ++ events
       /\ forall ev, In ev events -> is_output ev = false.
Proof.
  split; [reflexivity|].
  exact (@malformed_document_writes_nothing Sample.date Sample.strftime_F
           Sample.get_uri Sample.raw Sample.leader_text Sample.new_ClassificationRecord
           Sample.is_public More.broken_iterparse Sample.from_rdf Sample.context
           Sample.dumps Sample.py (Sample.args "broken.xml" "turtle") empty_world eq_refl).
Defined.

Lemma visibility_gate_witness :
  Sample.leader_text Sample.classification = Some "00000nw  a2200000n  4500"
  /\ String.get 6 "00000nw  a2200000n  4500" = Some "w"%char
  /\ Sample.new_ClassificationRecord Sample.classification More.options = inr Sample.record
  /\ uri Sample.record = Some More.u
  /\ More.process Sample.classification More.options empty_world
     = if Sample.is_public Sample.record
       then (if include_components More.options
                && Nat.leb 2 (length (components Sample.record))
             then inl AssertionError else inr tt,
             {| graph := graph empty_world
                         ++ record_statements Sample.strftime_F Sample.get_uri
                              (URIRef More.u) Sample.record More.options
                              (bnodes empty_world);
                bnodes := bnodes empty_world + minted Sample.record More.options;
                trace := trace empty_world |})
       else (inr tt, empty_world).
Proof.
  split; [reflexivity|]. split; [reflexivity|]. split; [reflexivity|].
  split; [reflexivity|].
  exact (@visibility_gate Sample.date Sample.strftime_F Sample.get_uri Sample.raw
           Sample.leader_text Sample.new_ClassificationRecord Sample.is_public
           Sample.classification More.options empty_world
           "00000nw  a2200000n  4500" Sample.record More.u
           eq_refl eq_refl eq_refl eq_refl).
Defined.

(** The three records of [rejected.xml] are turned down, each in its way. *)
Lemma rejected_records_are_refused :
  Forall (fun rec => refused Sample.leader_text Sample.new_ClassificationRecord
                             Sample.is_public rec
                             (options_of (Sample.args "rejected.xml" "turtle")))
         (records (Sample.iterparse (Args.infile (Sample.args "rejected.xml" "turtle")))).
Proof.
  change (records (Sample.iterparse (Args.infile (Sample.args "rejected.xml" "turtle"))))
    with [Sample.authority; Sample.no_leader; Sample.unidentified].
  apply Forall_cons; [|apply Forall_cons; [|apply Forall_cons; [|apply Forall_nil]]].
  - apply refused_invalid with (msg := "Record is not a Marc21 Classification record").
    apply invalid_other_family with (leader := "00000nz  a2200000n  4500") (marker := "z"%char);
      [reflexivity|reflexivity|discriminate].
  - apply refused_invalid with (msg := "Record does not have a leader").
    apply invalid_no_leader. reflexivity.
  - apply refused_unidentified
      with (leader := "00000nw  a2200000n  4500") (record := Sample.unidentified_record);
      reflexivity.
Defined.

Lemma document_of_refused_records_witness :
  member (Args.outformat (Sample.args "rejected.xml" "turtle")) ["turtle"; "jskos"; "ndjson"]
  = true
  /\ malformed (Sample.iterparse (Args.infile (Sample.args "rejected.xml" "turtle"))) = false
  /\ exists w' logs,
       Sample.main (Sample.args "rejected.xml" "turtle") empty_world = (inr tt, w')
       /\ graph w' = []
       /\ bnodes w' = bnodes empty_world
       /\ trace w' = trace empty_world ++ logs ++ [Log WARNING "RDF result is empty!" []]
       /\ Forall is_log logs.
Proof.
  split; [reflexivity|]. split; [reflexivity|].
  exact (@document_of_refused_records Sample.date Sample.strftime_F
           Sample.get_uri Sample.raw Sample.leader_text Sample.new_ClassificationRecord
           Sample.is_public Sample.iterparse Sample.from_rdf Sample.context Sample.dumps Sample.py
           (Sample.args "rejected.xml" "turtle") empty_world
           eq_refl eq_refl rejected_records_are_refused).
Defined.

Lemma ignored_record_is_numbered_witness :
  nth_error [Sample.authority; Sample.no_leader; Sample.classification] 1
  = Some Sample.no_leader
  /\ invalid Sample.leader_text Sample.new_ClassificationRecord Sample.no_leader
             More.options "Record does not have a leader"
  /\ More.loop [Sample.authority; Sample.no_leader; Sample.classification] false
               More.options 0 0 empty_world
     = (inr tt, snd (More.loop [Sample.authority; Sample.no_leader; Sample.classification]
                               false More.options 0 0 empty_world))
  /\ In (Log DEBUG "Ignoring record %d: %s"
           [ArgInt 2; ArgStr "Record does not have a leader"])
        (trace (snd (More.loop [Sample.authority; Sample.no_leader; Sample.classification]
                               false More.options 0 0 empty_world))).
Proof.
  assert (Hi : invalid Sample.leader_text Sample.new_ClassificationRecord Sample.no_leader
                       More.options "Record does not have a leader")
    by (apply invalid_no_leader; reflexivity).
  assert (Hrun : More.loop [Sample.authority; Sample.no_leader; Sample.classification] false
                           More.options 0 0 empty_world
                 = (inr tt,
                    snd (More.loop [Sample.authority; Sample.no_leader; Sample.classification]
                                   false More.options 0 0 empty_world)))
    by (vm_compute; reflexivity).
  split; [reflexivity|]. split; [exact Hi|]. split; [exact Hrun|].
  exact (@ignored_record_is_numbered Sample.date Sample.strftime_F
           Sample.get_uri Sample.raw Sample.leader_text Sample.new_ClassificationRecord
           Sample.is_public More.options "Record does not have a leader"
           [Sample.authority; Sample.no_leader; Sample.classification] 1 Sample.no_leader
           false 0 0 empty_world _ eq_refl Hi Hrun).
Defined.

Lemma progress_every_500_witness :
  More.loop More.many false More.options 0 0 empty_world
  = (inr tt, snd (More.loop More.many false More.options 0 0 empty_world))
  /\ progress_entries (trace (snd (More.loop More.many false More.options 0 0 empty_world)))
     = progress_entries (trace empty_world) + ((0 + length More.many) / 500 - 0 / 500).
Proof.
  assert (Hrun : More.loop More.many false More.options 0 0 empty_world
                 = (inr tt, snd (More.loop More.many false More.options 0 0 empty_world)))
    by (vm_compute; reflexivity).
  split; [exact Hrun|].
  exact (@progress_every_500 Sample.date Sample.strftime_F
           Sample.get_uri Sample.raw Sample.leader_text Sample.new_ClassificationRecord
           Sample.is_public More.options More.many false 0 0 empty_world _ Hrun).
Defined.

(** Six hundred records give one progress entry, after the 500th. *)
Example one_progress_entry_in_600 :
  filter is_progress (trace (snd (More.loop More.many false More.options 0 0 empty_world)))
  = [Log INFO "Read %d records (%.f recs/sec)" [ArgInt 500; ArgRate]].
Proof. vm_compute. reflexivity. Qed.

Lemma turtle_output_witness :
  More.reading (Sample.args "mixed.xml" "turtle") empty_world
  = (inr tt, More.after_reading "turtle")
  /\ graph (More.after_reading "turtle") <> []
  /\ Args.outformat (Sample.args "mixed.xml" "turtle") = Some "turtle"
  /\ takes_bytes Sample.py (out_stream (Sample.args "mixed.xml" "turtle")) = true
  /\ Sample.main (Sample.args "mixed.xml" "turtle") empty_world
     = (inr tt,
        {| graph := graph (More.after_reading "turtle");
           bnodes := bnodes (More.after_reading "turtle");
           trace := trace (More.after_reading "turtle")
                    ++ [Open "out.ndjson" "wb"]
                    ++ [SerializeTurtle (File "out.ndjson")
                          (graph (More.after_reading "turtle"))]
                    ++ [Log INFO "Wrote %s: %s" [ArgStr "turtle"; ArgStr "out.ndjson"]] |}).
Proof.
  assert (Hread : More.reading (Sample.args "mixed.xml" "turtle") empty_world
                  = (inr tt, More.after_reading "turtle")) by (vm_compute; reflexivity).
  assert (Hne : graph (More.after_reading "turtle") <> []) by (vm_compute; discriminate).
  split; [exact Hread|]. split; [exact Hne|]. split; [reflexivity|]. split; [reflexivity|].
  exact (@turtle_output Sample.date Sample.strftime_F
           Sample.get_uri Sample.raw Sample.leader_text Sample.new_ClassificationRecord
           Sample.is_public Sample.iterparse Sample.from_rdf Sample.context Sample.dumps Sample.py
           (Sample.args "mixed.xml" "turtle") empty_world (More.after_reading "turtle")
           Hread Hne eq_refl eq_refl).
Defined.

Lemma turtle_to_text_stream_witness :
  More.reading (Sample.stdout_args "mixed.xml" "turtle") empty_world
  = (inr tt, More.after_reading "turtle")
  /\ graph (More.after_reading "turtle") <> []
  /\ Args.outformat (Sample.stdout_args "mixed.xml" "turtle") = Some "turtle"
  /\ takes_bytes Sample.py (out_stream (Sample.stdout_args "mixed.xml" "turtle")) = false
  /\ Sample.main (Sample.stdout_args "mixed.xml" "turtle") empty_world
     = (inl TypeError, More.after_reading "turtle").
Proof.
  assert (Hread : More.reading (Sample.stdout_args "mixed.xml" "turtle") empty_world
                  = (inr tt, More.after_reading "turtle")) by (vm_compute; reflexivity).
  assert (Hne : graph (More.after_reading "turtle") <> []) by (vm_compute; discriminate).
  split; [exact Hread|]. split; [exact Hne|]. split; [reflexivity|]. split; [reflexivity|].
  exact (@turtle_to_text_stream Sample.date Sample.strftime_F
           Sample.get_uri Sample.raw Sample.leader_text Sample.new_ClassificationRecord
           Sample.is_public Sample.iterparse Sample.from_rdf Sample.context Sample.dumps Sample.py
           (Sample.stdout_args "mixed.xml" "turtle") empty_world (More.after_reading "turtle")
           Hread Hne eq_refl eq_refl).
Defined.

(** The document the sample transformation makes of the store read from
    [mixed.xml]. *)
Definition sample_document : list (string * json) :=
  [("@context", Sample.context);
   ("@graph",
    JArr (map (fun t => JObj [("uri", JStr match node_text (subj t) with
                                           | Some s => s
                                           | None => "_:b"
                                           end)])
              (graph (More.after_reading "jskos"))))].

Lemma jskos_output_witness :
  More.reading (Sample.stdout_args "mixed.xml" "jskos") empty_world
  = (inr tt, More.after_reading "jskos")
  /\ graph (More.after_reading "jskos") <> []
  /\ Args.outformat (Sample.stdout_args "mixed.xml" "jskos") = Some "jskos"
  /\ Sample.from_rdf (graph (More.after_reading "jskos")) Sample.context
     = JObj sample_document
  /\ takes_text Sample.py (out_stream (Sample.stdout_args "mixed.xml" "jskos")) = true
  /\ Sample.main (Sample.stdout_args "mixed.xml" "jskos") empty_world
     = (inr tt,
        {| graph := graph (More.after_reading "jskos");
           bnodes := bnodes (More.after_reading "jskos");
           trace := trace (More.after_reading "jskos")
                    ++ []
                    ++ [FileWrite Stdout
                          (Sample.dumps
                             (JObj (dict_set sample_document "@context" (JStr jskos_context)))
                             true (Some 2))]
                    ++ [] |}).
Proof.
  assert (Hread : More.reading (Sample.stdout_args "mixed.xml" "jskos") empty_world
                  = (inr tt, More.after_reading "jskos")) by (vm_compute; reflexivity).
  assert (Hne : graph (More.after_reading "jskos") <> []) by (vm_compute; discriminate).
  split; [exact Hread|]. split; [exact Hne|]. split; [reflexivity|].
  split; [reflexivity|]. split; [reflexivity|].
  exact (@jskos_output Sample.date Sample.strftime_F
           Sample.get_uri Sample.raw Sample.leader_text Sample.new_ClassificationRecord
           Sample.is_public Sample.iterparse Sample.from_rdf Sample.context Sample.dumps Sample.py
           (Sample.stdout_args "mixed.xml" "jskos") empty_world (More.after_reading "jskos")
           sample_document Hread Hne eq_refl eq_refl eq_refl).
Defined.

Lemma jskos_to_binary_file_witness :
  More.reading (Sample.args "mixed.xml" "jskos") empty_world
  = (inr tt, More.after_reading "jskos")
  /\ graph (More.after_reading "jskos") <> []
  /\ Args.outformat (Sample.args "mixed.xml" "jskos") = Some "jskos"
  /\ Sample.from_rdf (graph (More.after_reading "jskos")) Sample.context
     = JObj sample_document
  /\ takes_text Sample.py (out_stream (Sample.args "mixed.xml" "jskos")) = false
  /\ Sample.main (Sample.args "mixed.xml" "jskos") empty_world
     = (inl TypeError,
        {| graph := graph (More.after_reading "jskos");
           bnodes := bnodes (More.after_reading "jskos");
           trace := trace (More.after_reading "jskos") ++ [Open "out.ndjson" "wb"] |}).
Proof.
  assert (Hread : More.reading (Sample.args "mixed.xml" "jskos") empty_world
                  = (inr tt, More.after_reading "jskos")) by (vm_compute; reflexivity).
  assert (Hne : graph (More.after_reading "jskos") <> []) by (vm_compute; discriminate).
  split; [exact Hread|]. split; [exact Hne|]. split; [reflexivity|].
  split; [reflexivity|]. split; [reflexivity|].
  exact (@jskos_to_binary_file Sample.date Sample.strftime_F
           Sample.get_uri Sample.raw Sample.leader_text Sample.new_ClassificationRecord
           Sample.is_public Sample.iterparse Sample.from_rdf Sample.context Sample.dumps Sample.py
           (Sample.args "mixed.xml" "jskos") empty_world (More.after_reading "jskos")
           sample_document Hread Hne eq_refl eq_refl eq_refl).
Defined.

Lemma sort_key_spells_the_notation_witness :
  sort_key "http://dewey.info/class/2--0901/e23/" = Some "T2--0901"
  /\ ((exists before a b after,
          "http://dewey.info/class/2--0901/e23/"
          = (before ++ "/" ++ a ++ "--" ++ b ++ "/e" ++ after)%string
          /\ a <> "" /\ b <> ""
          /\ all_in table_chars a = true /\ all_in number_chars b = true
          /\ "T2--0901" = ("T" ++ a ++ "--" ++ b)%string)
      \/ (exists before a after,
             (forall g, ~ occurs table_pattern "http://dewey.info/class/2--0901/e23/" g)
             /\ "http://dewey.info/class/2--0901/e23/"
                = (before ++ "/" ++ a ++ "/e" ++ after)%string
             /\ a <> "" /\ all_in number_chars a = true
             /\ "T2--0901" = ("A" ++ a)%string)).
Proof.
  assert (H : sort_key "http://dewey.info/class/2--0901/e23/" = Some "T2--0901")
    by (vm_compute; reflexivity).
  split; [exact H|].
  exact (@sort_key_spells_the_notation "http://dewey.info/class/2--0901/e23/" "T2--0901" H).
Defined.

Lemma sort_key_none_iff_witness :
  sort_key "http://data.ub.uio.no/ddc/T1" = None
  /\ (forall g, ~ occurs table_pattern "http://data.ub.uio.no/ddc/T1" g)
  /\ (forall g, ~ occurs schedule_pattern "http://data.ub.uio.no/ddc/T1" g).
Proof.
  assert (H : sort_key "http://data.ub.uio.no/ddc/T1" = None) by (vm_compute; reflexivity).
  split; [exact H|].
  exact (proj1 (sort_key_none_iff "http://data.ub.uio.no/ddc/T1") H).
Defined.

(** The sample run in [ndjson] mode, sent to the standard output. *)
Definition args_to_stdout : Args.t :=
  {| Args.infile := "mixed.xml";
     Args.outfile := Some "-";
     Args.verbose := false;
     Args.outformat := Some "ndjson";
     Args.base_uri := Some "http://dewey.info/{collection}/{object}/e23/";
     Args.scheme_uri := None;
     Args.table_scheme_uri := None;
     Args.indexterms := true;
     Args.notes := true;
     Args.components := true |}.

Lemma standard_output_witness :
  (Args.outfile args_to_stdout = None
   \/ Args.outfile args_to_stdout = Some ""
   \/ Args.outfile args_to_stdout = Some "-")
  /\ exists logs body tail,
       trace (snd (Sample.main args_to_stdout empty_world))
       = trace empty_world ++ logs ++ body ++ tail
       /\ Forall is_log logs
       /\ Forall (written_to Stdout) body
       /\ (tail = [] \/ tail = [Log WARNING "RDF result is empty!" []]).
Proof.
  split; [right; right; reflexivity|].
  exact (@standard_output_is_not_opened Sample.date Sample.strftime_F
           Sample.get_uri Sample.raw Sample.leader_text Sample.new_ClassificationRecord
           Sample.is_public Sample.iterparse Sample.from_rdf Sample.context Sample.dumps Sample.py
           args_to_stdout empty_world (or_intror (or_intror eq_refl))).
Defined.

(** On the standard output the sample run writes its lines after its four
    log entries, and neither opens a file nor reports one. *)
Example stdout_run_events :
  filter (fun e => negb (is_output e))
         (skipn 4 (trace (snd (Sample.main args_to_stdout empty_world)))) = []
  /\ existsb (fun e => match e with Open _ _ => true | _ => false end)
             (trace (snd (Sample.main args_to_stdout empty_world))) = false.
Proof. split; vm_compute; reflexivity. Qed.
